(** * Feature engineering for the Fantasy AI win-prediction model

    A shallow embedding of [engineer_features] and [process_data] from
    [colab_feature_engineering_full.py] (module [Full]) and of
    [engineer_features] from the notebook cell
    [colab_feature_engineering.py] (module [Basic]), followed by the
    properties of the sequential team-state pass.

    Modelling conventions.
    - Python floats are idealised as canonical rationals [Qc]; NaN and
      infinite cells are outside the model.  A nullable score is an
      [option Z] ([None] is a null/NaN score, the test [pd.notna]).
      Rounding is not modelled, so a quotient is only ever equated with
      the expression the source computes it from, or bounded by what
      rounding preserves.
    - The counters moved by [+= 1] are Python integers.  The point totals
      are sums of scores in the arithmetic of the score columns; what is
      said of them is said for scores in range ([scores_in_range]), and
      what is said of a lookup by game id for ids that binary64 holds
      exactly ([exact_in_float]).
    - [team_stats] is a Python dict of dicts.  [home_stats] and
      [away_stats] are references into it, so every field assignment is an
      in-place [alter] of the store at that team's key, executed in source
      order; when a game names the same team on both sides the two
      references alias, and the model follows the aliasing.
    - A pandas table is a [DataFrame]: its column labels and its typed
      rows.  [groupby] drops nothing because key columns hold no nulls.
    - [np.tanh] is a parameter of the development.
    - A raised Python exception is a [Raise] result. *)

From stdpp Require Import gmap strings list fin_maps numbers.
From Stdlib Require Import QArith Qcanon.

Local Open Scope Z_scope.

(** ** Python values shared by both source files *)

Inductive exn :=
  | KeyError (key : string)
  | TypeError
  | AttributeError
  | ValueError (msg : string).

Inductive result (A : Type) :=
  | Return (a : A)
  | Raise (e : exn).
Arguments Return {A} a.
Arguments Raise {A} e.

#[global] Instance result_bind : MBind result := λ A B k r,
  match r with
  | Return a => k a
  | Raise e => Raise e
  end.

(** [pd.to_datetime(game['created_at'])], already parsed. *)
Record Timestamp := {
  hour : Z;
  dayofweek : Z;
  month : Z
}.

(** One row of [games_df]. *)
Record Game := {
  game_id : Z;
  home_team_id : Z;
  away_team_id : Z;
  home_score : option Z;
  away_score : option Z;
  created_at : Timestamp
}.

Record StatRow := {
  st_game_id : Z;
  st_points : Qc;
  st_rebounds : Qc;
  st_assists : Qc;
  st_turnovers : Qc;
  st_minutes : Qc
}.

Record InjuryRow := {
  inj_team_id : Z;
  inj_severity : option string
}.

Record WeatherRow := {
  w_game_id : option Z;
  w_temperature : Qc;
  w_wind_speed : Qc
}.

Record SentimentRow := {
  sent_team_id : Z;
  sentiment_score : Qc
}.

Record DataFrame (R : Type) := {
  columns : list string;
  rows : list R
}.
Arguments columns {R} _.
Arguments rows {R} _.

Definition has_column {R} (c : string) (df : DataFrame R) : bool :=
  bool_decide (c ∈ columns df).

(** [len(df)] *)
Definition len {R} (df : DataFrame R) : Z := Z.of_nat (length (rows df)).

(** ** The pandas and numpy operations the source calls *)

(** [df.groupby(key)]: the rows of each key, in table order. *)
Definition groupby {R} (key : R → Z) (l : list R) : gmap Z (list R) :=
  foldr (λ r m, <[key r := r :: default [] (m !! key r)]> m) ∅ l.

Definition Qc_sum (l : list Qc) : Qc := foldr Qcplus 0%Qc l.

Definition Qc_max (a b : Qc) : Qc := if decide (a ≤ b)%Qc then b else a.

(** [np.mean] and the pandas [mean] of a non-empty series. *)
Definition mean (l : list Qc) : Qc :=
  (Qc_sum l / Qc_of_Z (Z.of_nat (length l)))%Qc.

Definition series_max (l : list Qc) : Qc := foldr Qc_max (hd 0%Qc l) l.

Definition apply_stat (stat : string) (l : list Qc) : Qc :=
  if bool_decide (stat = "mean") then mean l
  else if bool_decide (stat = "sum") then Qc_sum l
  else if bool_decide (stat = "max") then series_max l
  else 0%Qc.

Definition stat_column (c : string) (r : StatRow) : Qc :=
  if bool_decide (c = "points") then st_points r
  else if bool_decide (c = "rebounds") then st_rebounds r
  else if bool_decide (c = "assists") then st_assists r
  else if bool_decide (c = "turnovers") then st_turnovers r
  else st_minutes r.

(** One row of [.agg(agg_dict)]: a dict keyed by (column, statistic). *)
Definition agg_row (agg_dict : list (string * list string)) (group : list StatRow)
  : gmap (string * string) Qc :=
  foldr (λ '(c, stats) d,
           foldr (λ s d, <[(c, s) := apply_stat s (stat_column c <$> group)]> d) d stats)
        ∅ agg_dict.

(** [stats_df.groupby('game_id').agg(agg_dict).to_dict('index')] *)
Definition agg_by_game (agg_dict : list (string * list string)) (l : list StatRow)
  : gmap Z (gmap (string * string) Qc) :=
  agg_row agg_dict <$> groupby st_game_id l.

(** Python integer true division [a / b]. *)
Definition py_div (a b : Z) : Qc := (Qc_of_Z a / Qc_of_Z b)%Qc.

(** Python [min(a, b)]: the first argument unless the second is smaller. *)
Definition py_min (a b : Qc) : Qc := if decide (b < a)%Qc then b else a.

(** Python [l[-n:]] *)
Definition last_n {A} (n : nat) (l : list A) : list A :=
  drop (length l - n)%nat l.

(** [np.mean] of a list of 0/1 outcomes. *)
Definition form_mean (l : list Z) : Qc := mean (Qc_of_Z <$> l).

Definition Q_lit (n : Z) (d : positive) : Qc := Q2Qc (n # d).

(** ** Table-level quantities the properties are stated with *)

(** The injury rows of one team. *)
Definition injury_rows (injuries_df : DataFrame InjuryRow) (team_id : Z) : list InjuryRow :=
  filter (λ r, inj_team_id r = team_id) (rows injuries_df).

(** The sentiment scores of one team. *)
Definition sentiment_scores (sentiment_df : DataFrame SentimentRow) (team_id : Z) : list Qc :=
  sentiment_score <$> filter (λ r, sent_team_id r = team_id) (rows sentiment_df).

(** The number of injury rows of a team, as far as the table can tell
    teams apart. *)
Definition injury_count (injuries_df : DataFrame InjuryRow) (team_id : Z) : Z :=
  if has_column "team_id" injuries_df
  then Z.of_nat (length (injury_rows injuries_df team_id))
  else 0.

(** The number of injury rows of a team that carry a severity. *)
Definition severity_count (injuries_df : DataFrame InjuryRow) (team_id : Z) : Z :=
  Z.of_nat (length (filter (λ r, is_Some (inj_severity r)) (injury_rows injuries_df team_id))).

(** The mean sentiment of a team over the whole table, 0 without rows. *)
Definition team_sentiment (sentiment_df : DataFrame SentimentRow) (team_id : Z) : Qc :=
  if has_column "team_id" sentiment_df && has_column "sentiment_score" sentiment_df
  then match sentiment_scores sentiment_df team_id with
       | [] => 0%Qc
       | scores => mean scores
       end
  else 0%Qc.

(** ** [colab_feature_engineering_full.py] *)

Module Full.

Record TeamStats := mkTeamStats {
  games : Z;
  wins : Z;
  losses : Z;
  points_for : Z;
  points_against : Z;
  recent_form : list Z;
  home_games : Z;
  home_wins : Z;
  away_games : Z;
  away_wins : Z;
  streak : Z;
  rest_days : Z
}.

(** The dict literal of lines 66-79. *)
Definition new_team_stats : TeamStats :=
  mkTeamStats 0 0 0 0 0 [] 0 0 0 0 0 0.

(** Field assignments [stats[field] = f(stats[field])]. *)
Definition on_games (f : Z → Z) (s : TeamStats) : TeamStats :=
  mkTeamStats (f (games s)) (wins s) (losses s) (points_for s) (points_against s)
    (recent_form s) (home_games s) (home_wins s) (away_games s) (away_wins s)
    (streak s) (rest_days s).
Definition on_wins (f : Z → Z) (s : TeamStats) : TeamStats :=
  mkTeamStats (games s) (f (wins s)) (losses s) (points_for s) (points_against s)
    (recent_form s) (home_games s) (home_wins s) (away_games s) (away_wins s)
    (streak s) (rest_days s).
Definition on_losses (f : Z → Z) (s : TeamStats) : TeamStats :=
  mkTeamStats (games s) (wins s) (f (losses s)) (points_for s) (points_against s)
    (recent_form s) (home_games s) (home_wins s) (away_games s) (away_wins s)
    (streak s) (rest_days s).
Definition on_points_for (f : Z → Z) (s : TeamStats) : TeamStats :=
  mkTeamStats (games s) (wins s) (losses s) (f (points_for s)) (points_against s)
    (recent_form s) (home_games s) (home_wins s) (away_games s) (away_wins s)
    (streak s) (rest_days s).
Definition on_points_against (f : Z → Z) (s : TeamStats) : TeamStats :=
  mkTeamStats (games s) (wins s) (losses s) (points_for s) (f (points_against s))
    (recent_form s) (home_games s) (home_wins s) (away_games s) (away_wins s)
    (streak s) (rest_days s).
Definition on_recent_form (f : list Z → list Z) (s : TeamStats) : TeamStats :=
  mkTeamStats (games s) (wins s) (losses s) (points_for s) (points_against s)
    (f (recent_form s)) (home_games s) (home_wins s) (away_games s) (away_wins s)
    (streak s) (rest_days s).
Definition on_home_games (f : Z → Z) (s : TeamStats) : TeamStats :=
  mkTeamStats (games s) (wins s) (losses s) (points_for s) (points_against s)
    (recent_form s) (f (home_games s)) (home_wins s) (away_games s) (away_wins s)
    (streak s) (rest_days s).
Definition on_home_wins (f : Z → Z) (s : TeamStats) : TeamStats :=
  mkTeamStats (games s) (wins s) (losses s) (points_for s) (points_against s)
    (recent_form s) (home_games s) (f (home_wins s)) (away_games s) (away_wins s)
    (streak s) (rest_days s).
Definition on_away_games (f : Z → Z) (s : TeamStats) : TeamStats :=
  mkTeamStats (games s) (wins s) (losses s) (points_for s) (points_against s)
    (recent_form s) (home_games s) (home_wins s) (f (away_games s)) (away_wins s)
    (streak s) (rest_days s).
Definition on_away_wins (f : Z → Z) (s : TeamStats) : TeamStats :=
  mkTeamStats (games s) (wins s) (losses s) (points_for s) (points_against s)
    (recent_form s) (home_games s) (home_wins s) (away_games s) (f (away_wins s))
    (streak s) (rest_days s).
Definition on_streak (f : Z → Z) (s : TeamStats) : TeamStats :=
  mkTeamStats (games s) (wins s) (losses s) (points_for s) (points_against s)
    (recent_form s) (home_games s) (home_wins s) (away_games s) (away_wins s)
    (f (streak s)) (rest_days s).

(** [x += 1] *)
Definition incr (x : Z) : Z := x + 1.

(** [x + 1 if x > 0 else 1] (lines 182 and 191). *)
Definition streak_after_win (x : Z) : Z := if bool_decide (0 < x) then x + 1 else 1.

(** [-1 if x > 0 else x - 1] (lines 183 and 190). *)
Definition streak_after_loss (x : Z) : Z := if bool_decide (0 < x) then -1 else x - 1.

(** A statement [team_stats[team_id][field] = ...]: the dict of that team
    is mutated in place inside the store. *)
Definition assign (team_id : Z) (f : TeamStats → TeamStats)
  (team_stats : gmap Z TeamStats) : gmap Z TeamStats :=
  alter f team_id team_stats.

(** A block of statements, executed in order. *)
Definition block (stmts : list (gmap Z TeamStats → gmap Z TeamStats))
  (team_stats : gmap Z TeamStats) : gmap Z TeamStats :=
  foldl (λ ts stmt, stmt ts) team_stats stmts.

(** Lines 64-79 for one [team_id]. *)
Definition init_team (team_id : Z) (team_stats : gmap Z TeamStats) : gmap Z TeamStats :=
  match team_stats !! team_id with
  | Some _ => team_stats
  | None => <[team_id := new_team_stats]> team_stats
  end.

(** [team_stats[team_id]], read after [init_team]. *)
Definition stats_of (team_stats : gmap Z TeamStats) (team_id : Z) : TeamStats :=
  default new_team_stats (team_stats !! team_id).

(** Lines 161-195: the update of both teams with the result of a game. *)
Definition update_team_stats (home_id away_id hs as_ : Z) : gmap Z TeamStats → gmap Z TeamStats :=
  let home_won := bool_decide (as_ < hs) in
  block (
    [ assign home_id (on_games incr);
      assign away_id (on_games incr);
      assign home_id (on_points_for (λ x, x + hs));
      assign home_id (on_points_against (λ x, x + as_));
      assign away_id (on_points_for (λ x, x + as_));
      assign away_id (on_points_against (λ x, x + hs));
      assign home_id (on_home_games incr);
      assign away_id (on_away_games incr) ]
    ++ (if home_won then
      [ assign home_id (on_wins incr);
        assign away_id (on_losses incr);
        assign home_id (on_home_wins incr);
        assign home_id (on_recent_form (λ l, l ++ [1]));
        assign away_id (on_recent_form (λ l, l ++ [0]));
        assign home_id (on_streak streak_after_win);
        assign away_id (on_streak streak_after_loss) ]
    else
      [ assign home_id (on_losses incr);
        assign away_id (on_wins incr);
        assign away_id (on_away_wins incr);
        assign home_id (on_recent_form (λ l, l ++ [0]));
        assign away_id (on_recent_form (λ l, l ++ [1]));
        assign home_id (on_streak streak_after_loss);
        assign away_id (on_streak streak_after_win) ])
    ++
    [ assign home_id (on_recent_form (last_n 10));
      assign away_id (on_recent_form (last_n 10)) ]).


(** The four lookup dicts built before the loop (lines 19-53). *)
Record Lookups := {
  stats_by_game : gmap Z (gmap (string * string) Qc);
  injuries_by_team : gmap Z Z;
  weather_by_game : gmap Z (gmap string Qc);
  sentiment_by_team : gmap Z Qc
}.

(** Lines 20-35.  The typed rows make [agg] total, so the bare [except]
    never fires. *)
Definition build_stats_by_game (stats_df : DataFrame StatRow)
  : gmap Z (gmap (string * string) Qc) :=
  if bool_decide (0 < len stats_df) then
    if has_column "game_id" stats_df then
      let agg_dict :=
        (λ col, (col, ["mean"; "sum"; "max"])) <$>
        filter (λ col, has_column col stats_df = true)
          ["points"; "rebounds"; "assists"; "turnovers"; "minutes"] in
      match agg_dict with
      | [] => ∅
      | _ => agg_by_game agg_dict (rows stats_df)
      end
    else ∅
  else ∅.

(** Lines 38-40: [groupby('team_id').size().to_dict()]. *)
Definition build_injuries_by_team (injuries_df : DataFrame InjuryRow) : gmap Z Z :=
  if bool_decide (0 < len injuries_df) && has_column "team_id" injuries_df then
    (λ group, Z.of_nat (length group)) <$> groupby inj_team_id (rows injuries_df)
  else ∅.

(** [w.to_dict()]: one entry per column of the weather table. *)
Definition weather_to_dict (cols : list string) (w : WeatherRow) : gmap string Qc :=
  let d0 : gmap string Qc := ∅ in
  let d1 := match w_game_id w with
            | Some g => if bool_decide ("game_id" ∈ cols) then <["game_id" := Qc_of_Z g]> d0 else d0
            | None => d0
            end in
  let d2 := if bool_decide ("temperature" ∈ cols) then <["temperature" := w_temperature w]> d1 else d1 in
  if bool_decide ("wind_speed" ∈ cols) then <["wind_speed" := w_wind_speed w]> d2 else d2.

(** Lines 43-47: a later row of the same game overwrites an earlier one. *)
Definition build_weather_by_game (weather_df : DataFrame WeatherRow)
  : gmap Z (gmap string Qc) :=
  if bool_decide (0 < len weather_df) then
    foldl (λ d w,
             if has_column "game_id" weather_df then
               match w_game_id w with
               | Some g => <[g := weather_to_dict (columns weather_df) w]> d
               | None => d
               end
             else d)
          ∅ (rows weather_df)
  else ∅.

(** Lines 50-53: [groupby('team_id')['sentiment_score'].mean().to_dict()]. *)
Definition build_sentiment_by_team (sentiment_df : DataFrame SentimentRow) : gmap Z Qc :=
  if bool_decide (0 < len sentiment_df) then
    if has_column "team_id" sentiment_df && has_column "sentiment_score" sentiment_df then
      (λ group, mean (sentiment_score <$> group)) <$> groupby sent_team_id (rows sentiment_df)
    else ∅
  else ∅.

Definition build_lookups (stats_df : DataFrame StatRow) (injuries_df : DataFrame InjuryRow)
  (weather_df : DataFrame WeatherRow) (sentiment_df : DataFrame SentimentRow) : Lookups :=
  {| stats_by_game := build_stats_by_game stats_df;
     injuries_by_team := build_injuries_by_team injuries_df;
     weather_by_game := build_weather_by_game weather_df;
     sentiment_by_team := build_sentiment_by_team sentiment_df |}.

(** The loop variables: the team store and the two output lists. *)
Record LoopState := {
  team_stats : gmap Z TeamStats;
  features : list (list Qc);
  labels : list Z
}.

Definition initial_state : LoopState :=
  {| team_stats := ∅; features := []; labels := [] |}.

Section WithTanh.

Variable np_tanh : Qc → Qc.

(** Lines 103-107 for one team. *)
Definition recent_form_feature (stats : TeamStats) : Qc :=
  let recent :=
    if bool_decide (5 ≤ Z.of_nat (length (recent_form stats)))
    then last_n 5 (recent_form stats)
    else recent_form stats in
  match recent with
  | [] => Q_lit 1 2
  | _ => form_mean recent
  end.

(** Lines 116-128. *)
Definition player_stats_features (lk : Lookups) (game : Game) : list Qc :=
  let game_stats := default ∅ (stats_by_game lk !! game_id game) in
  if bool_decide (game_stats = ∅) then [0%Qc; 0%Qc]
  else
    let points_sum := default 0%Qc (game_stats !! ("points", "sum")) in
    let points_mean := default 0%Qc (game_stats !! ("points", "mean")) in
    [(points_mean / Qc_of_Z 20)%Qc; (points_sum / Qc_of_Z 200)%Qc].

(** Lines 89-155: the 23 features, read from the two teams' dicts before
    the update. *)
Definition game_features (lk : Lookups) (game : Game)
  (home_stats away_stats : TeamStats) : list Qc :=
  let home_id := home_team_id game in
  let away_id := away_team_id game in
  [ py_div (wins home_stats) (games home_stats);
    py_div (wins away_stats) (games away_stats);
    py_div (points_for home_stats) (games home_stats);
    py_div (points_for away_stats) (games away_stats);
    py_div (points_against home_stats) (games home_stats);
    py_div (points_against away_stats) (games away_stats);
    recent_form_feature home_stats;
    recent_form_feature away_stats;
    (py_div (wins home_stats) (games home_stats)
     - py_div (wins away_stats) (games away_stats))%Qc;
    py_div (points_for home_stats - points_against home_stats) (games home_stats);
    py_div (points_for away_stats - points_against away_stats) (games away_stats) ]
  ++ player_stats_features lk game
  ++
  (let home_injuries := default 0 (injuries_by_team lk !! home_id) in
   let away_injuries := default 0 (injuries_by_team lk !! away_id) in
   [ py_min (Qc_of_Z home_injuries / Qc_of_Z 5)%Qc 1%Qc;
     py_min (Qc_of_Z away_injuries / Qc_of_Z 5)%Qc 1%Qc ])
  ++
  (let weather := default ∅ (weather_by_game lk !! game_id game) in
   let temp := (default (Qc_of_Z 72) (weather !! "temperature") / Qc_of_Z 100)%Qc in
   let wind := (default (Qc_of_Z 5) (weather !! "wind_speed") / Qc_of_Z 30)%Qc in
   [ temp; wind ])
  ++
  (let home_sentiment := default 0%Qc (sentiment_by_team lk !! home_id) in
   let away_sentiment := default 0%Qc (sentiment_by_team lk !! away_id) in
   [ np_tanh home_sentiment; np_tanh away_sentiment ])
  ++
  (let game_date := created_at game in
   [ (Qc_of_Z (hour game_date) / Qc_of_Z 24)%Qc;
     (Qc_of_Z (dayofweek game_date) / Qc_of_Z 7)%Qc;
     (Qc_of_Z (month game_date) / Qc_of_Z 12)%Qc ])
  ++ [ 1%Qc ].

(** Line 159. *)
Definition label_of (hs as_ : Z) : Z := if bool_decide (as_ < hs) then 1 else 0.

(** The body of the [for] loop, lines 60-195. *)
Definition loop_body (lk : Lookups) (acc : LoopState) (game : Game) : LoopState :=
  let home_id := home_team_id game in
  let away_id := away_team_id game in
  let ts := init_team away_id (init_team home_id (team_stats acc)) in
  match home_score game, away_score game with
  | Some hs, Some as_ =>
      let home_stats := stats_of ts home_id in
      let away_stats := stats_of ts away_id in
      let emit := bool_decide (5 ≤ games home_stats) && bool_decide (5 ≤ games away_stats) in
      {| team_stats := update_team_stats home_id away_id hs as_ ts;
         features :=
           if emit then features acc ++ [game_features lk game home_stats away_stats]
           else features acc;
         labels :=
           if emit then labels acc ++ [label_of hs as_] else labels acc |}
  | _, _ =>
      {| team_stats := ts; features := features acc; labels := labels acc |}
  end.

(** Lines 59-195: the loop over [games_df.iterrows()]. *)
Definition game_loop (lk : Lookups) (acc : LoopState) (games_df : list Game) : LoopState :=
  foldl (loop_body lk) acc games_df.

(** Lines 12-197. *)
Definition engineer_features (games_df : list Game) (stats_df : DataFrame StatRow)
  (injuries_df : DataFrame InjuryRow) (weather_df : DataFrame WeatherRow)
  (sentiment_df : DataFrame SentimentRow) : list (list Qc) * list Z :=
  let lk := build_lookups stats_df injuries_df weather_df sentiment_df in
  let acc := game_loop lk initial_state games_df in
  (features acc, labels acc).

(** The loop body run on [game] from [acc] appended the pair [(v, l)]. *)
Definition emits (lk : Lookups) (acc : LoopState) (game : Game)
  (v : list Qc) (l : Z) : Prop :=
  features (loop_body lk acc game) = features acc ++ [v] ∧
  labels (loop_body lk acc game) = labels acc ++ [l].

(** Some row [game] of the table emitted [(v, l)] during the run. *)
Definition emitted (lk : Lookups) (games_df : list Game) (game : Game)
  (v : list Qc) (l : Z) : Prop :=
  ∃ pre post, games_df = pre ++ game :: post ∧
    emits lk (game_loop lk initial_state pre) game v l.

(** Lines 220-232 are calls into scikit-learn: the stratified splits and
    the scaler, taken as one parameter that may raise. *)
Variable Splits : Type.
Variable split_and_scale : list (list Qc) → list Z → result Splits.

(** Lines 200-232.  The progress prints are not modelled. *)
Definition process_data (df_games : list Game) (df_stats : DataFrame StatRow)
  (df_injuries : DataFrame InjuryRow) (df_weather : DataFrame WeatherRow)
  (df_sentiment : DataFrame SentimentRow) : result Splits :=
  let '(X, y) := engineer_features df_games df_stats df_injuries df_weather df_sentiment in
  if bool_decide (length X = 0%nat) then
    Raise (ValueError "No features created! Check your data.")
  else split_and_scale X y.

End WithTanh.

(** The per-team invariant: the record balances, and the form window
    holds the last [min(games, 10)] outcomes. *)
Definition team_ok (s : TeamStats) : Prop :=
  wins s + losses s = games s ∧
  Z.of_nat (length (recent_form s)) = Z.min (games s) 10.

Definition store_ok (ts : gmap Z TeamStats) : Prop :=
  ∀ t s, ts !! t = Some s → team_ok s.

End Full.

(** ** [colab_feature_engineering.py] *)

Module Basic.

Record TeamStats := mkTeamStats {
  games : Z;
  wins : Z;
  losses : Z;
  points_for : Z;
  points_against : Z;
  recent_form : list Z
}.

(** The dict literal of lines 29-33. *)
Definition new_team_stats : TeamStats := mkTeamStats 0 0 0 0 0 [].

Definition on_games (f : Z → Z) (s : TeamStats) : TeamStats :=
  mkTeamStats (f (games s)) (wins s) (losses s) (points_for s) (points_against s)
    (recent_form s).
Definition on_wins (f : Z → Z) (s : TeamStats) : TeamStats :=
  mkTeamStats (games s) (f (wins s)) (losses s) (points_for s) (points_against s)
    (recent_form s).
Definition on_losses (f : Z → Z) (s : TeamStats) : TeamStats :=
  mkTeamStats (games s) (wins s) (f (losses s)) (points_for s) (points_against s)
    (recent_form s).
Definition on_points_for (f : Z → Z) (s : TeamStats) : TeamStats :=
  mkTeamStats (games s) (wins s) (losses s) (f (points_for s)) (points_against s)
    (recent_form s).
Definition on_points_against (f : Z → Z) (s : TeamStats) : TeamStats :=
  mkTeamStats (games s) (wins s) (losses s) (points_for s) (f (points_against s))
    (recent_form s).
Definition on_recent_form (f : list Z → list Z) (s : TeamStats) : TeamStats :=
  mkTeamStats (games s) (wins s) (losses s) (points_for s) (points_against s)
    (f (recent_form s)).

Definition incr (x : Z) : Z := x + 1.

Definition assign (team_id : Z) (f : TeamStats → TeamStats)
  (team_stats : gmap Z TeamStats) : gmap Z TeamStats :=
  alter f team_id team_stats.

Definition block (stmts : list (gmap Z TeamStats → gmap Z TeamStats))
  (team_stats : gmap Z TeamStats) : gmap Z TeamStats :=
  foldl (λ ts stmt, stmt ts) team_stats stmts.

(** Lines 27-33 for one [team_id]. *)
Definition init_team (team_id : Z) (team_stats : gmap Z TeamStats) : gmap Z TeamStats :=
  match team_stats !! team_id with
  | Some _ => team_stats
  | None => <[team_id := new_team_stats]> team_stats
  end.

Definition stats_of (team_stats : gmap Z TeamStats) (team_id : Z) : TeamStats :=
  default new_team_stats (team_stats !! team_id).

(** Lines 43-65, and again, statement for statement, lines 118-139. *)
Definition update_team_stats (home_id away_id hs as_ : Z) : gmap Z TeamStats → gmap Z TeamStats :=
  let home_won := bool_decide (as_ < hs) in
  block (
    [ assign home_id (on_games incr);
      assign away_id (on_games incr);
      assign home_id (on_points_for (λ x, x + hs));
      assign home_id (on_points_against (λ x, x + as_));
      assign away_id (on_points_for (λ x, x + as_));
      assign away_id (on_points_against (λ x, x + hs)) ]
    ++ (if home_won then
      [ assign home_id (on_wins incr);
        assign away_id (on_losses incr);
        assign home_id (on_recent_form (λ l, l ++ [1]));
        assign away_id (on_recent_form (λ l, l ++ [0])) ]
    else
      [ assign home_id (on_losses incr);
        assign away_id (on_wins incr);
        assign home_id (on_recent_form (λ l, l ++ [0]));
        assign away_id (on_recent_form (λ l, l ++ [1])) ])
    ++
    [ assign home_id (on_recent_form (last_n 10));
      assign away_id (on_recent_form (last_n 10)) ]).

Record Lookups := {
  stats_by_game : gmap Z (gmap (string * string) Qc);
  injuries_by_team : gmap Z Z;
  weather_by_game : gmap Z (gmap string Qc);
  sentiment_by_team : gmap Z Qc
}.

(** A column access that raises [KeyError] when the column is missing.
    The payload is the first missing label; the message pandas builds
    around the labels is not modelled, and no property reads it. *)
Definition require_columns {R} (cols : list string) (df : DataFrame R) : result unit :=
  match filter (λ c, has_column c df = false) cols with
  | [] => Return ()
  | c :: _ => Raise (KeyError c)
  end.

(** Lines 9-14. *)
Definition build_stats_by_game (stats_df : DataFrame StatRow)
  : result (gmap Z (gmap (string * string) Qc)) :=
  _ ← require_columns ["game_id"; "points"; "rebounds"; "assists"; "turnovers"] stats_df;
  Return (agg_by_game
            [ ("points", ["mean"; "sum"; "max"]);
              ("rebounds", ["mean"; "sum"]);
              ("assists", ["mean"; "sum"]);
              ("turnovers", ["mean"; "sum"]) ]
            (rows stats_df)).

(** Line 16: [count()] counts the non-null severities of each team. *)
Definition build_injuries_by_team (injuries_df : DataFrame InjuryRow) : result (gmap Z Z) :=
  _ ← require_columns ["team_id"; "severity"] injuries_df;
  Return ((λ group, Z.of_nat (length (filter (λ r, is_Some (inj_severity r)) group)))
            <$> groupby inj_team_id (rows injuries_df)).

(** Line 17.  Iterating a DataFrame yields its column labels, and a label
    has no [get] method: the comprehension raises on the first label, and
    yields the empty dict for a table without columns. *)
Definition build_weather_by_game (weather_df : DataFrame WeatherRow)
  : result (gmap Z (gmap string Qc)) :=
  match columns weather_df with
  | [] => Return ∅
  | _ :: _ => Raise AttributeError
  end.

(** Line 18. *)
Definition build_sentiment_by_team (sentiment_df : DataFrame SentimentRow)
  : result (gmap Z Qc) :=
  _ ← require_columns ["team_id"; "sentiment_score"] sentiment_df;
  Return ((λ group, mean (sentiment_score <$> group))
            <$> groupby sent_team_id (rows sentiment_df)).

Definition build_lookups (stats_df : DataFrame StatRow) (injuries_df : DataFrame InjuryRow)
  (weather_df : DataFrame WeatherRow) (sentiment_df : DataFrame SentimentRow)
  : result Lookups :=
  s ← build_stats_by_game stats_df;
  i ← build_injuries_by_team injuries_df;
  w ← build_weather_by_game weather_df;
  t ← build_sentiment_by_team sentiment_df;
  Return {| stats_by_game := s; injuries_by_team := i;
            weather_by_game := w; sentiment_by_team := t |}.

Record LoopState := {
  team_stats : gmap Z TeamStats;
  features : list (list Qc);
  labels : list Z
}.

Definition initial_state : LoopState :=
  {| team_stats := ∅; features := []; labels := [] |}.

(** Lines 79-80 for one team. *)
Definition recent_form_feature (stats : TeamStats) : Qc :=
  match recent_form stats with
  | [] => Q_lit 1 2
  | _ => form_mean (last_n 5 (recent_form stats))
  end.

(** Lines 90-91.  The aggregated value is a float, so subscripting it with
    [[0]] raises; only the default tuple [(0,)] can be subscripted. *)
Definition player_stats_feature (lk : Lookups) (game : Game) (stat : string) : result Qc :=
  if bool_decide (is_Some (stats_by_game lk !! game_id game)) then
    match default ∅ (stats_by_game lk !! game_id game) !! ("points", stat) with
    | Some _ => Raise TypeError
    | None => Return 0%Qc
    end
  else Return 0%Qc.

(** Lines 98-99. *)
Definition weather_feature (lk : Lookups) (game : Game) (key : string)
  (missing : Z) (scale : Z) (no_record : Qc) : Qc :=
  if bool_decide (is_Some (weather_by_game lk !! game_id game)) then
    (default (Qc_of_Z missing) (default ∅ (weather_by_game lk !! game_id game) !! key)
     / Qc_of_Z scale)%Qc
  else no_record.

(** Lines 69-112: the list display, its elements evaluated in order. *)
Definition game_features (lk : Lookups) (game : Game)
  (home_stats away_stats : TeamStats) : result (list Qc) :=
  let home_id := home_team_id game in
  let away_id := away_team_id game in
  points_mean ← player_stats_feature lk game "mean";
  points_sum ← player_stats_feature lk game "sum";
  Return
    [ py_div (wins home_stats) (games home_stats);
      py_div (wins away_stats) (games away_stats);
      py_div (points_for home_stats) (games home_stats);
      py_div (points_for away_stats) (games away_stats);
      py_div (points_against home_stats) (games home_stats);
      py_div (points_against away_stats) (games away_stats);
      recent_form_feature home_stats;
      recent_form_feature away_stats;
      (py_div (wins home_stats) (games home_stats)
       - py_div (wins away_stats) (games away_stats))%Qc;
      py_div (points_for home_stats - points_against home_stats) (games home_stats);
      py_div (points_for away_stats - points_against away_stats) (games away_stats);
      points_mean;
      points_sum;
      Qc_of_Z (default 0 (injuries_by_team lk !! home_id));
      Qc_of_Z (default 0 (injuries_by_team lk !! away_id));
      weather_feature lk game "temperature" 72 100 (Q_lit 72 100);
      weather_feature lk game "wind_speed" 5 30 (Q_lit 17 100);
      default 0%Qc (sentiment_by_team lk !! home_id);
      default 0%Qc (sentiment_by_team lk !! away_id);
      (Qc_of_Z (hour (created_at game)) / Qc_of_Z 24)%Qc;
      (Qc_of_Z (dayofweek (created_at game)) / Qc_of_Z 7)%Qc;
      (Qc_of_Z (month (created_at game)) / Qc_of_Z 12)%Qc;
      1%Qc ].

(** Line 115. *)
Definition label_of (hs as_ : Z) : Z := if bool_decide (as_ < hs) then 1 else 0.

(** The body of the [for] loop, lines 23-139. *)
Definition loop_body (lk : Lookups) (acc : LoopState) (game : Game) : result LoopState :=
  let home_id := home_team_id game in
  let away_id := away_team_id game in
  let ts := init_team away_id (init_team home_id (team_stats acc)) in
  match home_score game, away_score game with
  | Some hs, Some as_ =>
      let home_stats := stats_of ts home_id in
      let away_stats := stats_of ts away_id in
      if bool_decide (games home_stats < 5) || bool_decide (games away_stats < 5) then
        Return {| team_stats := update_team_stats home_id away_id hs as_ ts;
                  features := features acc;
                  labels := labels acc |}
      else
        game_features ← game_features lk game home_stats away_stats;
        Return {| team_stats := update_team_stats home_id away_id hs as_ ts;
                  features := features acc ++ [game_features];
                  labels := labels acc ++ [label_of hs as_] |}
  | _, _ =>
      Return {| team_stats := ts; features := features acc; labels := labels acc |}
  end.

(** Lines 22-139: the loop stops at the first exception. *)
Definition game_loop (lk : Lookups) (acc : LoopState) (games_df : list Game)
  : result LoopState :=
  foldl (λ r game, acc ← r; loop_body lk acc game) (Return acc) games_df.

(** Lines 4-141. *)
Definition engineer_features (games_df : list Game) (stats_df : DataFrame StatRow)
  (injuries_df : DataFrame InjuryRow) (weather_df : DataFrame WeatherRow)
  (sentiment_df : DataFrame SentimentRow) : result (list (list Qc) * list Z) :=
  lk ← build_lookups stats_df injuries_df weather_df sentiment_df;
  acc ← game_loop lk initial_state games_df;
  Return (features acc, labels acc).

(** The loop body returned, having appended the pair [(v, l)]. *)
Definition emits (lk : Lookups) (acc : LoopState) (game : Game)
  (v : list Qc) (l : Z) : Prop :=
  ∃ acc', loop_body lk acc game = Return acc' ∧
    features acc' = features acc ++ [v] ∧
    labels acc' = labels acc ++ [l].

Definition emitted (lk : Lookups) (games_df : list Game) (game : Game)
  (v : list Qc) (l : Z) : Prop :=
  ∃ pre post acc, games_df = pre ++ game :: post ∧
    game_loop lk initial_state pre = Return acc ∧
    emits lk acc game v l.

(** The per-team invariant: the record balances, and the form window
    holds the last [min(games, 10)] outcomes. *)
Definition team_ok (s : TeamStats) : Prop :=
  wins s + losses s = games s ∧
  Z.of_nat (length (recent_form s)) = Z.min (games s) 10.

Definition store_ok (ts : gmap Z TeamStats) : Prop :=
  ∀ t s, ts !! t = Some s → team_ok s.

End Basic.

(** ** Sample tables

    Five games between teams 1 and 2 warm both teams up; the sixth game
    is the first one played by two teams with five games each. *)

Module Samples.

Definition evening : Timestamp := {| hour := 19; dayofweek := 4; month := 11 |}.

Definition played (gid home away hs as_ : Z) : Game :=
  {| game_id := gid; home_team_id := home; away_team_id := away;
     home_score := Some hs; away_score := Some as_; created_at := evening |}.

Definition unplayed (gid home away : Z) : Game :=
  {| game_id := gid; home_team_id := home; away_team_id := away;
     home_score := None; away_score := None; created_at := evening |}.

Definition warm_up : list Game :=
  [ played 1 1 2 100 90; played 2 2 1 95 98; played 3 1 2 102 88;
    played 4 2 1 90 90; played 5 1 2 80 85 ].

Definition sixth : Game := played 6 1 2 101 99.

Definition season : list Game := warm_up ++ [sixth].

Definition no_table {R} : DataFrame R := {| columns := []; rows := [] |}.

Definition stats_header : DataFrame StatRow :=
  {| columns := ["game_id"; "points"; "rebounds"; "assists"; "turnovers"]; rows := [] |}.

Definition sixth_game_stats : DataFrame StatRow :=
  {| columns := ["game_id"; "points"; "rebounds"; "assists"; "turnovers"];
     rows := [ {| st_game_id := 6; st_points := Q_lit 24 1; st_rebounds := Q_lit 7 1;
                  st_assists := Q_lit 5 1; st_turnovers := Q_lit 2 1;
                  st_minutes := Q_lit 31 1 |} ] |}.

Definition one_injury : DataFrame InjuryRow :=
  {| columns := ["team_id"; "severity"];
     rows := [ {| inj_team_id := 1; inj_severity := Some "knee" |} ] |}.

Definition six_injuries : DataFrame InjuryRow :=
  {| columns := ["team_id"; "severity"];
     rows := replicate 6 {| inj_team_id := 1; inj_severity := Some "knee" |} |}.

Definition one_sentiment : DataFrame SentimentRow :=
  {| columns := ["team_id"; "sentiment_score"];
     rows := [ {| sent_team_id := 2; sentiment_score := Q_lit 1 4 |} ] |}.

Definition full_lookups : Full.Lookups :=
  Full.build_lookups stats_header one_injury no_table one_sentiment.

Definition basic_lookups : Basic.Lookups :=
  {| Basic.stats_by_game := ∅;
     Basic.injuries_by_team := {[ 1 := 1 ]};
     Basic.weather_by_game := ∅;
     Basic.sentiment_by_team := {[ 2 := Q_lit 1 4 ]} |}.

(** A stand-in for [np.tanh] where a concrete run is evaluated. *)
Definition squash (x : Qc) : Qc := (x / (1 + x * x))%Qc.

Definition seventh : Game := played 7 1 2 88 93.

Definition long_season : list Game := warm_up ++ [sixth; seventh].

(** The loop state after the five warm-up games. *)
Abbreviation warmed :=
  (Full.game_loop squash full_lookups Full.initial_state warm_up) (only parsing).

Definition warmed_nb : Basic.LoopState :=
  match Basic.game_loop basic_lookups Basic.initial_state warm_up with
  | Return acc => acc
  | Raise _ => Basic.initial_state
  end.

(** The vector the sixth game emits. *)
Definition sixth_vector : list Qc :=
  Full.game_features squash full_lookups sixth
    (Full.stats_of (Full.team_stats warmed) 1) (Full.stats_of (Full.team_stats warmed) 2).

Definition seventh_vector : list Qc :=
  let acc := Full.loop_body squash full_lookups warmed sixth in
  Full.game_features squash full_lookups seventh
    (Full.stats_of (Full.team_stats acc) 1) (Full.stats_of (Full.team_stats acc) 2).

End Samples.

(** ** Quantities for the further properties *)

(** Both scores are present: the test of line 82 (line 36 in the notebook). *)
Definition scored (game : Game) : bool :=
  match home_score game, away_score game with
  | Some _, Some _ => true
  | _, _ => false
  end.

(** The same row with other scores. *)
Definition with_scores (game : Game) (hs as_ : option Z) : Game :=
  {| game_id := game_id game;
     home_team_id := home_team_id game;
     away_team_id := away_team_id game;
     home_score := hs;
     away_score := as_;
     created_at := created_at game |}.

(** The team ids of a games table. *)
Definition teams_seen (games_df : list Game) : gset Z :=
  foldr (λ game ids, {[home_team_id game]} ∪ {[away_team_id game]} ∪ ids) ∅ games_df.

(** The points both sides scored in the scored rows of a table. *)
Definition points_played (games_df : list Game) : Z :=
  foldr (λ game total,
           match home_score game, away_score game with
           | Some hs, Some as_ => hs + as_ + total
           | _, _ => total
           end) 0 games_df.

(** The scores of a table are counts that stay in range: none is negative
    and all of them together stay below 2^53.  Lines 167-170 add them with
    the arithmetic of the score columns, [int64] for a table of integers
    and binary64 once a score is missing; below 2^53 every sum of scores is
    the same number in both and in [Z]. *)
Definition scores_in_range (games_df : list Game) : Prop :=
  Forall (λ game, ∀ hs as_, home_score game = Some hs → away_score game = Some as_ →
                    0 ≤ hs ∧ 0 ≤ as_) games_df ∧
  points_played games_df < 2 ^ 53.

(** Both point counters of a record lie between 0 and [B]. *)
Definition within (B : Z) (s : Full.TeamStats) : Prop :=
  0 ≤ Full.points_for s ≤ B ∧ 0 ≤ Full.points_against s ≤ B.

(** An id that binary64 holds exactly.  [iterrows] hands over the row of a
    numeric table as binary64 values, so the key of line 47 is the id
    itself only for such ids. *)
Definition exact_in_float (id : Z) : Prop := - 2 ^ 53 ≤ id ≤ 2 ^ 53.

(** A counter summed over every team of the store. *)
Definition store_total {S} (field : S → Z) (team_stats : gmap Z S) : Z :=
  map_fold (λ _ s total, field s + total) 0 team_stats.

(** The points column of the player-stat rows of one game. *)
Definition game_points (stats_df : DataFrame StatRow) (gid : Z) : list Qc :=
  st_points <$> filter (λ r, st_game_id r = gid) (rows stats_df).

(** The last weather row recorded for a game. *)
Definition last_weather_row (weather_df : DataFrame WeatherRow) (gid : Z) : option WeatherRow :=
  list.last (filter (λ w, w_game_id w = Some gid) (rows weather_df)).

(** What a team's record looks like beyond the balance of [team_ok]. *)
Definition record_ok (s : Full.TeamStats) : Prop :=
  0 ≤ Full.wins s ∧ 0 ≤ Full.losses s ∧
  Full.home_games s + Full.away_games s = Full.games s ∧
  Full.home_wins s + Full.away_wins s = Full.wins s ∧
  0 ≤ Full.home_wins s ≤ Full.home_games s ∧
  0 ≤ Full.away_wins s ≤ Full.away_games s ∧
  Full.rest_days s = 0 ∧
  Forall (λ x, x = 0 ∨ x = 1) (Full.recent_form s) ∧
  - Full.losses s ≤ Full.streak s ≤ Full.wins s ∧
  match list.last (Full.recent_form s) with
  | None => Full.streak s = 0 ∧ Full.games s = 0
  | Some x => if decide (x = 1) then 0 < Full.streak s else Full.streak s < 0
  end.

(** The home side won: the test of line 162, on a row with both scores. *)
Definition home_won (game : Game) : bool :=
  match home_score game, away_score game with
  | Some hs, Some as_ => bool_decide (as_ < hs)
  | _, _ => false
  end.

(** The team is the home (away) side of a row with both scores. *)
Definition played_at_home (team_id : Z) (game : Game) : bool :=
  scored game && bool_decide (home_team_id game = team_id).

Definition played_away (team_id : Z) (game : Game) : bool :=
  scored game && bool_decide (away_team_id game = team_id).

(** The outcomes a row records for a team, in the order lines 180-189
    append them: the home entry before the away entry. *)
Definition outcome_entries (team_id : Z) (game : Game) : list Z :=
  (if played_at_home team_id game then [if home_won game then 1 else 0] else [])
  ++ (if played_away team_id game then [if home_won game then 0 else 1] else []).

(** All outcomes of a team along a table. *)
Definition team_outcomes (team_id : Z) (games_df : list Game) : list Z :=
  games_df ≫= outcome_entries team_id.

(** ** More sample tables *)

Module RichSamples.

Definition sixth_weather : DataFrame WeatherRow :=
  {| columns := ["game_id"; "temperature"];
     rows := [ {| w_game_id := Some 6; w_temperature := Q_lit 40 1; w_wind_speed := Q_lit 9 1 |};
               {| w_game_id := Some 6; w_temperature := Q_lit 55 1; w_wind_speed := Q_lit 9 1 |} ] |}.

(** The vector the sixth game emits with player statistics and weather. *)
Definition sixth_vector : list Qc :=
  let lk := Full.build_lookups Samples.sixth_game_stats Samples.one_injury sixth_weather
              Samples.one_sentiment in
  let acc := Full.game_loop Samples.squash lk Full.initial_state Samples.warm_up in
  Full.game_features Samples.squash lk Samples.sixth
    (Full.stats_of (Full.team_stats acc) 1) (Full.stats_of (Full.team_stats acc) 2).

(** The record of team 1 after the six games of [Samples.season]. *)
Definition team_one : Full.TeamStats :=
  Full.mkTeamStats 6 5 1 571 547 [1; 1; 1; 1; 0; 1] 4 3 2 2 1 0.

End RichSamples.

(** ** Facts about slices *)

Lemma length_last_n {A} (n : nat) (l : list A) :
  length (last_n n l) = (length l `min` n)%nat.
Proof. unfold last_n. rewrite length_drop. lia. Qed.

Lemma snoc_neq {A} (l : list A) (x : A) : l ≠ l ++ [x].
Proof.
  intros Heq. apply (f_equal length) in Heq.
  rewrite length_app in Heq. simpl in Heq. lia.
Qed.

(** ** Facts about the lookups *)

Lemma groupby_lookup {R} (key : R → Z) (l : list R) (k : Z) :
  groupby key l !! k =
  match filter (λ r, key r = k) l with
  | [] => None
  | group => Some group
  end.
Proof.
  induction l as [|r l IH]; [done|].
  simpl. destruct (decide (key r = k)) as [Heq|Hne].
  - rewrite Heq, lookup_insert_eq, filter_cons_True by done.
    rewrite IH. by destruct (filter _ l).
  - rewrite lookup_insert_ne, filter_cons_False by done. apply IH.
Qed.

Lemma groupby_size_lookup {R} (key : R → Z) (l : list R) (k : Z) :
  default 0 (((λ group, Z.of_nat (length group)) <$> groupby key l) !! k)
  = Z.of_nat (length (filter (λ r, key r = k) l)).
Proof.
  rewrite lookup_fmap, groupby_lookup. by destruct (filter _ l).
Qed.

Lemma py_min_one (a : Qc) :
  (0 ≤ a)%Qc →
  (0 ≤ py_min a 1)%Qc ∧ (py_min a 1 ≤ 1)%Qc ∧
  ((a ≤ 1)%Qc → py_min a 1 = a) ∧ ((1 ≤ a)%Qc → py_min a 1 = 1%Qc).
Proof.
  intros Ha. unfold py_min. destruct (decide (1 < a)%Qc) as [Hlt|Hge].
  - repeat split; try done.
    intros Hle. exfalso. by apply (Qclt_not_le _ _ Hlt).
  - apply Qcnot_lt_le in Hge. repeat split; try done.
    intros Hle. by apply Qcle_antisym.
Qed.

Lemma Qc_of_Z_div5_nonneg (n : Z) : 0 ≤ n → (0 ≤ Qc_of_Z n / Qc_of_Z 5)%Qc.
Proof.
  intros Hn. unfold Qcdiv.
  rewrite <- (Qcmult_0_l (/ Qc_of_Z 5)).
  apply Qcmult_le_compat_r.
  - rewrite <- Z2Qc_inj_0. by apply (proj1 (Z2Qc_inj_le 0 n)).
  - by vm_compute.
Qed.

Lemma injury_count_nonneg (injuries_df : DataFrame InjuryRow) t :
  0 ≤ injury_count injuries_df t.
Proof. unfold injury_count. destruct (has_column _ _); lia. Qed.

Lemma injury_count_no_rows (injuries_df : DataFrame InjuryRow) t :
  injury_rows injuries_df t = [] → injury_count injuries_df t = 0.
Proof. unfold injury_count. intros ->. by destruct (has_column _ _). Qed.

(** [min(n / 5.0, 1.0)] for a count [n]. *)
Lemma capped_count (n : Z) :
  0 ≤ n →
  let f := py_min (Qc_of_Z n / Qc_of_Z 5)%Qc 1%Qc in
  (0 ≤ f)%Qc ∧ (f ≤ 1)%Qc ∧
  (n ≤ 5 → f = (Qc_of_Z n / Qc_of_Z 5)%Qc) ∧ (5 ≤ n → f = 1%Qc).
Proof.
  intros Hn f.
  destruct (py_min_one _ (Qc_of_Z_div5_nonneg n Hn)) as (H0 & H1 & Hle & Hge).
  assert ((Qc_of_Z 5 / Qc_of_Z 5)%Qc = 1%Qc) as Hone by (by apply Qc_is_canon).
  repeat split; try done.
  - intros Hn5. apply Hle. rewrite <- Hone. unfold Qcdiv.
    apply Qcmult_le_compat_r; [by apply (proj1 (Z2Qc_inj_le n 5))|by vm_compute].
  - intros Hn5. apply Hge. rewrite <- Hone. unfold Qcdiv.
    apply Qcmult_le_compat_r; [by apply (proj1 (Z2Qc_inj_le 5 n))|by vm_compute].
Qed.

(** ** Facts about the team store of [colab_feature_engineering_full.py] *)

Module FullFacts.
Import Full.

Ltac store_calc :=
  unfold update_team_stats, block, assign;
  try case_bool_decide; simpl;
  repeat first [ rewrite lookup_alter_eq | rewrite lookup_alter_ne by done ].

Lemma init_team_lookup_eq t (ts : gmap Z TeamStats) :
  init_team t ts !! t = Some (stats_of ts t).
Proof.
  unfold init_team, stats_of. destruct (ts !! t) as [s|] eqn:E; simpl.
  - exact E.
  - apply lookup_insert_eq.
Qed.

Lemma init_team_lookup_ne t u (ts : gmap Z TeamStats) :
  t ≠ u → init_team t ts !! u = ts !! u.
Proof.
  intros Hne. unfold init_team. destruct (ts !! t); [done|].
  by apply lookup_insert_ne.
Qed.

Lemma init_team_keeps t u (ts : gmap Z TeamStats) s :
  ts !! u = Some s → init_team t ts !! u = Some s.
Proof.
  intros Hs. destruct (decide (t = u)) as [->|Hne].
  - rewrite init_team_lookup_eq. unfold stats_of. by rewrite Hs.
  - by rewrite init_team_lookup_ne.
Qed.

Lemma stats_of_init_team t u (ts : gmap Z TeamStats) :
  stats_of (init_team t ts) u = stats_of ts u.
Proof.
  unfold stats_of at 1. destruct (decide (t = u)) as [->|Hne].
  - by rewrite init_team_lookup_eq.
  - by rewrite init_team_lookup_ne.
Qed.

Lemma init_both_lookup_home h a (ts : gmap Z TeamStats) :
  init_team a (init_team h ts) !! h = Some (stats_of ts h).
Proof. apply init_team_keeps, init_team_lookup_eq. Qed.

Lemma init_both_lookup_away h a (ts : gmap Z TeamStats) :
  init_team a (init_team h ts) !! a = Some (stats_of ts a).
Proof. rewrite init_team_lookup_eq. by rewrite stats_of_init_team. Qed.

Lemma init_both_lookup_other h a t (ts : gmap Z TeamStats) :
  t ≠ h → t ≠ a → init_team a (init_team h ts) !! t = ts !! t.
Proof. intros ??. by rewrite !init_team_lookup_ne. Qed.

(** What the update block does to a team that is not playing. *)
Lemma update_lookup_other h a hs as_ t (ts : gmap Z TeamStats) :
  t ≠ h → t ≠ a → update_team_stats h a hs as_ ts !! t = ts !! t.
Proof. intros ??. by store_calc. Qed.

(** What it does to the home team of a game between two teams. *)
Lemma update_lookup_home h a hs as_ (ts : gmap Z TeamStats) s :
  h ≠ a → ts !! h = Some s →
  update_team_stats h a hs as_ ts !! h =
  Some (if bool_decide (as_ < hs) then
          mkTeamStats (games s + 1) (wins s + 1) (losses s)
            (points_for s + hs) (points_against s + as_)
            (last_n 10 (recent_form s ++ [1]))
            (home_games s + 1) (home_wins s + 1) (away_games s) (away_wins s)
            (streak_after_win (streak s)) (rest_days s)
        else
          mkTeamStats (games s + 1) (wins s) (losses s + 1)
            (points_for s + hs) (points_against s + as_)
            (last_n 10 (recent_form s ++ [0]))
            (home_games s + 1) (home_wins s) (away_games s) (away_wins s)
            (streak_after_loss (streak s)) (rest_days s)).
Proof. intros Hne Hs. store_calc; by rewrite Hs. Qed.

(** To the away team. *)
Lemma update_lookup_away h a hs as_ (ts : gmap Z TeamStats) s :
  h ≠ a → ts !! a = Some s →
  update_team_stats h a hs as_ ts !! a =
  Some (if bool_decide (as_ < hs) then
          mkTeamStats (games s + 1) (wins s) (losses s + 1)
            (points_for s + as_) (points_against s + hs)
            (last_n 10 (recent_form s ++ [0]))
            (home_games s) (home_wins s) (away_games s + 1) (away_wins s)
            (streak_after_loss (streak s)) (rest_days s)
        else
          mkTeamStats (games s + 1) (wins s + 1) (losses s)
            (points_for s + as_) (points_against s + hs)
            (last_n 10 (recent_form s ++ [1]))
            (home_games s) (home_wins s) (away_games s + 1) (away_wins s + 1)
            (streak_after_win (streak s)) (rest_days s)).
Proof. intros Hne Hs. store_calc; by rewrite Hs. Qed.

(** And to a team listed on both sides of one row: [home_stats] and
    [away_stats] are then the same dict, and every statement of the block
    lands on it. *)
Lemma update_lookup_both h hs as_ (ts : gmap Z TeamStats) s :
  ts !! h = Some s →
  update_team_stats h h hs as_ ts !! h =
  Some (if bool_decide (as_ < hs) then
          mkTeamStats (games s + 1 + 1) (wins s + 1) (losses s + 1)
            (points_for s + hs + as_) (points_against s + as_ + hs)
            (last_n 10 (last_n 10 ((recent_form s ++ [1]) ++ [0])))
            (home_games s + 1) (home_wins s + 1) (away_games s + 1) (away_wins s)
            (streak_after_loss (streak_after_win (streak s))) (rest_days s)
        else
          mkTeamStats (games s + 1 + 1) (wins s + 1) (losses s + 1)
            (points_for s + hs + as_) (points_against s + as_ + hs)
            (last_n 10 (last_n 10 ((recent_form s ++ [0]) ++ [1])))
            (home_games s + 1) (home_wins s) (away_games s + 1) (away_wins s + 1)
            (streak_after_win (streak_after_loss (streak s))) (rest_days s)).
Proof. intros Hs. store_calc; by rewrite Hs. Qed.

Lemma update_lookup_None h a hs as_ t (ts : gmap Z TeamStats) :
  ts !! t = None → update_team_stats h a hs as_ ts !! t = None.
Proof.
  intros Hs.
  destruct (decide (h = t)) as [Hth|Hth]; destruct (decide (a = t)) as [Hta|Hta];
    subst; store_calc; by rewrite ?Hs.
Qed.

Lemma team_ok_new : team_ok new_team_stats.
Proof. by split. Qed.

Lemma store_ok_empty : store_ok ∅.
Proof. intros t s Hs. by rewrite lookup_empty in Hs. Qed.

Lemma team_ok_stats_of ts t : store_ok ts → team_ok (stats_of ts t).
Proof.
  intros Hok. unfold stats_of. destruct (ts !! t) eqn:E; simpl.
  - by eapply Hok.
  - apply team_ok_new.
Qed.

Lemma store_ok_init_team t ts : store_ok ts → store_ok (init_team t ts).
Proof.
  intros Hok u s. unfold init_team.
  destruct (ts !! t) eqn:E; [apply Hok|].
  rewrite lookup_insert. case_decide.
  - intros [= <-]. apply team_ok_new.
  - apply Hok.
Qed.

Ltac team_ok_step :=
  match goal with
  | H : team_ok _ |- team_ok _ =>
      destruct H as [Hbal Hlen]; case_bool_decide; split; simpl;
      rewrite ?length_last_n, ?length_app; simpl; lia
  end.

Lemma store_ok_update h a hs as_ ts :
  store_ok ts → store_ok (update_team_stats h a hs as_ ts).
Proof.
  intros Hok t s'. destruct (ts !! t) as [s|] eqn:E.
  2: { by rewrite update_lookup_None. }
  apply Hok in E as Hs.
  destruct (decide (t = h)) as [->|Hth]; [destruct (decide (h = a)) as [->|Hha]|].
  - rewrite (update_lookup_both _ _ _ _ _ E). intros [= <-]. team_ok_step.
  - rewrite (update_lookup_home _ _ _ _ _ _ Hha E). intros [= <-]. team_ok_step.
  - destruct (decide (t = a)) as [->|Hta].
    + rewrite (update_lookup_away _ _ _ _ _ _ (not_eq_sym Hth) E).
      intros [= <-]. team_ok_step.
    + rewrite update_lookup_other by done. rewrite E. by intros [= <-].
Qed.

(** The injury lookup holds, for each team, the number of its rows in the
    whole table. *)
Lemma injuries_lookup (injuries_df : DataFrame InjuryRow) t :
  default 0 (build_injuries_by_team injuries_df !! t) = injury_count injuries_df t.
Proof.
  unfold build_injuries_by_team, injury_count, injury_rows, len.
  destruct (has_column "team_id" injuries_df); case_bool_decide as Hlen; simpl;
    rewrite ?lookup_empty; simpl; try done.
  - apply groupby_size_lookup.
  - destruct (rows injuries_df); [done|simpl in Hlen; lia].
Qed.

(** The sentiment lookup holds the mean score of each team over the whole
    table. *)
Lemma sentiment_lookup (sentiment_df : DataFrame SentimentRow) t :
  default 0%Qc (build_sentiment_by_team sentiment_df !! t) = team_sentiment sentiment_df t.
Proof.
  unfold build_sentiment_by_team, team_sentiment, sentiment_scores, len.
  destruct (has_column "team_id" sentiment_df && has_column "sentiment_score" sentiment_df);
    case_bool_decide as Hlen; simpl; rewrite ?lookup_empty; simpl; try done.
  - rewrite lookup_fmap, groupby_lookup. by destruct (filter _ (rows sentiment_df)).
  - destruct (rows sentiment_df); [done|simpl in Hlen; lia].
Qed.

(** Each listed team has played one more game after the update, two if it
    is listed on both sides. *)
Lemma games_after_update h a hs as_ (ts : gmap Z TeamStats) :
  let ts' := update_team_stats h a hs as_ (init_team a (init_team h ts)) in
  let played := if decide (h = a) then 2 else 1 in
  games (stats_of ts' h) = games (stats_of ts h) + played ∧
  games (stats_of ts' a) = games (stats_of ts a) + played.
Proof.
  intros ts' played. subst ts' played. unfold stats_of at 1 3.
  pose proof (init_both_lookup_home h a ts) as Eh.
  pose proof (init_both_lookup_away h a ts) as Ea.
  destruct (decide (h = a)) as [Heq|Hne].
  - rewrite <- Heq in *. rewrite (update_lookup_both _ _ _ _ _ Eh).
    split; case_bool_decide; simpl; lia.
  - rewrite (update_lookup_home _ _ _ _ _ _ Hne Eh).
    rewrite (update_lookup_away _ _ _ _ _ _ Hne Ea).
    split; case_bool_decide; simpl; lia.
Qed.

Section Loop.

Variable np_tanh : Qc → Qc.
Variable lk : Lookups.

Lemma store_ok_loop_body acc game :
  store_ok (team_stats acc) → store_ok (team_stats (loop_body np_tanh lk acc game)).
Proof.
  intros Hok. unfold loop_body.
  destruct (home_score game), (away_score game); simpl;
    auto using store_ok_update, store_ok_init_team.
Qed.

Lemma store_ok_game_loop games_df acc :
  store_ok (team_stats acc) → store_ok (team_stats (game_loop np_tanh lk acc games_df)).
Proof.
  revert acc. induction games_df as [|game rest IH]; intros acc Hok; [done|].
  simpl. by apply IH, store_ok_loop_body.
Qed.

(** The test of line 87 reads the counters of the store the step started from:
    creating a missing entry does not change what [stats_of] returns. *)
Lemma loop_body_scored acc game hs as_ :
  home_score game = Some hs → away_score game = Some as_ →
  let home_id := home_team_id game in
  let away_id := away_team_id game in
  let home_stats := stats_of (team_stats acc) home_id in
  let away_stats := stats_of (team_stats acc) away_id in
  let emit := bool_decide (5 ≤ games home_stats) && bool_decide (5 ≤ games away_stats) in
  loop_body np_tanh lk acc game =
  {| team_stats := update_team_stats home_id away_id hs as_
                     (init_team away_id (init_team home_id (team_stats acc)));
     features := if emit then features acc ++ [game_features np_tanh lk game home_stats away_stats]
                 else features acc;
     labels := if emit then labels acc ++ [label_of hs as_] else labels acc |}.
Proof.
  intros Hh Ha. unfold loop_body. rewrite Hh, Ha. simpl.
  by rewrite !stats_of_init_team.
Qed.

Lemma loop_body_unscored acc game :
  home_score game = None ∨ away_score game = None →
  loop_body np_tanh lk acc game =
  {| team_stats := init_team (away_team_id game) (init_team (home_team_id game) (team_stats acc));
     features := features acc;
     labels := labels acc |}.
Proof.
  intros [H|H]; unfold loop_body; rewrite H; [done|].
  by destruct (home_score game).
Qed.

(** An emission is the pair computed on lines 89-159 from the state
    before the update, and only a scored game between warmed-up teams emits. *)
Lemma emits_inv acc game v l :
  emits np_tanh lk acc game v l →
  ∃ hs as_, home_score game = Some hs ∧ away_score game = Some as_ ∧
    5 ≤ games (stats_of (team_stats acc) (home_team_id game)) ∧
    5 ≤ games (stats_of (team_stats acc) (away_team_id game)) ∧
    v = game_features np_tanh lk game
          (stats_of (team_stats acc) (home_team_id game))
          (stats_of (team_stats acc) (away_team_id game)) ∧
    l = label_of hs as_.
Proof.
  intros [Hf Hl].
  destruct (home_score game) as [hs|] eqn:Hh; [destruct (away_score game) as [as_|] eqn:Ha|].
  - rewrite (loop_body_scored _ _ _ _ Hh Ha) in Hf, Hl. simpl in Hf, Hl.
    destruct (bool_decide (5 ≤ _) && bool_decide (5 ≤ _)) eqn:E.
    + apply andb_true_iff in E as [E1%bool_decide_eq_true E2%bool_decide_eq_true].
      apply app_inv_head in Hf as [= <-]. apply app_inv_head in Hl as [= <-].
      by exists hs, as_.
    + by apply snoc_neq in Hf.
  - rewrite loop_body_unscored in Hf by auto. simpl in Hf. by apply snoc_neq in Hf.
  - rewrite loop_body_unscored in Hf by auto. simpl in Hf. by apply snoc_neq in Hf.
Qed.

Lemma streak_rules x :
  streak_after_win x = (if decide (0 < x) then x + 1 else 1) ∧
  streak_after_loss x = (if decide (x ≤ 0) then x - 1 else -1).
Proof.
  unfold streak_after_win, streak_after_loss.
  case_bool_decide; repeat case_decide; split; auto; lia.
Qed.

Lemma label_of_spec hs as_ :
  (label_of hs as_ = 1 ↔ as_ < hs) ∧ (hs = as_ → label_of hs as_ = 0) ∧
  (label_of hs as_ = 0 ∨ label_of hs as_ = 1).
Proof. unfold label_of. case_bool_decide; repeat split; intros; auto; lia. Qed.

(** Where the injury and sentiment features sit in the vector. *)
Lemma game_features_positions game home_stats away_stats :
  let v := game_features np_tanh lk game home_stats away_stats in
  length v = 23%nat ∧
  v !! 13%nat = Some (py_min (Qc_of_Z (default 0%Z (injuries_by_team lk !! home_team_id game))
                              / Qc_of_Z 5)%Qc 1%Qc) ∧
  v !! 14%nat = Some (py_min (Qc_of_Z (default 0%Z (injuries_by_team lk !! away_team_id game))
                              / Qc_of_Z 5)%Qc 1%Qc) ∧
  v !! 17%nat = Some (np_tanh (default 0%Qc (sentiment_by_team lk !! home_team_id game))) ∧
  v !! 18%nat = Some (np_tanh (default 0%Qc (sentiment_by_team lk !! away_team_id game))).
Proof.
  unfold game_features, player_stats_features. by case_bool_decide.
Qed.

Lemma stats_of_unscored h a (ts : gmap Z TeamStats) t :
  stats_of (init_team a (init_team h ts)) t = stats_of ts t.
Proof. by rewrite !stats_of_init_team. Qed.

(** With five or more outcomes on record, lines 104-107 take the mean of
    the last five. *)
Lemma recent_form_feature_warm s :
  (5 ≤ length (recent_form s))%nat →
  recent_form_feature s = form_mean (last_n 5 (recent_form s)) ∧
  length (last_n 5 (recent_form s)) = 5%nat.
Proof.
  intros Hlen. pose proof (length_last_n 5 (recent_form s)) as Hl.
  split; [|lia]. unfold recent_form_feature.
  rewrite bool_decide_eq_true_2 by lia.
  destruct (last_n 5 (recent_form s)); [simpl in Hl; lia|done].
Qed.

Lemma game_loop_app acc pre post :
  game_loop np_tanh lk acc (pre ++ post) =
  game_loop np_tanh lk (game_loop np_tanh lk acc pre) post.
Proof. unfold game_loop. apply foldl_app. Qed.

Lemma loop_body_cases acc game :
  (features (loop_body np_tanh lk acc game) = features acc ∧
   labels (loop_body np_tanh lk acc game) = labels acc) ∨
  ∃ v l, emits np_tanh lk acc game v l.
Proof.
  unfold emits, loop_body.
  destruct (home_score game), (away_score game); simpl; auto.
  destruct (_ && _); simpl; eauto.
Qed.

Lemma emitted_snoc games_df extra game v l :
  emitted np_tanh lk games_df game v l → emitted np_tanh lk (games_df ++ [extra]) game v l.
Proof.
  intros (pre & post & -> & Hem). exists pre, (post ++ [extra]).
  split; [|done]. by rewrite <- app_assoc.
Qed.

(** The two output lists are pairs emitted along the table, in row
    order. *)
Lemma outputs_were_emitted games_df :
  ∃ pairs : list (list Qc * Z),
    features (game_loop np_tanh lk initial_state games_df) = pairs.*1 ∧
    labels (game_loop np_tanh lk initial_state games_df) = pairs.*2 ∧
    Forall (λ p, ∃ game, emitted np_tanh lk games_df game p.1 p.2) pairs.
Proof.
  induction games_df as [|game games_df IH] using rev_ind.
  - by exists [].
  - destruct IH as (pairs & Hf & Hl & Hall).
    rewrite game_loop_app. simpl.
    assert (Forall (λ p, ∃ g, emitted np_tanh lk (games_df ++ [game]) g p.1 p.2) pairs) as Hall'.
    { eapply Forall_impl; [|exact Hall]. intros p [g Hg]. exists g. by apply emitted_snoc. }
    destruct (loop_body_cases (game_loop np_tanh lk initial_state games_df) game)
      as [[Ef El]|(v & l & Hem)].
    + exists pairs. by rewrite Ef, El.
    + exists (pairs ++ [(v, l)]). destruct Hem as [Ef El].
      rewrite Ef, El, Hf, Hl, !fmap_app. repeat split; try done.
      apply Forall_app. split; [done|]. apply Forall_singleton.
      exists game, games_df, []. split; [done|]. split; simpl; congruence.
Qed.

End Loop.

End FullFacts.

(** ** Facts about the team store of [colab_feature_engineering.py] *)

Module BasicFacts.
Import Basic.

Ltac store_calc :=
  unfold update_team_stats, block, assign;
  try case_bool_decide; simpl;
  repeat first [ rewrite lookup_alter_eq | rewrite lookup_alter_ne by done ].

Lemma nb_init_team_lookup_eq t (ts : gmap Z TeamStats) :
  init_team t ts !! t = Some (stats_of ts t).
Proof.
  unfold init_team, stats_of. destruct (ts !! t) as [s|] eqn:E; simpl.
  - exact E.
  - apply lookup_insert_eq.
Qed.

Lemma nb_init_team_lookup_ne t u (ts : gmap Z TeamStats) :
  t ≠ u → init_team t ts !! u = ts !! u.
Proof.
  intros Hne. unfold init_team. destruct (ts !! t); [done|].
  by apply lookup_insert_ne.
Qed.

Lemma nb_init_team_keeps t u (ts : gmap Z TeamStats) s :
  ts !! u = Some s → init_team t ts !! u = Some s.
Proof.
  intros Hs. destruct (decide (t = u)) as [->|Hne].
  - rewrite nb_init_team_lookup_eq. unfold stats_of. by rewrite Hs.
  - by rewrite nb_init_team_lookup_ne.
Qed.

Lemma nb_stats_of_init_team t u (ts : gmap Z TeamStats) :
  stats_of (init_team t ts) u = stats_of ts u.
Proof.
  unfold stats_of at 1. destruct (decide (t = u)) as [->|Hne].
  - by rewrite nb_init_team_lookup_eq.
  - by rewrite nb_init_team_lookup_ne.
Qed.

Lemma nb_init_both_lookup_home h a (ts : gmap Z TeamStats) :
  init_team a (init_team h ts) !! h = Some (stats_of ts h).
Proof. apply nb_init_team_keeps, nb_init_team_lookup_eq. Qed.

Lemma nb_init_both_lookup_away h a (ts : gmap Z TeamStats) :
  init_team a (init_team h ts) !! a = Some (stats_of ts a).
Proof. rewrite nb_init_team_lookup_eq. by rewrite nb_stats_of_init_team. Qed.

Lemma nb_init_both_lookup_other h a t (ts : gmap Z TeamStats) :
  t ≠ h → t ≠ a → init_team a (init_team h ts) !! t = ts !! t.
Proof. intros ??. by rewrite !nb_init_team_lookup_ne. Qed.

Lemma nb_update_lookup_other h a hs as_ t (ts : gmap Z TeamStats) :
  t ≠ h → t ≠ a → update_team_stats h a hs as_ ts !! t = ts !! t.
Proof. intros ??. by store_calc. Qed.

Lemma nb_update_lookup_home h a hs as_ (ts : gmap Z TeamStats) s :
  h ≠ a → ts !! h = Some s →
  update_team_stats h a hs as_ ts !! h =
  Some (if bool_decide (as_ < hs) then
          mkTeamStats (games s + 1) (wins s + 1) (losses s)
            (points_for s + hs) (points_against s + as_)
            (last_n 10 (recent_form s ++ [1]))
        else
          mkTeamStats (games s + 1) (wins s) (losses s + 1)
            (points_for s + hs) (points_against s + as_)
            (last_n 10 (recent_form s ++ [0]))).
Proof. intros Hne Hs. store_calc; by rewrite Hs. Qed.

Lemma nb_update_lookup_away h a hs as_ (ts : gmap Z TeamStats) s :
  h ≠ a → ts !! a = Some s →
  update_team_stats h a hs as_ ts !! a =
  Some (if bool_decide (as_ < hs) then
          mkTeamStats (games s + 1) (wins s) (losses s + 1)
            (points_for s + as_) (points_against s + hs)
            (last_n 10 (recent_form s ++ [0]))
        else
          mkTeamStats (games s + 1) (wins s + 1) (losses s)
            (points_for s + as_) (points_against s + hs)
            (last_n 10 (recent_form s ++ [1]))).
Proof. intros Hne Hs. store_calc; by rewrite Hs. Qed.

Lemma nb_update_lookup_both h hs as_ (ts : gmap Z TeamStats) s :
  ts !! h = Some s →
  update_team_stats h h hs as_ ts !! h =
  Some (if bool_decide (as_ < hs) then
          mkTeamStats (games s + 1 + 1) (wins s + 1) (losses s + 1)
            (points_for s + hs + as_) (points_against s + as_ + hs)
            (last_n 10 (last_n 10 ((recent_form s ++ [1]) ++ [0])))
        else
          mkTeamStats (games s + 1 + 1) (wins s + 1) (losses s + 1)
            (points_for s + hs + as_) (points_against s + as_ + hs)
            (last_n 10 (last_n 10 ((recent_form s ++ [0]) ++ [1])))).
Proof. intros Hs. store_calc; by rewrite Hs. Qed.

Lemma nb_update_lookup_None h a hs as_ t (ts : gmap Z TeamStats) :
  ts !! t = None → update_team_stats h a hs as_ ts !! t = None.
Proof.
  intros Hs.
  destruct (decide (h = t)) as [Hth|Hth]; destruct (decide (a = t)) as [Hta|Hta];
    subst; store_calc; by rewrite ?Hs.
Qed.

Lemma nb_team_ok_new : team_ok new_team_stats.
Proof. by split. Qed.

Lemma nb_store_ok_empty : store_ok ∅.
Proof. intros t s Hs. by rewrite lookup_empty in Hs. Qed.

Lemma nb_team_ok_stats_of ts t : store_ok ts → team_ok (stats_of ts t).
Proof.
  intros Hok. unfold stats_of. destruct (ts !! t) eqn:E; simpl.
  - by eapply Hok.
  - apply nb_team_ok_new.
Qed.

Lemma nb_store_ok_init_team t ts : store_ok ts → store_ok (init_team t ts).
Proof.
  intros Hok u s. unfold init_team.
  destruct (ts !! t) eqn:E; [apply Hok|].
  rewrite lookup_insert. case_decide.
  - intros [= <-]. apply nb_team_ok_new.
  - apply Hok.
Qed.

Ltac team_ok_step :=
  match goal with
  | H : team_ok _ |- team_ok _ =>
      destruct H as [Hbal Hlen]; case_bool_decide; split; simpl;
      rewrite ?length_last_n, ?length_app; simpl; lia
  end.

Lemma nb_store_ok_update h a hs as_ ts :
  store_ok ts → store_ok (update_team_stats h a hs as_ ts).
Proof.
  intros Hok t s'. destruct (ts !! t) as [s|] eqn:E.
  2: { by rewrite nb_update_lookup_None. }
  apply Hok in E as Hs.
  destruct (decide (t = h)) as [->|Hth]; [destruct (decide (h = a)) as [->|Hha]|].
  - rewrite (nb_update_lookup_both _ _ _ _ _ E). intros [= <-]. team_ok_step.
  - rewrite (nb_update_lookup_home _ _ _ _ _ _ Hha E). intros [= <-]. team_ok_step.
  - destruct (decide (t = a)) as [->|Hta].
    + rewrite (nb_update_lookup_away _ _ _ _ _ _ (not_eq_sym Hth) E).
      intros [= <-]. team_ok_step.
    + rewrite nb_update_lookup_other by done. rewrite E. by intros [= <-].
Qed.

Lemma nb_games_after_update h a hs as_ (ts : gmap Z TeamStats) :
  let ts' := update_team_stats h a hs as_ (init_team a (init_team h ts)) in
  let played := if decide (h = a) then 2 else 1 in
  games (stats_of ts' h) = games (stats_of ts h) + played ∧
  games (stats_of ts' a) = games (stats_of ts a) + played.
Proof.
  intros ts' played. subst ts' played. unfold stats_of at 1 3.
  pose proof (nb_init_both_lookup_home h a ts) as Eh.
  pose proof (nb_init_both_lookup_away h a ts) as Ea.
  destruct (decide (h = a)) as [Heq|Hne].
  - rewrite <- Heq in *. rewrite (nb_update_lookup_both _ _ _ _ _ Eh).
    split; case_bool_decide; simpl; lia.
  - rewrite (nb_update_lookup_home _ _ _ _ _ _ Hne Eh).
    rewrite (nb_update_lookup_away _ _ _ _ _ _ Hne Ea).
    split; case_bool_decide; simpl; lia.
Qed.

(** A step that returns either skipped the game or applied the update. *)
Lemma loop_body_Return lk acc game acc' :
  loop_body lk acc game = Return acc' →
  let ts := init_team (away_team_id game) (init_team (home_team_id game) (team_stats acc)) in
  match home_score game, away_score game with
  | Some hs, Some as_ =>
      team_stats acc' = update_team_stats (home_team_id game) (away_team_id game) hs as_ ts
  | _, _ => team_stats acc' = ts
  end.
Proof.
  unfold loop_body.
  destruct (home_score game) as [hs|], (away_score game) as [as_|]; simpl;
    try by intros [= <-].
  destruct (_ || _); [by intros [= <-]|].
  destruct (game_features _ _ _ _); simpl; [by intros [= <-]|done].
Qed.

Lemma nb_store_ok_loop_body lk acc game acc' :
  loop_body lk acc game = Return acc' →
  store_ok (team_stats acc) → store_ok (team_stats acc').
Proof.
  intros Hret Hok. apply loop_body_Return in Hret. simpl in Hret.
  destruct (home_score game), (away_score game); rewrite Hret;
    auto using nb_store_ok_update, nb_store_ok_init_team.
Qed.

Lemma game_loop_Raise lk e games_df :
  foldl (λ r game, acc ← r; loop_body lk acc game) (Raise e) games_df = Raise e.
Proof. induction games_df as [|game rest IH]; [done|]. simpl. apply IH. Qed.

Lemma game_loop_cons lk acc game rest :
  game_loop lk acc (game :: rest) =
  (acc' ← loop_body lk acc game; game_loop lk acc' rest).
Proof.
  unfold game_loop. simpl. destruct (loop_body lk acc game); simpl; [done|].
  apply game_loop_Raise.
Qed.

Lemma nb_game_loop_app lk acc pre post :
  game_loop lk acc (pre ++ post) =
  (acc' ← game_loop lk acc pre; game_loop lk acc' post).
Proof.
  revert acc. induction pre as [|game pre IH]; intros acc; [done|].
  simpl. rewrite !game_loop_cons.
  destruct (loop_body lk acc game); simpl; [apply IH|done].
Qed.

Lemma nb_store_ok_game_loop lk games_df acc acc' :
  game_loop lk acc games_df = Return acc' →
  store_ok (team_stats acc) → store_ok (team_stats acc').
Proof.
  revert acc. induction games_df as [|game rest IH]; intros acc.
  - by intros [= <-].
  - rewrite game_loop_cons.
    destruct (loop_body lk acc game) as [acc1|] eqn:E; simpl; [|done].
    intros Hrest Hok. apply (IH _ Hrest). by eapply nb_store_ok_loop_body.
Qed.

Lemma nb_loop_body_scored lk acc game hs as_ :
  home_score game = Some hs → away_score game = Some as_ →
  let home_id := home_team_id game in
  let away_id := away_team_id game in
  let home_stats := stats_of (team_stats acc) home_id in
  let away_stats := stats_of (team_stats acc) away_id in
  let ts' := update_team_stats home_id away_id hs as_
               (init_team away_id (init_team home_id (team_stats acc))) in
  loop_body lk acc game =
  if bool_decide (games home_stats < 5) || bool_decide (games away_stats < 5) then
    Return {| team_stats := ts'; features := features acc; labels := labels acc |}
  else
    v ← game_features lk game home_stats away_stats;
    Return {| team_stats := ts';
              features := features acc ++ [v];
              labels := labels acc ++ [label_of hs as_] |}.
Proof.
  intros Hh Ha. unfold loop_body. rewrite Hh, Ha. simpl.
  by rewrite !nb_stats_of_init_team.
Qed.

Lemma nb_loop_body_unscored lk acc game :
  home_score game = None ∨ away_score game = None →
  loop_body lk acc game =
  Return {| team_stats := init_team (away_team_id game)
                            (init_team (home_team_id game) (team_stats acc));
            features := features acc;
            labels := labels acc |}.
Proof.
  intros [H|H]; unfold loop_body; rewrite H; [done|].
  by destruct (home_score game).
Qed.

Lemma nb_emits_inv lk acc game v l :
  emits lk acc game v l →
  ∃ hs as_, home_score game = Some hs ∧ away_score game = Some as_ ∧
    5 ≤ games (stats_of (team_stats acc) (home_team_id game)) ∧
    5 ≤ games (stats_of (team_stats acc) (away_team_id game)) ∧
    game_features lk game
      (stats_of (team_stats acc) (home_team_id game))
      (stats_of (team_stats acc) (away_team_id game)) = Return v ∧
    l = label_of hs as_.
Proof.
  intros (acc' & Hret & Hf & Hl).
  destruct (home_score game) as [hs|] eqn:Hh; [destruct (away_score game) as [as_|] eqn:Ha|].
  - rewrite (nb_loop_body_scored _ _ _ _ _ Hh Ha) in Hret. simpl in Hret.
    destruct (bool_decide (_ < 5) || bool_decide (_ < 5)) eqn:E.
    + injection Hret as <-. simpl in Hf. by apply snoc_neq in Hf.
    + apply orb_false_iff in E as [E1%bool_decide_eq_false E2%bool_decide_eq_false].
      destruct (game_features _ _ _ _) as [w|] eqn:Hw; simpl in Hret; [|done].
      injection Hret as <-. simpl in Hf, Hl.
      apply app_inv_head in Hf as [= <-]. apply app_inv_head in Hl as [= <-].
      exists hs, as_. repeat split; auto; lia.
  - rewrite nb_loop_body_unscored in Hret by auto. injection Hret as <-.
    simpl in Hf. by apply snoc_neq in Hf.
  - rewrite nb_loop_body_unscored in Hret by auto. injection Hret as <-.
    simpl in Hf. by apply snoc_neq in Hf.
Qed.

Lemma nb_label_of_spec hs as_ :
  (label_of hs as_ = 1 ↔ as_ < hs) ∧ (hs = as_ → label_of hs as_ = 0) ∧
  (label_of hs as_ = 0 ∨ label_of hs as_ = 1).
Proof. unfold label_of. case_bool_decide; repeat split; intros; auto; lia. Qed.

Lemma nb_stats_of_unscored h a (ts : gmap Z TeamStats) t :
  stats_of (init_team a (init_team h ts)) t = stats_of ts t.
Proof. by rewrite !nb_stats_of_init_team. Qed.

Lemma nb_recent_form_feature_warm s :
  (5 ≤ length (recent_form s))%nat →
  recent_form_feature s = form_mean (last_n 5 (recent_form s)) ∧
  length (last_n 5 (recent_form s)) = 5%nat.
Proof.
  intros Hlen. pose proof (length_last_n 5 (recent_form s)) as Hl.
  split; [|lia]. unfold recent_form_feature.
  destruct (recent_form s); [simpl in Hlen; lia|done].
Qed.

(** The features that a returning evaluation of lines 69-112 puts at
    positions 7, 8, 14 and 15. *)
Lemma game_features_Return lk game home_stats away_stats v :
  game_features lk game home_stats away_stats = Return v →
  v !! 6%nat = Some (recent_form_feature home_stats) ∧
  v !! 7%nat = Some (recent_form_feature away_stats) ∧
  v !! 13%nat = Some (Qc_of_Z (default 0 (injuries_by_team lk !! home_team_id game))) ∧
  v !! 14%nat = Some (Qc_of_Z (default 0 (injuries_by_team lk !! away_team_id game))).
Proof.
  unfold game_features.
  destruct (player_stats_feature lk game "mean"); simpl; [|done].
  destruct (player_stats_feature lk game "sum"); simpl; [|done].
  by intros [= <-].
Qed.

Lemma severity_lookup (injuries_df : DataFrame InjuryRow) m t :
  build_injuries_by_team injuries_df = Return m →
  default 0 (m !! t) = severity_count injuries_df t.
Proof.
  unfold build_injuries_by_team, severity_count, injury_rows.
  destruct (require_columns _ _); simpl; [|done].
  intros [= <-]. rewrite lookup_fmap, groupby_lookup.
  by destruct (filter _ (rows injuries_df)).
Qed.

Lemma build_lookups_injuries stats_df injuries_df weather_df sentiment_df lk :
  build_lookups stats_df injuries_df weather_df sentiment_df = Return lk →
  build_injuries_by_team injuries_df = Return (injuries_by_team lk).
Proof.
  unfold build_lookups.
  destruct (build_stats_by_game stats_df); simpl; [|done].
  destruct (build_injuries_by_team injuries_df); simpl; [|done].
  destruct (build_weather_by_game weather_df); simpl; [|done].
  destruct (build_sentiment_by_team sentiment_df); simpl; [|done].
  by intros [= <-].
Qed.

(** Lines 90-91 raise as soon as the game has a player-stat aggregate. *)
Lemma player_stats_feature_raises lk game stat d x :
  stats_by_game lk !! game_id game = Some d → d !! ("points", stat) = Some x →
  player_stats_feature lk game stat = Raise TypeError.
Proof.
  intros Hd Hx. unfold player_stats_feature. rewrite Hd.
  case_bool_decide as Hb; simpl; [by rewrite Hx|].
  destruct Hb. eauto.
Qed.

Lemma game_features_no_stats lk game home_stats away_stats :
  stats_by_game lk !! game_id game = None →
  ∃ v, game_features lk game home_stats away_stats = Return v.
Proof.
  intros Hd. unfold game_features, player_stats_feature. rewrite Hd.
  case_bool_decide as Hb; simpl; [by destruct Hb|eauto].
Qed.

Lemma nb_loop_body_cases lk acc game acc' :
  loop_body lk acc game = Return acc' →
  (features acc' = features acc ∧ labels acc' = labels acc) ∨
  ∃ v l, emits lk acc game v l.
Proof.
  intros Hret. unfold emits. rewrite Hret. unfold loop_body in Hret.
  destruct (home_score game), (away_score game); simpl in Hret;
    try (injection Hret as <-; by left).
  destruct (_ || _); [injection Hret as <-; by left|].
  destruct (game_features _ _ _ _); simpl in Hret; [|done].
  injection Hret as <-. right. simpl. eauto 10.
Qed.

Lemma nb_emitted_snoc lk games_df extra game v l :
  emitted lk games_df game v l → emitted lk (games_df ++ [extra]) game v l.
Proof.
  intros (pre & post & acc & -> & Hem). exists pre, (post ++ [extra]), acc.
  split; [|done]. by rewrite <- app_assoc.
Qed.

Lemma nb_outputs_were_emitted lk games_df acc :
  game_loop lk initial_state games_df = Return acc →
  ∃ pairs : list (list Qc * Z),
    features acc = pairs.*1 ∧ labels acc = pairs.*2 ∧
    Forall (λ p, ∃ game, emitted lk games_df game p.1 p.2) pairs.
Proof.
  revert acc. induction games_df as [|game games_df IH] using rev_ind; intros acc.
  - intros [= <-]. by exists [].
  - rewrite nb_game_loop_app.
    destruct (game_loop lk initial_state games_df) as [acc0|] eqn:E0; simpl; [|done].
    rewrite game_loop_cons.
    destruct (loop_body lk acc0 game) as [acc1|] eqn:E1; simpl; [|done].
    intros [= <-].
    destruct (IH acc0 eq_refl) as (pairs & Hf & Hl & Hall).
    assert (Forall (λ p, ∃ g, emitted lk (games_df ++ [game]) g p.1 p.2) pairs) as Hall'.
    { eapply Forall_impl; [|exact Hall]. intros p [g Hg]. exists g. by apply nb_emitted_snoc. }
    destruct (nb_loop_body_cases _ _ _ _ E1) as [[Ef El]|(v & l & Hem)].
    + exists pairs. by rewrite Ef, El.
    + exists (pairs ++ [(v, l)]).
      pose proof Hem as (acc2 & Hret & Ef & El).
      rewrite E1 in Hret. injection Hret as <-.
      rewrite Ef, El, Hf, Hl, !fmap_app. repeat split; try done.
      apply Forall_app. split; [done|]. apply Forall_singleton.
      exists game, games_df, [], acc0. done.
Qed.

End BasicFacts.

(** ** Properties of the feature-engineering pass *)

Section Properties.

Variable np_tanh : Qc → Qc.

(** What [engineer_features] returns is the list of pairs emitted by rows
    of the games table, each from the state the rows before it produced. *)
Lemma engineer_features_outputs
    (games_df : list Game) (stats_df : DataFrame StatRow) (injuries_df : DataFrame InjuryRow)
    (weather_df : DataFrame WeatherRow) (sentiment_df : DataFrame SentimentRow) :
  let lk := Full.build_lookups stats_df injuries_df weather_df sentiment_df in
  let Xy := Full.engineer_features np_tanh games_df stats_df injuries_df weather_df sentiment_df in
  ∃ pairs : list (list Qc * Z),
    Xy.1 = pairs.*1 ∧ Xy.2 = pairs.*2 ∧
    Forall (λ p, ∃ game, Full.emitted np_tanh lk games_df game p.1 p.2) pairs.
Proof. apply FullFacts.outputs_were_emitted. Qed.

Lemma notebook_engineer_features_outputs
    (games_df : list Game) (stats_df : DataFrame StatRow) (injuries_df : DataFrame InjuryRow)
    (weather_df : DataFrame WeatherRow) (sentiment_df : DataFrame SentimentRow) lk X y :
  Basic.build_lookups stats_df injuries_df weather_df sentiment_df = Return lk →
  Basic.engineer_features games_df stats_df injuries_df weather_df sentiment_df = Return (X, y) →
  ∃ pairs : list (list Qc * Z),
    X = pairs.*1 ∧ y = pairs.*2 ∧
    Forall (λ p, ∃ game, Basic.emitted lk games_df game p.1 p.2) pairs.
Proof.
  intros Hlk. unfold Basic.engineer_features. rewrite Hlk. simpl.
  destruct (Basic.game_loop lk Basic.initial_state games_df) as [acc|] eqn:E; simpl; [|done].
  intros [= <- <-]. by apply BasicFacts.nb_outputs_were_emitted.
Qed.

(** C2.  After any number of processed games, every team in the store has
    [wins + losses = games] and a [recent_form] of at most 10 entries, in
    the full pass and in every notebook pass that got that far. *)
Theorem team_invariants (lkF : Full.Lookups) (lkB : Basic.Lookups)
    (games_df : list Game) (n : nat) :
  (∀ t s,
     Full.team_stats (Full.game_loop np_tanh lkF Full.initial_state (take n games_df)) !! t
       = Some s →
     Full.wins s + Full.losses s = Full.games s ∧
     (length (Full.recent_form s) ≤ 10)%nat)
  ∧
  (∀ acc t s,
     Basic.game_loop lkB Basic.initial_state (take n games_df) = Return acc →
     Basic.team_stats acc !! t = Some s →
     Basic.wins s + Basic.losses s = Basic.games s ∧
     (length (Basic.recent_form s) ≤ 10)%nat).
Proof.
  split.
  - intros t s Hs.
    pose proof (FullFacts.store_ok_game_loop np_tanh lkF (take n games_df)
                  Full.initial_state FullFacts.store_ok_empty t s Hs) as [Hbal Hlen].
    split; [done|lia].
  - intros acc t s Hret Hs.
    pose proof (BasicFacts.nb_store_ok_game_loop lkB _ _ _ Hret
                  BasicFacts.nb_store_ok_empty t s Hs) as [Hbal Hlen].
    split; [done|lia].
Qed.

(** The warm-up threshold of the two files.  For a game with both scores
    the full file emits a pair exactly when both teams' [games] counters,
    read in the state before the game is applied, are at least 5; otherwise
    nothing is appended, and in either case the update block runs on both
    teams.  In the notebook a pair is emitted only then; the warm-up branch
    (lines 41-66) returns with the update applied and no pair, and a step
    of warmed-up teams emits when it returns, which it does when the game
    has no player-stat aggregate. *)
Theorem warm_up_threshold (lkF : Full.Lookups) (accF : Full.LoopState)
    (lkB : Basic.Lookups) (accB : Basic.LoopState) (game : Game) (hs as_ : Z) :
  home_score game = Some hs → away_score game = Some as_ →
  let home_id := home_team_id game in
  let away_id := away_team_id game in
  let played := if decide (home_id = away_id) then 2 else 1 in
  (let home_stats := Full.stats_of (Full.team_stats accF) home_id in
   let away_stats := Full.stats_of (Full.team_stats accF) away_id in
   let warmed_up := 5 ≤ Full.games home_stats ∧ 5 ≤ Full.games away_stats in
   let acc' := Full.loop_body np_tanh lkF accF game in
   ((∃ v l, Full.emits np_tanh lkF accF game v l) ↔ warmed_up) ∧
   (¬ warmed_up →
      Full.features acc' = Full.features accF ∧ Full.labels acc' = Full.labels accF) ∧
   Full.team_stats acc' =
     Full.update_team_stats home_id away_id hs as_
       (Full.init_team away_id (Full.init_team home_id (Full.team_stats accF))) ∧
   Full.games (Full.stats_of (Full.team_stats acc') home_id)
     = Full.games home_stats + played ∧
   Full.games (Full.stats_of (Full.team_stats acc') away_id)
     = Full.games away_stats + played)
  ∧
  (let home_stats := Basic.stats_of (Basic.team_stats accB) home_id in
   let away_stats := Basic.stats_of (Basic.team_stats accB) away_id in
   let warmed_up := 5 ≤ Basic.games home_stats ∧ 5 ≤ Basic.games away_stats in
   let ts' := Basic.update_team_stats home_id away_id hs as_
       (Basic.init_team away_id (Basic.init_team home_id (Basic.team_stats accB))) in
   ((∃ v l, Basic.emits lkB accB game v l) → warmed_up) ∧
   (¬ warmed_up →
      Basic.loop_body lkB accB game =
      Return {| Basic.team_stats := ts';
                Basic.features := Basic.features accB;
                Basic.labels := Basic.labels accB |}) ∧
   (warmed_up → ∀ acc', Basic.loop_body lkB accB game = Return acc' →
      (∃ v l, Basic.emits lkB accB game v l) ∧ Basic.team_stats acc' = ts') ∧
   (warmed_up → Basic.stats_by_game lkB !! game_id game = None →
      ∃ v l, Basic.emits lkB accB game v l) ∧
   Basic.games (Basic.stats_of ts' home_id) = Basic.games home_stats + played ∧
   Basic.games (Basic.stats_of ts' away_id) = Basic.games away_stats + played).
Proof.
  intros Hh Ha home_id away_id played. split.
  - intros home_stats away_stats warmed_up acc'.
    pose proof (FullFacts.loop_body_scored np_tanh lkF accF game hs as_ Hh Ha) as Hbody.
    simpl in Hbody. fold home_id away_id home_stats away_stats in Hbody.
    split; [|split; [|split]].
    + split.
      * intros (v & l & Hem). apply FullFacts.emits_inv in Hem.
        destruct Hem as (? & ? & _ & _ & ? & ? & _). by split.
      * intros [H1 H2]. unfold Full.emits. rewrite Hbody. simpl.
        rewrite !bool_decide_eq_true_2 by done. simpl. eauto.
    + intros Hnot. subst acc'. rewrite Hbody. simpl.
      destruct (bool_decide (5 ≤ _) && bool_decide (5 ≤ _)) eqn:E; [|done].
      apply andb_true_iff in E as [E1%bool_decide_eq_true E2%bool_decide_eq_true].
      destruct Hnot. by split.
    + subst acc'. by rewrite Hbody.
    + subst acc'. rewrite Hbody. simpl.
      apply (FullFacts.games_after_update home_id away_id hs as_).
  - intros home_stats away_stats warmed_up ts'.
    pose proof (BasicFacts.nb_loop_body_scored lkB accB game hs as_ Hh Ha) as Hbody.
    simpl in Hbody. fold home_id away_id home_stats away_stats ts' in Hbody.
    split; [|split; [|split; [|split]]].
    + intros (v & l & Hem). apply BasicFacts.nb_emits_inv in Hem.
      destruct Hem as (? & ? & _ & _ & ? & ? & _). by split.
    + intros Hnot. rewrite Hbody.
      destruct (bool_decide (_ < 5) || bool_decide (_ < 5)) eqn:E; [done|].
      apply orb_false_iff in E as [E1%bool_decide_eq_false E2%bool_decide_eq_false].
      destruct Hnot. split; lia.
    + intros [H1 H2] acc' Hret. unfold Basic.emits. rewrite Hbody in Hret |- *.
      rewrite !bool_decide_eq_false_2 in Hret |- * by lia. simpl in Hret |- *.
      destruct (Basic.game_features _ _ _ _) as [v|]; simpl in Hret |- *; [|done].
      injection Hret as <-. split; [|done]. eauto 10.
    + intros [H1 H2] Hnone. unfold Basic.emits. rewrite Hbody.
      rewrite !bool_decide_eq_false_2 by lia. simpl.
      destruct (BasicFacts.game_features_no_stats lkB game home_stats away_stats Hnone)
        as [v Hv].
      rewrite Hv. simpl. eauto 10.
    + apply (BasicFacts.nb_games_after_update home_id away_id hs as_).
Qed.

(** C3.  The label of every emitted pair is 1 exactly when the home score
    is strictly greater than the away score; equal scores give 0, and no
    third value occurs. *)
Theorem label_is_strict_home_win (lkF : Full.Lookups) (accF : Full.LoopState)
    (lkB : Basic.Lookups) (accB : Basic.LoopState) (game : Game) (v : list Qc) (l : Z) :
  Full.emits np_tanh lkF accF game v l ∨ Basic.emits lkB accB game v l →
  ∃ hs as_, home_score game = Some hs ∧ away_score game = Some as_ ∧
    (l = 1 ↔ as_ < hs) ∧ (hs = as_ → l = 0) ∧ (l = 0 ∨ l = 1).
Proof.
  intros [Hem|Hem].
  - apply FullFacts.emits_inv in Hem as (hs & as_ & Hh & Ha & _ & _ & _ & ->).
    exists hs, as_. split; [done|]. split; [done|]. apply FullFacts.label_of_spec.
  - apply BasicFacts.nb_emits_inv in Hem as (hs & as_ & Hh & Ha & _ & _ & _ & ->).
    exists hs, as_. split; [done|]. split; [done|]. apply BasicFacts.nb_label_of_spec.
Qed.

(** C4.  A game whose home or away score is null appends no pair, leaves
    every team's record as it was (a team seen for the first time gets its
    all-zero record and nothing else), raises nothing, and the loop goes on
    with the next game. *)
Theorem missing_score_skips (lkF : Full.Lookups) (accF : Full.LoopState)
    (lkB : Basic.Lookups) (accB : Basic.LoopState) (game : Game) (rest : list Game) :
  home_score game = None ∨ away_score game = None →
  (let acc' := Full.loop_body np_tanh lkF accF game in
   Full.features acc' = Full.features accF ∧
   Full.labels acc' = Full.labels accF ∧
   (∀ t, Full.stats_of (Full.team_stats acc') t = Full.stats_of (Full.team_stats accF) t) ∧
   (∀ t s, Full.team_stats accF !! t = Some s → Full.team_stats acc' !! t = Some s) ∧
   Full.game_loop np_tanh lkF accF (game :: rest) = Full.game_loop np_tanh lkF acc' rest)
  ∧
  (∃ acc', Basic.loop_body lkB accB game = Return acc' ∧
   Basic.features acc' = Basic.features accB ∧
   Basic.labels acc' = Basic.labels accB ∧
   (∀ t, Basic.stats_of (Basic.team_stats acc') t = Basic.stats_of (Basic.team_stats accB) t) ∧
   (∀ t s, Basic.team_stats accB !! t = Some s → Basic.team_stats acc' !! t = Some s) ∧
   Basic.game_loop lkB accB (game :: rest) = Basic.game_loop lkB acc' rest).
Proof.
  intros Hnull. split.
  - intros acc'. subst acc'. rewrite (FullFacts.loop_body_unscored _ _ _ _ Hnull). simpl.
    repeat split.
    + intros t. apply FullFacts.stats_of_unscored.
    + intros t s Hs. by apply FullFacts.init_team_keeps, FullFacts.init_team_keeps.
    + by rewrite (FullFacts.loop_body_unscored _ _ _ _ Hnull).
  - eexists. split; [apply (BasicFacts.nb_loop_body_unscored _ _ _ Hnull)|]. simpl.
    repeat split.
    + intros t. apply BasicFacts.nb_stats_of_unscored.
    + intros t s Hs. by apply BasicFacts.nb_init_team_keeps, BasicFacts.nb_init_team_keeps.
    + rewrite BasicFacts.game_loop_cons.
      by rewrite (BasicFacts.nb_loop_body_unscored _ _ _ Hnull).
Qed.

(** C9.  After any number of processed games every team's [recent_form]
    holds exactly [min(games, 10)] outcomes.  Hence whenever a pair is
    emitted both teams have at least five outcomes on record, features 7
    and 8 are the mean of exactly the last five, and the 0.5 fallback of
    an empty form is not taken. *)
Theorem recent_form_window (lkF : Full.Lookups) (lkB : Basic.Lookups) (pre : list Game) :
  (let acc := Full.game_loop np_tanh lkF Full.initial_state pre in
   (∀ t s, Full.team_stats acc !! t = Some s →
      Z.of_nat (length (Full.recent_form s)) = Z.min (Full.games s) 10) ∧
   (∀ game v l, Full.emits np_tanh lkF acc game v l →
      let home_form := Full.recent_form (Full.stats_of (Full.team_stats acc) (home_team_id game)) in
      let away_form := Full.recent_form (Full.stats_of (Full.team_stats acc) (away_team_id game)) in
      (5 ≤ length home_form)%nat ∧ (5 ≤ length away_form)%nat ∧
      length (last_n 5 home_form) = 5%nat ∧ length (last_n 5 away_form) = 5%nat ∧
      v !! 6%nat = Some (form_mean (last_n 5 home_form)) ∧
      v !! 7%nat = Some (form_mean (last_n 5 away_form))))
  ∧
  (∀ acc, Basic.game_loop lkB Basic.initial_state pre = Return acc →
   (∀ t s, Basic.team_stats acc !! t = Some s →
      Z.of_nat (length (Basic.recent_form s)) = Z.min (Basic.games s) 10) ∧
   (∀ game v l, Basic.emits lkB acc game v l →
      let home_form := Basic.recent_form (Basic.stats_of (Basic.team_stats acc) (home_team_id game)) in
      let away_form := Basic.recent_form (Basic.stats_of (Basic.team_stats acc) (away_team_id game)) in
      (5 ≤ length home_form)%nat ∧ (5 ≤ length away_form)%nat ∧
      length (last_n 5 home_form) = 5%nat ∧ length (last_n 5 away_form) = 5%nat ∧
      v !! 6%nat = Some (form_mean (last_n 5 home_form)) ∧
      v !! 7%nat = Some (form_mean (last_n 5 away_form)))).
Proof.
  split.
  - intros acc.
    assert (Full.store_ok (Full.team_stats acc)) as Hok
      by apply FullFacts.store_ok_game_loop, FullFacts.store_ok_empty.
    split; [intros t s Hs; by apply (Hok t s Hs)|].
    intros game v l Hem home_form away_form.
    apply FullFacts.emits_inv in Hem as (hs & as_ & _ & _ & Hgh & Hga & -> & _).
    destruct (FullFacts.team_ok_stats_of _ (home_team_id game) Hok) as [_ Hlh].
    destruct (FullFacts.team_ok_stats_of _ (away_team_id game) Hok) as [_ Hla].
    assert (5 ≤ length home_form)%nat as Hh by (subst home_form; lia).
    assert (5 ≤ length away_form)%nat as Ha by (subst away_form; lia).
    destruct (FullFacts.recent_form_feature_warm _ Hh) as [Eh Lh].
    destruct (FullFacts.recent_form_feature_warm _ Ha) as [Ea La].
    repeat split; try done.
    + simpl. by rewrite Eh.
    + simpl. by rewrite Ea.
  - intros acc Hret.
    assert (Basic.store_ok (Basic.team_stats acc)) as Hok
      by (eapply BasicFacts.nb_store_ok_game_loop; [exact Hret|apply BasicFacts.nb_store_ok_empty]).
    split; [intros t s Hs; by apply (Hok t s Hs)|].
    intros game v l Hem home_form away_form.
    apply BasicFacts.nb_emits_inv in Hem as (hs & as_ & _ & _ & Hgh & Hga & Hv & _).
    apply BasicFacts.game_features_Return in Hv as (H6 & H7 & _).
    destruct (BasicFacts.nb_team_ok_stats_of _ (home_team_id game) Hok) as [_ Hlh].
    destruct (BasicFacts.nb_team_ok_stats_of _ (away_team_id game) Hok) as [_ Hla].
    assert (5 ≤ length home_form)%nat as Hh by (subst home_form; lia).
    assert (5 ≤ length away_form)%nat as Ha by (subst away_form; lia).
    destruct (BasicFacts.nb_recent_form_feature_warm _ Hh) as [Eh Lh].
    destruct (BasicFacts.nb_recent_form_feature_warm _ Ha) as [Ea La].
    repeat split; try done.
    + by rewrite H6, Eh.
    + by rewrite H7, Ea.
Qed.

(** C6.  A scored game between two teams sets the winner's streak to
    [streak + 1] when it was positive and to 1 otherwise, and the loser's
    to [streak - 1] when it was non-positive and to -1 otherwise; the home
    team wins exactly when its score is strictly greater.  A team listed on
    both sides gets the home assignment and then the away assignment, and
    no other team's streak moves. *)
Theorem streak_update (lk : Full.Lookups) (acc : Full.LoopState) (game : Game) (hs as_ : Z) :
  home_score game = Some hs → away_score game = Some as_ →
  let after_win x := if decide (0 < x) then x + 1 else 1 in
  let after_loss x := if decide (x ≤ 0) then x - 1 else -1 in
  let before t := Full.streak (Full.stats_of (Full.team_stats acc) t) in
  let after t :=
    Full.streak (Full.stats_of (Full.team_stats (Full.loop_body np_tanh lk acc game)) t) in
  let home_id := home_team_id game in
  let away_id := away_team_id game in
  (home_id ≠ away_id →
     after home_id = (if decide (as_ < hs) then after_win (before home_id)
                      else after_loss (before home_id)) ∧
     after away_id = (if decide (as_ < hs) then after_loss (before away_id)
                      else after_win (before away_id))) ∧
  (home_id = away_id →
     after home_id = (if decide (as_ < hs) then after_loss (after_win (before home_id))
                      else after_win (after_loss (before home_id)))) ∧
  (∀ t, t ≠ home_id → t ≠ away_id → after t = before t).
Proof.
  intros Hh Ha after_win after_loss before after home_id away_id.
  pose proof (FullFacts.loop_body_scored np_tanh lk acc game hs as_ Hh Ha) as Hbody.
  simpl in Hbody. fold home_id away_id in Hbody.
  pose proof (FullFacts.init_both_lookup_home home_id away_id (Full.team_stats acc)) as Eh.
  pose proof (FullFacts.init_both_lookup_away home_id away_id (Full.team_stats acc)) as Ea.
  subst after before. cbv beta. rewrite Hbody. clear Hbody. simpl.
  split; [|split].
  - intros Hne. subst after_win after_loss. cbv beta. split.
    + unfold Full.stats_of at 1.
      rewrite (FullFacts.update_lookup_home _ _ _ _ _ _ Hne Eh).
      case_bool_decide; case_decide; try lia; simpl; apply FullFacts.streak_rules.
    + unfold Full.stats_of at 1.
      rewrite (FullFacts.update_lookup_away _ _ _ _ _ _ Hne Ea).
      case_bool_decide; case_decide; try lia; simpl; apply FullFacts.streak_rules.
  - intros Heq. unfold Full.stats_of at 1. rewrite <- Heq in *.
    rewrite (FullFacts.update_lookup_both _ _ _ _ _ Eh).
    subst after_win after_loss. cbv beta.
    case_bool_decide; case_decide; try lia; simpl.
    + rewrite (proj2 (FullFacts.streak_rules _)).
      by rewrite (proj1 (FullFacts.streak_rules _)).
    + rewrite (proj1 (FullFacts.streak_rules _)).
      by rewrite (proj2 (FullFacts.streak_rules _)).
  - intros t Hth Hta. unfold Full.stats_of.
    rewrite FullFacts.update_lookup_other by done.
    by rewrite FullFacts.init_both_lookup_other.
Qed.

(** C5.  When the pass produces no pair, [process_data] raises
    [ValueError] and the split-and-scale stage is not entered; that stage
    only ever receives a non-empty feature matrix.  An empty games table is
    one such input. *)
Theorem empty_result_raises (Splits : Type)
    (split_and_scale : list (list Qc) → list Z → result Splits)
    (df_games : list Game) (df_stats : DataFrame StatRow) (df_injuries : DataFrame InjuryRow)
    (df_weather : DataFrame WeatherRow) (df_sentiment : DataFrame SentimentRow) :
  let Xy := Full.engineer_features np_tanh df_games df_stats df_injuries df_weather df_sentiment in
  let run := Full.process_data np_tanh Splits split_and_scale in
  (Xy.1 = [] →
     run df_games df_stats df_injuries df_weather df_sentiment
     = Raise (ValueError "No features created! Check your data.")) ∧
  (Xy.1 ≠ [] →
     run df_games df_stats df_injuries df_weather df_sentiment = split_and_scale Xy.1 Xy.2) ∧
  run [] df_stats df_injuries df_weather df_sentiment
  = Raise (ValueError "No features created! Check your data.").
Proof.
  intros Xy run. subst run. unfold Full.process_data. fold Xy.
  destruct Xy as [X y]. simpl. split; [|split].
  - by intros ->.
  - intros HX. destruct X; [done|]. by rewrite bool_decide_eq_false_2.
  - done.
Qed.

(** C10.  The injury and sentiment lookups are computed from the whole
    tables before the loop and read by team id alone: in every emitted
    vector feature 14 is the capped row count of the home team and feature
    18 the [tanh] of its mean score over the table, features 15 and 19 the
    same for the away team.  So two emitted pairs of one run with the same
    home team agree on features 14 and 18, and two with the same away team
    on features 15 and 19. *)
Theorem team_lookups_ignore_the_game
    (games_df : list Game) (stats_df : DataFrame StatRow) (injuries_df : DataFrame InjuryRow)
    (weather_df : DataFrame WeatherRow) (sentiment_df : DataFrame SentimentRow)
    (game1 game2 : Game) (v1 v2 : list Qc) (l1 l2 : Z) :
  let lk := Full.build_lookups stats_df injuries_df weather_df sentiment_df in
  Full.emitted np_tanh lk games_df game1 v1 l1 →
  Full.emitted np_tanh lk games_df game2 v2 l2 →
  (v1 !! 13%nat = Some (py_min (Qc_of_Z (injury_count injuries_df (home_team_id game1))
                                / Qc_of_Z 5)%Qc 1%Qc) ∧
   v1 !! 14%nat = Some (py_min (Qc_of_Z (injury_count injuries_df (away_team_id game1))
                                / Qc_of_Z 5)%Qc 1%Qc) ∧
   v1 !! 17%nat = Some (np_tanh (team_sentiment sentiment_df (home_team_id game1))) ∧
   v1 !! 18%nat = Some (np_tanh (team_sentiment sentiment_df (away_team_id game1)))) ∧
  (home_team_id game1 = home_team_id game2 →
     v1 !! 13%nat = v2 !! 13%nat ∧ v1 !! 17%nat = v2 !! 17%nat) ∧
  (away_team_id game1 = away_team_id game2 →
     v1 !! 14%nat = v2 !! 14%nat ∧ v1 !! 18%nat = v2 !! 18%nat).
Proof.
  intros lk (pre1 & post1 & _ & Hem1) (pre2 & post2 & _ & Hem2).
  apply FullFacts.emits_inv in Hem1 as (? & ? & _ & _ & _ & _ & -> & _).
  apply FullFacts.emits_inv in Hem2 as (? & ? & _ & _ & _ & _ & -> & _).
  pose proof (FullFacts.game_features_positions np_tanh lk game1) as P1.
  pose proof (FullFacts.game_features_positions np_tanh lk game2) as P2.
  assert (∀ t, default 0 (Full.injuries_by_team lk !! t) = injury_count injuries_df t) as Hinj
    by apply FullFacts.injuries_lookup.
  assert (∀ t, default 0%Qc (Full.sentiment_by_team lk !! t) = team_sentiment sentiment_df t)
    as Hsent by apply FullFacts.sentiment_lookup.
  split; [|split].
  - destruct (P1 (Full.stats_of (Full.team_stats (Full.game_loop np_tanh lk Full.initial_state pre1))
                    (home_team_id game1))
                 (Full.stats_of (Full.team_stats (Full.game_loop np_tanh lk Full.initial_state pre1))
                    (away_team_id game1))) as (_ & A & B & C & D).
    rewrite A, B, C, D, !Hinj, !Hsent. done.
  - intros Heq.
    edestruct P1 as (_ & A1 & _ & C1 & _). edestruct P2 as (_ & A2 & _ & C2 & _).
    rewrite A1, A2, C1, C2, Heq. done.
  - intros Heq.
    edestruct P1 as (_ & _ & B1 & _ & D1). edestruct P2 as (_ & _ & B2 & _ & D2).
    rewrite B1, B2, D1, D2, Heq. done.
Qed.

(** C7, as the code has it.  In the full pass features 14 and 15 of every
    emitted vector are [min(count / 5, 1)] for the home and the away team,
    where [count] is the number of the team's rows in the injury table (0
    without rows), so both lie between 0 and 1.  In the notebook pass they
    are the team's number of injury rows with a severity, neither divided
    nor capped. *)
Theorem injury_features
    (stats_df : DataFrame StatRow) (injuries_df : DataFrame InjuryRow)
    (weather_df : DataFrame WeatherRow) (sentiment_df : DataFrame SentimentRow)
    (accF : Full.LoopState) (lkB : Basic.Lookups) (accB : Basic.LoopState)
    (game : Game) (v : list Qc) (l : Z) :
  let home_id := home_team_id game in
  let away_id := away_team_id game in
  (Full.emits np_tanh (Full.build_lookups stats_df injuries_df weather_df sentiment_df)
     accF game v l →
   ∃ f14 f15,
     v !! 13%nat = Some f14 ∧ v !! 14%nat = Some f15 ∧
     f14 = py_min (Qc_of_Z (injury_count injuries_df home_id) / Qc_of_Z 5)%Qc 1%Qc ∧
     f15 = py_min (Qc_of_Z (injury_count injuries_df away_id) / Qc_of_Z 5)%Qc 1%Qc ∧
     (0 ≤ f14)%Qc ∧ (f14 ≤ 1)%Qc ∧ (0 ≤ f15)%Qc ∧ (f15 ≤ 1)%Qc ∧
     (injury_rows injuries_df home_id = [] → f14 = 0%Qc) ∧
     (injury_rows injuries_df away_id = [] → f15 = 0%Qc))
  ∧
  (Basic.build_lookups stats_df injuries_df weather_df sentiment_df = Return lkB →
   Basic.emits lkB accB game v l →
   v !! 13%nat = Some (Qc_of_Z (severity_count injuries_df home_id)) ∧
   v !! 14%nat = Some (Qc_of_Z (severity_count injuries_df away_id))).
Proof.
  intros home_id away_id. split.
  - intros Hem.
    apply FullFacts.emits_inv in Hem as (? & ? & _ & _ & _ & _ & -> & _).
    edestruct FullFacts.game_features_positions as (_ & A & B & _).
    eexists _, _. split; [exact A|]. split; [exact B|]. simpl.
    fold home_id away_id. rewrite !FullFacts.injuries_lookup.
    pose proof (capped_count _ (injury_count_nonneg injuries_df home_id)) as (H1 & H2 & H3 & _).
    pose proof (capped_count _ (injury_count_nonneg injuries_df away_id)) as (A1 & A2 & A3 & _).
    repeat split; try done.
    + intros Hnone. rewrite injury_count_no_rows in * by done.
      rewrite H3 by lia. by apply Qc_is_canon.
    + intros Hnone. rewrite injury_count_no_rows in * by done.
      rewrite A3 by lia. by apply Qc_is_canon.
  - intros Hlk Hem.
    apply BasicFacts.nb_emits_inv in Hem as (? & ? & _ & _ & _ & _ & Hv & _).
    apply BasicFacts.game_features_Return in Hv as (_ & _ & A & B).
    apply BasicFacts.build_lookups_injuries in Hlk.
    by rewrite A, B, !(BasicFacts.severity_lookup _ _ _ Hlk).
Qed.

End Properties.

Lemma team_invariants_witness :
  Full.team_stats (Full.game_loop Samples.squash Samples.full_lookups Full.initial_state
                     (take 6 Samples.season)) !! 1
    = Some (Full.mkTeamStats 6 5 1 571 547 [1; 1; 1; 1; 0; 1] 4 3 2 2 1 0)
  ∧ 5 + 1 = 6 ∧ (6 ≤ 10)%nat.
Proof.
  assert (Full.team_stats (Full.game_loop Samples.squash Samples.full_lookups
            Full.initial_state (take 6 Samples.season)) !! 1
          = Some (Full.mkTeamStats 6 5 1 571 547 [1; 1; 1; 1; 0; 1] 4 3 2 2 1 0)) as H
    by (vm_compute; reflexivity).
  split; [exact H|].
  exact (proj1 (team_invariants Samples.squash Samples.full_lookups Samples.basic_lookups
                  Samples.season 6) 1 _ H).
Defined.

(** ** Concrete runs *)

Lemma sixth_emits :
  Full.emits Samples.squash Samples.full_lookups Samples.warmed Samples.sixth
    Samples.sixth_vector 1.
Proof. split; by vm_compute. Qed.

Lemma sixth_emitted :
  Full.emitted Samples.squash Samples.full_lookups Samples.long_season
    Samples.sixth Samples.sixth_vector 1.
Proof.
  exists Samples.warm_up, [Samples.seventh]. split; [reflexivity|]. split; by vm_compute.
Qed.

Lemma seventh_emitted :
  Full.emitted Samples.squash Samples.full_lookups Samples.long_season
    Samples.seventh Samples.seventh_vector 0.
Proof.
  exists (Samples.warm_up ++ [Samples.sixth]), []. split; [reflexivity|].
  split; by vm_compute.
Qed.

Lemma warm_up_nb_returns :
  Basic.game_loop Samples.basic_lookups Basic.initial_state Samples.warm_up
  = Return Samples.warmed_nb.
Proof. by vm_compute. Qed.

(** The notebook pass stops with an exception at the first game that
    is played by warmed-up teams and has player statistics. *)
Lemma notebook_raises_on_player_stats :
  Basic.engineer_features Samples.season Samples.sixth_game_stats Samples.one_injury
    Samples.no_table Samples.one_sentiment = Raise TypeError.
Proof. by vm_compute. Qed.

(** The full pass emits for the same tables. *)
Lemma full_pass_emits_with_player_stats :
  length (Full.engineer_features Samples.squash Samples.season Samples.sixth_game_stats
            Samples.one_injury Samples.no_table Samples.one_sentiment).1 = 1%nat.
Proof. by vm_compute. Qed.

(** C1, where the notebook departs from it.  The sixth game of the sample
    table has both scores, its two teams have five games each in the state
    before it, and the player-stat table has a row for it.  Lines 90-91 of
    the notebook subscript the aggregated float, so the step raises
    [TypeError]: no pair is emitted for the game and the call as a whole
    raises.  The full file emits a pair for the same game on the same
    tables. *)
Theorem warm_up_threshold_notebook_failure :
  ∃ lk acc,
    Basic.build_lookups Samples.sixth_game_stats Samples.one_injury Samples.no_table
      Samples.one_sentiment = Return lk ∧
    Basic.game_loop lk Basic.initial_state Samples.warm_up = Return acc ∧
    home_score Samples.sixth = Some 101 ∧ away_score Samples.sixth = Some 99 ∧
    5 ≤ Basic.games (Basic.stats_of (Basic.team_stats acc) (home_team_id Samples.sixth)) ∧
    5 ≤ Basic.games (Basic.stats_of (Basic.team_stats acc) (away_team_id Samples.sixth)) ∧
    Basic.loop_body lk acc Samples.sixth = Raise TypeError ∧
    (∀ v l, ¬ Basic.emits lk acc Samples.sixth v l) ∧
    Basic.engineer_features (Samples.warm_up ++ [Samples.sixth]) Samples.sixth_game_stats
      Samples.one_injury Samples.no_table Samples.one_sentiment = Raise TypeError ∧
    ∃ v l,
      Full.emits Samples.squash
        (Full.build_lookups Samples.sixth_game_stats Samples.one_injury Samples.no_table
           Samples.one_sentiment)
        (Full.game_loop Samples.squash
           (Full.build_lookups Samples.sixth_game_stats Samples.one_injury Samples.no_table
              Samples.one_sentiment)
           Full.initial_state Samples.warm_up)
        Samples.sixth v l.
Proof.
  eexists _, _. split; [by vm_compute|]. split; [by vm_compute|].
  split; [reflexivity|]. split; [reflexivity|].
  split; [by vm_compute|]. split; [by vm_compute|].
  match goal with
  | |- ?body = _ ∧ _ => assert (body = Raise TypeError) as Hraise by (by vm_compute)
  end.
  split; [exact Hraise|]. split.
  - intros v l (acc' & Hret & _). rewrite Hraise in Hret. discriminate Hret.
  - split; [by vm_compute|].
    eexists _, _. split; by vm_compute.
Qed.

Lemma warm_up_threshold_witness :
  home_score Samples.sixth = Some 101 ∧ away_score Samples.sixth = Some 99 ∧
  ∃ v l, Full.emits Samples.squash Samples.full_lookups Samples.warmed Samples.sixth v l.
Proof.
  split; [reflexivity|]. split; [reflexivity|].
  apply (proj1 (warm_up_threshold Samples.squash Samples.full_lookups Samples.warmed
                  Samples.basic_lookups Samples.warmed_nb Samples.sixth 101 99
                  eq_refl eq_refl)).
  split; by vm_compute.
Defined.

Lemma label_is_strict_home_win_witness :
  ∃ hs as_, home_score Samples.sixth = Some hs ∧ away_score Samples.sixth = Some as_ ∧
    (1 = 1 ↔ as_ < hs) ∧ (hs = as_ → 1 = 0) ∧ (1 = 0 ∨ 1 = 1).
Proof.
  exact (label_is_strict_home_win Samples.squash Samples.full_lookups Samples.warmed
           Samples.basic_lookups Samples.warmed_nb Samples.sixth Samples.sixth_vector 1
           (or_introl sixth_emits)).
Defined.

Lemma missing_score_skips_witness :
  (home_score (Samples.unplayed 8 1 3) = None ∨ away_score (Samples.unplayed 8 1 3) = None) ∧
  Full.features (Full.loop_body Samples.squash Samples.full_lookups Samples.warmed
                   (Samples.unplayed 8 1 3))
  = Full.features Samples.warmed.
Proof.
  split; [by left|].
  exact (proj1 (proj1 (missing_score_skips Samples.squash Samples.full_lookups Samples.warmed
                         Samples.basic_lookups Samples.warmed_nb (Samples.unplayed 8 1 3) []
                         (or_introl eq_refl)))).
Defined.

Lemma streak_update_witness :
  home_score Samples.sixth = Some 101 ∧ away_score Samples.sixth = Some 99 ∧
  Full.streak (Full.stats_of (Full.team_stats Samples.warmed) 1) = -1 ∧
  Full.streak (Full.stats_of (Full.team_stats
     (Full.loop_body Samples.squash Samples.full_lookups Samples.warmed Samples.sixth)) 1) = 1.
Proof.
  split; [reflexivity|]. split; [reflexivity|]. split; [by vm_compute|].
  pose proof (proj1 (proj1 (streak_update Samples.squash Samples.full_lookups Samples.warmed
                              Samples.sixth 101 99 eq_refl eq_refl)
                       ltac:(by vm_compute))) as H.
  etrans; [exact H|]. by vm_compute.
Defined.

Lemma empty_result_raises_witness :
  (Full.engineer_features Samples.squash Samples.warm_up Samples.stats_header
     Samples.one_injury Samples.no_table Samples.one_sentiment).1 = [] ∧
  Full.process_data Samples.squash unit (λ _ _, Return ()) Samples.warm_up
    Samples.stats_header Samples.one_injury Samples.no_table Samples.one_sentiment
  = Raise (ValueError "No features created! Check your data.").
Proof.
  split; [by vm_compute|].
  apply (proj1 (empty_result_raises Samples.squash unit (λ _ _, Return ()) Samples.warm_up
                  Samples.stats_header Samples.one_injury Samples.no_table
                  Samples.one_sentiment)).
  by vm_compute.
Defined.

Lemma recent_form_window_witness :
  (5 ≤ length (Full.recent_form
                 (Full.stats_of (Full.team_stats Samples.warmed) (home_team_id Samples.sixth))))%nat.
Proof.
  exact (proj1 (proj2 (proj1 (recent_form_window Samples.squash Samples.full_lookups
                                Samples.basic_lookups Samples.warm_up))
                  Samples.sixth Samples.sixth_vector 1 sixth_emits)).
Defined.

Lemma team_lookups_ignore_the_game_witness :
  Samples.sixth_vector !! 13%nat = Samples.seventh_vector !! 13%nat ∧
  Samples.sixth_vector !! 17%nat = Samples.seventh_vector !! 17%nat.
Proof.
  exact (proj1 (proj2 (team_lookups_ignore_the_game Samples.squash Samples.long_season
                         Samples.stats_header Samples.one_injury Samples.no_table
                         Samples.one_sentiment Samples.sixth Samples.seventh
                         Samples.sixth_vector Samples.seventh_vector 1 0
                         sixth_emitted seventh_emitted))
           eq_refl).
Defined.

Lemma injury_features_witness :
  ∃ f14 f15,
    Samples.sixth_vector !! 13%nat = Some f14 ∧ Samples.sixth_vector !! 14%nat = Some f15 ∧
    f14 = py_min (Qc_of_Z (injury_count Samples.one_injury 1) / Qc_of_Z 5)%Qc 1%Qc ∧
    f15 = py_min (Qc_of_Z (injury_count Samples.one_injury 2) / Qc_of_Z 5)%Qc 1%Qc ∧
    (0 ≤ f14)%Qc ∧ (f14 ≤ 1)%Qc ∧ (0 ≤ f15)%Qc ∧ (f15 ≤ 1)%Qc.
Proof.
  destruct (proj1 (injury_features Samples.squash Samples.stats_header Samples.one_injury
                     Samples.no_table Samples.one_sentiment Samples.warmed
                     Samples.basic_lookups Samples.warmed_nb Samples.sixth
                     Samples.sixth_vector 1) sixth_emits)
    as (f14 & f15 & H1 & H2 & H3 & H4 & H5 & H6 & H7 & H8 & _).
  exists f14, f15. repeat split; assumption.
Defined.

(** C7 fails on the notebook pass: with six injury rows for team 1, the
    one emitted vector carries 6 at position 14, which is neither
    [min(6 / 5, 1)] nor at most 1. *)
Lemma injury_features_counterexample :
  ∃ v l,
    Basic.engineer_features Samples.season Samples.stats_header Samples.six_injuries
      Samples.no_table Samples.one_sentiment = Return ([v], [l]) ∧
    home_team_id Samples.sixth = 1 ∧
    length (injury_rows Samples.six_injuries 1) = 6%nat ∧
    v !! 13%nat = Some (Qc_of_Z 6) ∧
    v !! 13%nat ≠ Some (py_min (Qc_of_Z 6 / Qc_of_Z 5)%Qc 1%Qc) ∧
    ¬ (Qc_of_Z 6 ≤ 1)%Qc.
Proof.
  eexists _, _. split; [by vm_compute|].
  split; [reflexivity|]. split; [reflexivity|]. split; [reflexivity|].
  split.
  - intros [=].
  - intros H. vm_compute in H. by apply H.
Qed.
Lemma last_last_n {A} (n : nat) (l : list A) :
  (0 < n)%nat → list.last (last_n n l) = list.last l.
Proof.
  intros Hn. destruct l as [|x l _] using rev_ind; [done|].
  unfold last_n. rewrite length_app. simpl.
  rewrite drop_app_le by lia. by rewrite !last_snoc.
Qed.

Lemma Forall_last_n {A} (P : A → Prop) (n : nat) (l : list A) :
  Forall P l → Forall P (last_n n l).
Proof. apply Forall_drop. Qed.

Module FullRecord.
Import Full FullFacts.

Lemma record_ok_new : record_ok new_team_stats.
Proof. unfold record_ok. simpl. repeat split; try done; lia. Qed.

Ltac record_step :=
  match goal with
  | H : record_ok _ |- record_ok _ =>
      unfold record_ok in *; destruct H as (? & ? & ? & ? & ? & ? & ? & Hrf & ? & Hlast);
      case_bool_decide; simpl;
      rewrite ?last_last_n by lia; rewrite ?last_snoc;
      unfold streak_after_win, streak_after_loss;
      repeat split;
      try (repeat apply Forall_last_n; repeat (apply Forall_app; split); auto);
      try (destruct (list.last (recent_form _)));
      repeat case_bool_decide; repeat case_decide; simpl in *; try lia
  end.

Lemma record_ok_update h a hs as_ ts :
  (∀ t s, ts !! t = Some s → record_ok s) →
  ∀ t s, update_team_stats h a hs as_ ts !! t = Some s → record_ok s.
Proof.
  intros Hok t s'. destruct (ts !! t) as [s|] eqn:E.
  2: { by rewrite update_lookup_None. }
  apply Hok in E as Hs.
  destruct (decide (t = h)) as [->|Hth]; [destruct (decide (h = a)) as [->|Hha]|].
  - rewrite (update_lookup_both _ _ _ _ _ E). intros [= <-]. record_step.
  - rewrite (update_lookup_home _ _ _ _ _ _ Hha E). intros [= <-]. record_step.
  - destruct (decide (t = a)) as [->|Hta].
    + rewrite (update_lookup_away _ _ _ _ _ _ (not_eq_sym Hth) E).
      intros [= <-]. record_step.
    + rewrite update_lookup_other by done. rewrite E. by intros [= <-].
Qed.

Section Loop.

Variable np_tanh : Qc → Qc.
Variable lk : Lookups.
Variable P : TeamStats → Prop.
Hypothesis P_new : P new_team_stats.
Hypothesis P_update : ∀ h a hs as_ ts,
  (∀ t s, ts !! t = Some s → P s) →
  ∀ t s, update_team_stats h a hs as_ ts !! t = Some s → P s.

Lemma all_teams_init_team u ts :
  (∀ t s, ts !! t = Some s → P s) → ∀ t s, init_team u ts !! t = Some s → P s.
Proof.
  intros Hok t s. unfold init_team.
  destruct (ts !! u) eqn:E; [apply Hok|].
  rewrite lookup_insert. case_decide; [by intros [= <-]|apply Hok].
Qed.

Lemma all_teams_loop_body acc game :
  (∀ t s, team_stats acc !! t = Some s → P s) →
  ∀ t s, team_stats (loop_body np_tanh lk acc game) !! t = Some s → P s.
Proof.
  intros Hok. unfold loop_body.
  destruct (home_score game), (away_score game); simpl;
    eauto using all_teams_init_team.
Qed.

Lemma all_teams_game_loop games_df acc :
  (∀ t s, team_stats acc !! t = Some s → P s) →
  ∀ t s, team_stats (game_loop np_tanh lk acc games_df) !! t = Some s → P s.
Proof.
  revert acc. induction games_df as [|game rest IH]; intros acc Hok; [done|].
  simpl. by apply IH, all_teams_loop_body.
Qed.

Lemma all_teams_reached games_df t :
  P (stats_of (team_stats (game_loop np_tanh lk initial_state games_df)) t).
Proof.
  unfold stats_of. destruct (_ !! t) as [s|] eqn:E; simpl; [|done].
  revert E. apply all_teams_game_loop. intros t' s' Hs. simpl in Hs.
  by rewrite lookup_empty in Hs.
Qed.

End Loop.

End FullRecord.

(** Ratios of counters. *)
Lemma py_div_unit_interval (a b : Z) :
  0 ≤ a ≤ b → 0 < b → (0 ≤ py_div a b)%Qc ∧ (py_div a b ≤ 1)%Qc.
Proof.
  intros [Ha Hab] Hb. unfold py_div, Qcdiv.
  assert (0 < Qc_of_Z b)%Qc as Hb' by (rewrite <- Z2Qc_inj_0; by apply (proj1 (Z2Qc_inj_lt 0 b))).
  assert (0 ≤ / Qc_of_Z b)%Qc as Hinv by (by apply Qclt_le_weak, Qcinv_pos).
  split.
  - rewrite <- (Qcmult_0_l (/ Qc_of_Z b)). apply Qcmult_le_compat_r; [|done].
    rewrite <- Z2Qc_inj_0. by apply (proj1 (Z2Qc_inj_le 0 a)).
  - rewrite <- (Qcmult_inv_r (Qc_of_Z b)) by (by apply Qclt_not_eq in Hb').
    apply Qcmult_le_compat_r; [|done]. by apply (proj1 (Z2Qc_inj_le a b)).
Qed.

Lemma Qc_sum_of_Z (l : list Z) : Qc_sum (Qc_of_Z <$> l) = Qc_of_Z (foldr Z.add 0 l).
Proof.
  unfold Qc_sum. induction l as [|x l IH].
  - symmetry. apply Z2Qc_inj_0.
  - rewrite fmap_cons. cbn [foldr]. rewrite IH. symmetry. apply Z2Qc_inj_add.
Qed.

Lemma form_mean_ratio (l : list Z) :
  form_mean l = py_div (foldr Z.add 0 l) (Z.of_nat (length l)).
Proof. unfold form_mean, mean, py_div. by rewrite Qc_sum_of_Z, length_fmap. Qed.

Lemma outcomes_sum_bounds (l : list Z) :
  Forall (λ x, x = 0 ∨ x = 1) l → 0 ≤ foldr Z.add 0 l ≤ Z.of_nat (length l).
Proof. induction 1 as [|x l [->| ->] _ IH]; simpl; lia. Qed.

Lemma form_mean_unit_interval (l : list Z) :
  Forall (λ x, x = 0 ∨ x = 1) l → l ≠ [] →
  (0 ≤ form_mean l)%Qc ∧ (form_mean l ≤ 1)%Qc.
Proof.
  intros Hl Hne. rewrite form_mean_ratio. apply py_div_unit_interval.
  - by apply outcomes_sum_bounds.
  - destruct l; [done|simpl; lia].
Qed.

Lemma Qc_diff_bounds (a b : Qc) :
  (0 ≤ a)%Qc → (a ≤ 1)%Qc → (0 ≤ b)%Qc → (b ≤ 1)%Qc →
  (-1 ≤ a - b)%Qc ∧ (a - b ≤ 1)%Qc.
Proof.
  intros Ha0 Ha1 Hb0 Hb1. unfold Qcminus. split.
  - replace (-1)%Qc with (0 + - 1)%Qc by (by apply Qc_is_canon).
    apply Qcplus_le_compat; [done|]. by apply Qcopp_le_compat.
  - replace 1%Qc with (1 + - 0)%Qc by (by apply Qc_is_canon).
    apply Qcplus_le_compat; [done|]. by apply Qcopp_le_compat.
Qed.

Lemma notebook_game_features_head (lk : Basic.Lookups) game home_stats away_stats v :
  Basic.game_features lk game home_stats away_stats = Return v →
  length v = 23%nat ∧
  v !! 0%nat = Some (py_div (Basic.wins home_stats) (Basic.games home_stats)) ∧
  v !! 1%nat = Some (py_div (Basic.wins away_stats) (Basic.games away_stats)) ∧
  v !! 2%nat = Some (py_div (Basic.points_for home_stats) (Basic.games home_stats)) ∧
  v !! 3%nat = Some (py_div (Basic.points_for away_stats) (Basic.games away_stats)) ∧
  v !! 4%nat = Some (py_div (Basic.points_against home_stats) (Basic.games home_stats)) ∧
  v !! 5%nat = Some (py_div (Basic.points_against away_stats) (Basic.games away_stats)) ∧
  v !! 8%nat = Some (py_div (Basic.wins home_stats) (Basic.games home_stats)
                     - py_div (Basic.wins away_stats) (Basic.games away_stats))%Qc ∧
  v !! 9%nat = Some (py_div (Basic.points_for home_stats - Basic.points_against home_stats)
                       (Basic.games home_stats)) ∧
  v !! 10%nat = Some (py_div (Basic.points_for away_stats - Basic.points_against away_stats)
                        (Basic.games away_stats)).
Proof.
  unfold Basic.game_features.
  destruct (Basic.player_stats_feature lk game "mean"); simpl; [|done].
  destruct (Basic.player_stats_feature lk game "sum"); simpl; [|done].
  by intros [= <-].
Qed.

Section Further.

Variable np_tanh : Qc → Qc.

Lemma game_features_head (lk : Full.Lookups) game home_stats away_stats :
  let v := Full.game_features np_tanh lk game home_stats away_stats in
  v !! 0%nat = Some (py_div (Full.wins home_stats) (Full.games home_stats)) ∧
  v !! 1%nat = Some (py_div (Full.wins away_stats) (Full.games away_stats)) ∧
  v !! 2%nat = Some (py_div (Full.points_for home_stats) (Full.games home_stats)) ∧
  v !! 3%nat = Some (py_div (Full.points_for away_stats) (Full.games away_stats)) ∧
  v !! 4%nat = Some (py_div (Full.points_against home_stats) (Full.games home_stats)) ∧
  v !! 5%nat = Some (py_div (Full.points_against away_stats) (Full.games away_stats)) ∧
  v !! 6%nat = Some (Full.recent_form_feature home_stats) ∧
  v !! 7%nat = Some (Full.recent_form_feature away_stats) ∧
  v !! 8%nat = Some (py_div (Full.wins home_stats) (Full.games home_stats)
                     - py_div (Full.wins away_stats) (Full.games away_stats))%Qc ∧
  v !! 9%nat = Some (py_div (Full.points_for home_stats - Full.points_against home_stats)
                       (Full.games home_stats)) ∧
  v !! 10%nat = Some (py_div (Full.points_for away_stats - Full.points_against away_stats)
                        (Full.games away_stats)) ∧
  v !! 22%nat = Some 1%Qc.
Proof.
  unfold Full.game_features, Full.player_stats_features. by case_bool_decide.
Qed.

(** The home/away split of a record adds up: for every team in the store
    after the pass, home games and away games sum to its games, home wins
    and away wins to its wins, each win counter stays within its game
    counter, and [rest_days] is never moved from 0. *)
Theorem split_counters_balance (lk : Full.Lookups) (games_df : list Game) (t : Z)
    (s : Full.TeamStats) :
  Full.team_stats (Full.game_loop np_tanh lk Full.initial_state games_df) !! t = Some s →
  Full.home_games s + Full.away_games s = Full.games s ∧
  Full.home_wins s + Full.away_wins s = Full.wins s ∧
  0 ≤ Full.home_wins s ≤ Full.home_games s ∧
  0 ≤ Full.away_wins s ≤ Full.away_games s ∧
  0 ≤ Full.wins s ≤ Full.games s ∧
  Full.rest_days s = 0.
Proof.
  intros Hs.
  pose proof (FullFacts.store_ok_game_loop np_tanh lk games_df Full.initial_state
                FullFacts.store_ok_empty t s Hs) as [Hbal _].
  pose proof (FullRecord.all_teams_game_loop np_tanh lk record_ok FullRecord.record_ok_new
                FullRecord.record_ok_update games_df Full.initial_state
                ltac:(intros ?? H; simpl in H; by rewrite lookup_empty in H) t s Hs)
    as (? & ? & ? & ? & ? & ? & ? & _).
  repeat split; try done; lia.
Qed.

(** The streak agrees with the record it sits in: it lies between minus
    the losses and the wins, it is 0 exactly for a team without a scored
    game, [recent_form] holds only 0 and 1, and the sign of the streak is
    the last outcome in [recent_form] (positive after a win, negative
    after a loss). *)
Theorem streak_follows_form (lk : Full.Lookups) (games_df : list Game) (t : Z)
    (s : Full.TeamStats) :
  Full.team_stats (Full.game_loop np_tanh lk Full.initial_state games_df) !! t = Some s →
  - Full.losses s ≤ Full.streak s ≤ Full.wins s ∧
  (Full.streak s = 0 ↔ Full.games s = 0) ∧
  Forall (λ x, x = 0 ∨ x = 1) (Full.recent_form s) ∧
  ∀ x, list.last (Full.recent_form s) = Some x →
    (0 < Full.streak s ↔ x = 1) ∧ (Full.streak s < 0 ↔ x = 0).
Proof.
  intros Hs.
  pose proof (FullFacts.store_ok_game_loop np_tanh lk games_df Full.initial_state
                FullFacts.store_ok_empty t s Hs) as [Hbal Hlen].
  pose proof (FullRecord.all_teams_game_loop np_tanh lk record_ok FullRecord.record_ok_new
                FullRecord.record_ok_update games_df Full.initial_state
                ltac:(intros ?? H; simpl in H; by rewrite lookup_empty in H) t s Hs)
    as (? & ? & _ & _ & _ & _ & _ & Hrf & Hst & Hlast).
  split; [done|]. split; [|split; [done|]].
  - destruct (list.last (Full.recent_form s)) as [x|] eqn:E.
    + apply last_Some in E as [l' El]. rewrite El, length_app in Hlen. simpl in Hlen.
      case_decide; split; lia.
    + destruct Hlast. split; intros; lia.
  - intros x Hx. rewrite Hx in Hlast.
    assert (x = 0 ∨ x = 1) as Hbin.
    { apply last_Some in Hx as [l' El]. rewrite El in Hrf.
      apply Forall_app in Hrf as [_ Hx]. by inversion Hx. }
    case_decide; split; split; intros; lia.
Qed.

(** In every emitted vector, of either file, feature 9 is feature 1 minus
    feature 2, the difference of the same two quotients.  Features 10 and
    11 are one quotient each: the points the side scored minus the points
    it allowed, subtracted as counters of its record before the game, over
    its games. *)
Theorem differential_features (lkF : Full.Lookups) (accF : Full.LoopState)
    (lkB : Basic.Lookups) (accB : Basic.LoopState) (game : Game) (v : list Qc) (l : Z) :
  (Full.emits np_tanh lkF accF game v l →
   let home := Full.stats_of (Full.team_stats accF) (home_team_id game) in
   let away := Full.stats_of (Full.team_stats accF) (away_team_id game) in
   (∃ f1 f2, v !! 0%nat = Some f1 ∧ v !! 1%nat = Some f2 ∧ v !! 8%nat = Some (f1 - f2)%Qc) ∧
   v !! 9%nat = Some (py_div (Full.points_for home - Full.points_against home)
                        (Full.games home)) ∧
   v !! 10%nat = Some (py_div (Full.points_for away - Full.points_against away)
                         (Full.games away)))
  ∧
  (Basic.emits lkB accB game v l →
   let home := Basic.stats_of (Basic.team_stats accB) (home_team_id game) in
   let away := Basic.stats_of (Basic.team_stats accB) (away_team_id game) in
   (∃ f1 f2, v !! 0%nat = Some f1 ∧ v !! 1%nat = Some f2 ∧ v !! 8%nat = Some (f1 - f2)%Qc) ∧
   v !! 9%nat = Some (py_div (Basic.points_for home - Basic.points_against home)
                        (Basic.games home)) ∧
   v !! 10%nat = Some (py_div (Basic.points_for away - Basic.points_against away)
                         (Basic.games away))).
Proof.
  split; intros Hem home away.
  - apply FullFacts.emits_inv in Hem as (? & ? & _ & _ & _ & _ & -> & _).
    destruct (game_features_head lkF game home away)
      as (H0 & H1 & _ & _ & _ & _ & _ & _ & H8 & H9 & H10 & _).
    split; [|by split]. by eexists _, _.
  - apply BasicFacts.nb_emits_inv in Hem as (? & ? & _ & _ & _ & _ & Hv & _).
    apply notebook_game_features_head in Hv
      as (_ & H0 & H1 & _ & _ & _ & _ & H8 & H9 & H10).
    split; [|by split]. by eexists _, _.
Qed.

(** Range of the rate features of a vector emitted during the pass: it
    has 23 entries, the last one is 1, the two win rates and the two
    recent-form means lie in [0, 1], and the win-rate differential in
    [-1, 1]. *)
Theorem emitted_rates_bounded (lk : Full.Lookups) (pre : list Game) (game : Game)
    (v : list Qc) (l : Z) :
  Full.emits np_tanh lk (Full.game_loop np_tanh lk Full.initial_state pre) game v l →
  length v = 23%nat ∧ v !! 22%nat = Some 1%Qc ∧
  ∃ f1 f2 f7 f8 f9,
    v !! 0%nat = Some f1 ∧ v !! 1%nat = Some f2 ∧ v !! 6%nat = Some f7 ∧
    v !! 7%nat = Some f8 ∧ v !! 8%nat = Some f9 ∧
    (0 ≤ f1)%Qc ∧ (f1 ≤ 1)%Qc ∧ (0 ≤ f2)%Qc ∧ (f2 ≤ 1)%Qc ∧
    (0 ≤ f7)%Qc ∧ (f7 ≤ 1)%Qc ∧ (0 ≤ f8)%Qc ∧ (f8 ≤ 1)%Qc ∧
    (-1 ≤ f9)%Qc ∧ (f9 ≤ 1)%Qc.
Proof.
  intros Hem.
  apply FullFacts.emits_inv in Hem as (? & ? & _ & _ & Hgh & Hga & -> & _).
  set (acc := Full.game_loop np_tanh lk Full.initial_state pre) in *.
  set (hst := Full.stats_of (Full.team_stats acc) (home_team_id game)) in *.
  set (ast := Full.stats_of (Full.team_stats acc) (away_team_id game)) in *.
  assert (Full.store_ok (Full.team_stats acc)) as Hok
    by apply FullFacts.store_ok_game_loop, FullFacts.store_ok_empty.
  destruct (FullFacts.team_ok_stats_of _ (home_team_id game) Hok) as [Hbh Hlh].
  destruct (FullFacts.team_ok_stats_of _ (away_team_id game) Hok) as [Hba Hla].
  pose proof (FullRecord.all_teams_reached np_tanh lk record_ok FullRecord.record_ok_new
                FullRecord.record_ok_update pre (home_team_id game))
    as (Hwh & Hlsh & _ & _ & _ & _ & _ & Hrh & _).
  pose proof (FullRecord.all_teams_reached np_tanh lk record_ok FullRecord.record_ok_new
                FullRecord.record_ok_update pre (away_team_id game))
    as (Hwa & Hlsa & _ & _ & _ & _ & _ & Hra & _).
  fold acc hst in Hbh, Hlh, Hwh, Hlsh, Hrh. fold acc ast in Hba, Hla, Hwa, Hlsa, Hra.
  destruct (game_features_head lk game hst ast)
    as (H0' & H1' & _ & _ & _ & _ & H6' & H7' & H8' & _ & _ & H22').
  destruct (FullFacts.game_features_positions np_tanh lk game hst ast) as (Hlen & _).
  destruct (FullFacts.recent_form_feature_warm hst ltac:(lia)) as [Eh Lh].
  destruct (FullFacts.recent_form_feature_warm ast ltac:(lia)) as [Ea La].
  destruct (py_div_unit_interval (Full.wins hst) (Full.games hst)) as [B1 B2]; [lia|lia|].
  destruct (py_div_unit_interval (Full.wins ast) (Full.games ast)) as [B3 B4]; [lia|lia|].
  destruct (form_mean_unit_interval (last_n 5 (Full.recent_form hst))) as [? ?];
    [by apply Forall_last_n|by intros E; rewrite E in Lh|].
  destruct (form_mean_unit_interval (last_n 5 (Full.recent_form ast))) as [? ?];
    [by apply Forall_last_n|by intros E; rewrite E in La|].
  destruct (Qc_diff_bounds _ _ B1 B2 B3 B4) as [B5 B6].
  split; [done|]. split; [done|].
  rewrite Eh in H6'. rewrite Ea in H7'.
  eexists _, _, _, _, _. split_and!; eassumption.
Qed.

End Further.

(** ** The shape of the output *)

Section Shape.

Variable np_tanh : Qc → Qc.

Lemma shape_loop_body (lk : Full.Lookups) acc game (n : nat) :
  length (Full.features acc) = length (Full.labels acc) ∧
  Forall (λ v, length v = 23%nat) (Full.features acc) ∧
  Forall (λ l, l = 0 ∨ l = 1) (Full.labels acc) ∧
  (length (Full.features acc) ≤ n)%nat →
  let acc' := Full.loop_body np_tanh lk acc game in
  length (Full.features acc') = length (Full.labels acc') ∧
  Forall (λ v, length v = 23%nat) (Full.features acc') ∧
  Forall (λ l, l = 0 ∨ l = 1) (Full.labels acc') ∧
  (length (Full.features acc') ≤ n + (if scored game then 1 else 0))%nat.
Proof.
  intros (Hlen & Hv & Hl & Hn) acc'. subst acc'.
  unfold Full.loop_body, scored.
  destruct (home_score game) as [hs|], (away_score game) as [as_|]; simpl;
    try (split_and!; [done|done|done|lia]).
  destruct (_ && _); simpl; [|split_and!; [done|done|done|lia]].
  rewrite !length_app. simpl. split_and!; [lia| | |lia].
  - apply Forall_app. split; [done|]. apply Forall_singleton.
    apply FullFacts.game_features_positions.
  - apply Forall_app. split; [done|]. apply Forall_singleton.
    apply FullFacts.label_of_spec.
Qed.

Lemma shape_game_loop (lk : Full.Lookups) games_df acc (n : nat) :
  length (Full.features acc) = length (Full.labels acc) ∧
  Forall (λ v, length v = 23%nat) (Full.features acc) ∧
  Forall (λ l, l = 0 ∨ l = 1) (Full.labels acc) ∧
  (length (Full.features acc) ≤ n)%nat →
  let acc' := Full.game_loop np_tanh lk acc games_df in
  length (Full.features acc') = length (Full.labels acc') ∧
  Forall (λ v, length v = 23%nat) (Full.features acc') ∧
  Forall (λ l, l = 0 ∨ l = 1) (Full.labels acc') ∧
  (length (Full.features acc') ≤ n + length (filter (λ g, scored g = true) games_df))%nat.
Proof.
  revert acc n. induction games_df as [|game rest IH]; intros acc n Hacc.
  - simpl. destruct Hacc as (? & ? & ? & ?). split_and!; try done. lia.
  - simpl. apply (shape_loop_body lk acc game n) in Hacc.
    apply IH in Hacc. simpl in Hacc.
    destruct Hacc as (? & ? & ? & Hle). split_and!; try done.
    rewrite filter_cons. destruct (scored game); simpl in *; lia.
Qed.

Lemma notebook_shape_loop_body (lk : Basic.Lookups) acc game acc' (n : nat) :
  Basic.loop_body lk acc game = Return acc' →
  length (Basic.features acc) = length (Basic.labels acc) ∧
  Forall (λ v, length v = 23%nat) (Basic.features acc) ∧
  Forall (λ l, l = 0 ∨ l = 1) (Basic.labels acc) ∧
  (length (Basic.features acc) ≤ n)%nat →
  length (Basic.features acc') = length (Basic.labels acc') ∧
  Forall (λ v, length v = 23%nat) (Basic.features acc') ∧
  Forall (λ l, l = 0 ∨ l = 1) (Basic.labels acc') ∧
  (length (Basic.features acc') ≤ n + (if scored game then 1 else 0))%nat.
Proof.
  intros Hret (Hlen & Hv & Hl & Hn). revert Hret.
  unfold Basic.loop_body, scored.
  destruct (home_score game) as [hs|], (away_score game) as [as_|]; simpl;
    try (intros [= <-]; simpl; split_and!; [done|done|done|lia]).
  destruct (_ || _); simpl; [intros [= <-]; simpl; split_and!; [done|done|done|lia]|].
  destruct (Basic.game_features _ _ _ _) as [v|] eqn:Ev; simpl; [|done].
  intros [= <-]. simpl. rewrite !length_app. simpl. split_and!; [lia| | |lia].
  - apply Forall_app. split; [done|]. apply Forall_singleton.
    by apply notebook_game_features_head in Ev as [? _].
  - apply Forall_app. split; [done|]. apply Forall_singleton.
    apply BasicFacts.nb_label_of_spec.
Qed.

Lemma notebook_shape_game_loop (lk : Basic.Lookups) games_df acc acc' (n : nat) :
  Basic.game_loop lk acc games_df = Return acc' →
  length (Basic.features acc) = length (Basic.labels acc) ∧
  Forall (λ v, length v = 23%nat) (Basic.features acc) ∧
  Forall (λ l, l = 0 ∨ l = 1) (Basic.labels acc) ∧
  (length (Basic.features acc) ≤ n)%nat →
  length (Basic.features acc') = length (Basic.labels acc') ∧
  Forall (λ v, length v = 23%nat) (Basic.features acc') ∧
  Forall (λ l, l = 0 ∨ l = 1) (Basic.labels acc') ∧
  (length (Basic.features acc') ≤ n + length (filter (λ g, scored g = true) games_df))%nat.
Proof.
  revert acc n. induction games_df as [|game rest IH]; intros acc n.
  - intros [= <-] (? & ? & ? & ?). split_and!; try done. simpl. lia.
  - rewrite BasicFacts.game_loop_cons.
    destruct (Basic.loop_body lk acc game) as [acc1|] eqn:E; simpl; [|done].
    intros Hrest Hacc. apply (notebook_shape_loop_body lk acc game acc1 n E) in Hacc.
    apply (IH _ _ Hrest) in Hacc.
    destruct Hacc as (? & ? & ? & Hle). split_and!; try done.
    rewrite filter_cons. destruct (scored game); simpl in *; lia.
Qed.

(** The two arrays have one row per emitted pair: as many labels as
    vectors, every vector 23 long, every label 0 or 1, and at most one pair
    per row with both scores. *)
Theorem output_shape
    (games_df : list Game) (stats_df : DataFrame StatRow) (injuries_df : DataFrame InjuryRow)
    (weather_df : DataFrame WeatherRow) (sentiment_df : DataFrame SentimentRow) :
  (let Xy := Full.engineer_features np_tanh games_df stats_df injuries_df weather_df
               sentiment_df in
   length Xy.1 = length Xy.2 ∧
   Forall (λ v, length v = 23%nat) Xy.1 ∧
   Forall (λ l, l = 0 ∨ l = 1) Xy.2 ∧
   (length Xy.1 ≤ length (filter (λ g, scored g = true) games_df))%nat)
  ∧
  (∀ X y,
     Basic.engineer_features games_df stats_df injuries_df weather_df sentiment_df
       = Return (X, y) →
     length X = length y ∧
     Forall (λ v, length v = 23%nat) X ∧
     Forall (λ l, l = 0 ∨ l = 1) y ∧
     (length X ≤ length (filter (λ g, scored g = true) games_df))%nat).
Proof.
  split.
  - apply (shape_game_loop _ games_df Full.initial_state 0). simpl.
    split_and!; by try constructor.
  - intros X y. unfold Basic.engineer_features.
    destruct (Basic.build_lookups _ _ _ _) as [lk|]; simpl; [|done].
    destruct (Basic.game_loop lk Basic.initial_state games_df) as [acc|] eqn:E; simpl; [|done].
    intros [= <- <-].
    apply (notebook_shape_game_loop lk games_df Basic.initial_state acc 0 E). simpl.
    split_and!; by try constructor.
Qed.

(** ** Rows appended to the games table *)




(** ** The scores of the game being predicted *)

(** The vector emitted for a game does not depend on that game's own
    scores: replacing them by any other pair of scores leaves the feature
    list of the step unchanged, and the label is the only output that
    moves. *)
Theorem own_scores_do_not_leak (lkF : Full.Lookups) (accF : Full.LoopState)
    (lkB : Basic.Lookups) (accB : Basic.LoopState) (game : Game) (hs as_ hs' as_' : Z) :
  let played := with_scores game (Some hs) (Some as_) in
  let replayed := with_scores game (Some hs') (Some as_') in
  Full.features (Full.loop_body np_tanh lkF accF played)
    = Full.features (Full.loop_body np_tanh lkF accF replayed)
  ∧
  (∀ acc1, Basic.loop_body lkB accB played = Return acc1 →
     ∃ acc2, Basic.loop_body lkB accB replayed = Return acc2 ∧
       Basic.features acc2 = Basic.features acc1)
  ∧
  (∀ e, Basic.loop_body lkB accB played = Raise e →
     Basic.loop_body lkB accB replayed = Raise e).
Proof.
  intros played replayed.
  assert (∀ h a, Basic.game_features lkB replayed h a = Basic.game_features lkB played h a)
    as Hsame by reflexivity.
  split; [reflexivity|].
  rewrite (BasicFacts.nb_loop_body_scored lkB accB played hs as_ eq_refl eq_refl).
  rewrite (BasicFacts.nb_loop_body_scored lkB accB replayed hs' as_' eq_refl eq_refl).
  change (home_team_id replayed) with (home_team_id played).
  change (away_team_id replayed) with (away_team_id played).
  rewrite Hsame. split.
  - intros acc1. destruct (_ || _); [intros [= <-]; eauto|].
    destruct (Basic.game_features _ _ _ _); simpl; [|done].
    intros [= <-]. eauto.
  - intros e. destruct (_ || _); [done|].
    by destruct (Basic.game_features _ _ _ _).
Qed.

End Shape.

(** ** Totals over the store *)

Lemma store_total_empty {S} (field : S → Z) : store_total field (∅ : gmap Z S) = 0.
Proof. apply map_fold_empty. Qed.

Lemma store_total_insert_fresh {S} (field : S → Z) (m : gmap Z S) k v :
  m !! k = None → store_total field (<[k := v]> m) = field v + store_total field m.
Proof.
  intros Hk. unfold store_total.
  rewrite map_fold_insert_L; [done| |done]. intros. lia.
Qed.

Lemma store_total_insert {S} (field : S → Z) (m : gmap Z S) k s v :
  m !! k = Some s →
  store_total field (<[k := v]> m) = store_total field m + (field v - field s).
Proof.
  intros Hk.
  rewrite <- (insert_delete_id m k s Hk) at 2.
  rewrite <- (insert_delete_eq m k v).
  rewrite !store_total_insert_fresh by apply lookup_delete_eq. lia.
Qed.

Lemma store_total_alter {S} (field : S → Z) (g : S → S) (m : gmap Z S) k s :
  m !! k = Some s →
  store_total field (alter g k m) = store_total field m + (field (g s) - field s).
Proof.
  intros Hk. rewrite <- (store_total_insert field m k s (g s) Hk). f_equal.
  apply map_eq. intros j. rewrite lookup_alter, lookup_insert.
  case_decide; [subst; by rewrite Hk|done].
Qed.

Ltac total_calc :=
  repeat match goal with
  | |- context [store_total ?field (alter ?g ?k ?m)] =>
      let H := fresh "H" in
      let s := fresh "s" in
      assert (is_Some (m !! k)) as [s H]
        by (repeat (apply lookup_alter_is_Some); assumption);
      rewrite (store_total_alter field g m k s H); clear H
  end.

Module FullTotals.
Import Full FullFacts.

Lemma total_init_team (field : TeamStats → Z) t ts :
  field new_team_stats = 0 → store_total field (init_team t ts) = store_total field ts.
Proof.
  intros H0. unfold init_team. destruct (ts !! t) eqn:E; [done|].
  rewrite store_total_insert_fresh by done. lia.
Qed.

Lemma totals_update h a hs as_ ts :
  is_Some (ts !! h) → is_Some (ts !! a) →
  let ts' := update_team_stats h a hs as_ ts in
  store_total games ts' = store_total games ts + 2 ∧
  store_total wins ts' = store_total wins ts + 1 ∧
  store_total losses ts' = store_total losses ts + 1 ∧
  store_total home_games ts' = store_total home_games ts + 1 ∧
  store_total away_games ts' = store_total away_games ts + 1 ∧
  store_total home_wins ts' + store_total away_wins ts'
    = store_total home_wins ts + store_total away_wins ts + 1 ∧
  store_total points_for ts' = store_total points_for ts + (hs + as_) ∧
  store_total points_against ts' = store_total points_against ts + (hs + as_).
Proof.
  intros Hh Ha ts'. subst ts'. unfold update_team_stats, block, assign.
  case_bool_decide; simpl; split_and!; total_calc; simpl; unfold incr; lia.
Qed.

Section Loop.

Variable np_tanh : Qc → Qc.
Variable lk : Lookups.

Lemma totals_loop_body acc game :
  let ts := team_stats acc in
  let ts' := team_stats (loop_body np_tanh lk acc game) in
  let k := if scored game then 1 else 0 in
  let p := points_played [game] in
  store_total games ts' = store_total games ts + 2 * k ∧
  store_total wins ts' = store_total wins ts + k ∧
  store_total losses ts' = store_total losses ts + k ∧
  store_total home_games ts' = store_total home_games ts + k ∧
  store_total away_games ts' = store_total away_games ts + k ∧
  store_total home_wins ts' + store_total away_wins ts'
    = store_total home_wins ts + store_total away_wins ts + k ∧
  store_total points_for ts' = store_total points_for ts + p ∧
  store_total points_against ts' = store_total points_against ts + p.
Proof.
  intros ts ts' k p. subst ts ts' k p. unfold loop_body, scored, points_played.
  cbn [foldr].
  pose proof (init_both_lookup_home (home_team_id game) (away_team_id game) (team_stats acc)).
  pose proof (init_both_lookup_away (home_team_id game) (away_team_id game) (team_stats acc)).
  destruct (home_score game) as [hs|], (away_score game) as [as_|]; simpl;
    try (repeat (rewrite total_init_team by done); split_and!; lia).
  destruct (totals_update (home_team_id game) (away_team_id game) hs as_
              (init_team (away_team_id game) (init_team (home_team_id game) (team_stats acc))))
    as (E1 & E2 & E3 & E4 & E5 & E6 & E7 & E8); [eauto|eauto|].
  repeat match goal with
         | E : context [store_total _ (init_team _ _)] |- _ =>
             rewrite total_init_team in E by done
         end.
  split_and!; lia.
Qed.

Lemma totals_game_loop games_df acc :
  let ts := team_stats acc in
  let ts' := team_stats (game_loop np_tanh lk acc games_df) in
  let k := Z.of_nat (length (filter (λ g, scored g = true) games_df)) in
  let p := points_played games_df in
  store_total games ts' = store_total games ts + 2 * k ∧
  store_total wins ts' = store_total wins ts + k ∧
  store_total losses ts' = store_total losses ts + k ∧
  store_total home_games ts' = store_total home_games ts + k ∧
  store_total away_games ts' = store_total away_games ts + k ∧
  store_total home_wins ts' + store_total away_wins ts'
    = store_total home_wins ts + store_total away_wins ts + k ∧
  store_total points_for ts' = store_total points_for ts + p ∧
  store_total points_against ts' = store_total points_against ts + p.
Proof.
  revert acc. induction games_df as [|game rest IH]; intros acc.
  - simpl. split_and!; lia.
  - pose proof (totals_loop_body acc game) as Hstep.
    pose proof (IH (loop_body np_tanh lk acc game)) as Hrest.
    simpl in Hstep, Hrest |- *.
    rewrite filter_cons.
    destruct Hstep as (S1 & S2 & S3 & S4 & S5 & S6 & S7 & S8).
    destruct Hrest as (R1 & R2 & R3 & R4 & R5 & R6 & R7 & R8).
    unfold scored in *.
    destruct (home_score game), (away_score game); simpl in *; split_and!; lia.
Qed.

End Loop.

End FullTotals.

(** With scores that are not negative, no team's point counters exceed
    the points played so far. *)
Module FullPoints.
Import Full FullFacts.

Lemma within_update h a hs as_ ts B :
  0 ≤ hs → 0 ≤ as_ →
  (∀ t s, ts !! t = Some s → within B s) →
  ∀ t s, update_team_stats h a hs as_ ts !! t = Some s → within (B + (hs + as_)) s.
Proof.
  intros Hhs Has Hok t s'. destruct (ts !! t) as [s|] eqn:E.
  2: { by rewrite update_lookup_None. }
  destruct (Hok _ _ E) as [Hf Hg]. unfold within.
  destruct (decide (t = h)) as [->|Hth]; [destruct (decide (h = a)) as [->|Hha]|].
  - rewrite (update_lookup_both _ _ _ _ _ E). intros [= <-].
    case_bool_decide; simpl; lia.
  - rewrite (update_lookup_home _ _ _ _ _ _ Hha E). intros [= <-].
    case_bool_decide; simpl; lia.
  - destruct (decide (t = a)) as [->|Hta].
    + rewrite (update_lookup_away _ _ _ _ _ _ (not_eq_sym Hth) E). intros [= <-].
      case_bool_decide; simpl; lia.
    + rewrite update_lookup_other by done. rewrite E. intros [= <-]. lia.
Qed.

Lemma within_init_team u ts B :
  0 ≤ B →
  (∀ t s, ts !! t = Some s → within B s) →
  ∀ t s, init_team u ts !! t = Some s → within B s.
Proof.
  intros HB Hok t s. unfold init_team.
  destruct (ts !! u) eqn:E; [apply Hok|].
  rewrite lookup_insert. case_decide; [|apply Hok].
  intros [= <-]. unfold within. simpl. lia.
Qed.

Section Loop.

Variable np_tanh : Qc → Qc.
Variable lk : Lookups.

Lemma within_game_loop games_df acc B :
  Forall (λ game, ∀ hs as_, home_score game = Some hs → away_score game = Some as_ →
                    0 ≤ hs ∧ 0 ≤ as_) games_df →
  0 ≤ B →
  (∀ t s, team_stats acc !! t = Some s → within B s) →
  ∀ t s, team_stats (game_loop np_tanh lk acc games_df) !! t = Some s →
    within (B + points_played games_df) s.
Proof.
  revert acc B. induction games_df as [|game rest IH]; intros acc B Hall HB Hok.
  - intros t s Hs. apply Hok in Hs. unfold within in *. simpl. lia.
  - inversion Hall as [|? ? Hgame Hrest]; subst.
    change (game_loop np_tanh lk acc (game :: rest))
      with (game_loop np_tanh lk (loop_body np_tanh lk acc game) rest).
    unfold points_played. cbn [foldr]. fold (points_played rest).
    destruct (home_score game) as [hs|] eqn:Eh; [destruct (away_score game) as [as_|] eqn:Ea|].
    + destruct (Hgame hs as_ eq_refl eq_refl) as [Hhs Has].
      replace (B + (hs + as_ + points_played rest))
        with (B + (hs + as_) + points_played rest) by lia.
      apply IH; [done|lia|].
      rewrite (loop_body_scored np_tanh lk acc game hs as_ Eh Ea). simpl.
      apply within_update; [done|done|].
      apply within_init_team; [done|]. by apply within_init_team.
    + apply IH; [done|done|].
      rewrite (loop_body_unscored np_tanh lk acc game (or_intror Ea)). simpl.
      apply within_init_team; [done|]. by apply within_init_team.
    + apply IH; [done|done|].
      rewrite (loop_body_unscored np_tanh lk acc game (or_introl Eh)). simpl.
      apply within_init_team; [done|]. by apply within_init_team.
Qed.

End Loop.

End FullPoints.

Section Totals.

Variable np_tanh : Qc → Qc.

(** Every scored row adds one win, one loss, one home game, one away game
    and two games to the store as a whole; rows without scores add nothing.
    When the scores are in range (none negative, all together below 2^53,
    where the additions of lines 167-170 are exact), a row also adds its
    two scores to both point totals, so that the points scored and the
    points allowed over all teams are both the points played, and no
    team's point counter leaves the range. *)
Theorem store_totals (lk : Full.Lookups) (games_df : list Game) :
  let ts := Full.team_stats (Full.game_loop np_tanh lk Full.initial_state games_df) in
  let n := Z.of_nat (length (filter (λ g, scored g = true) games_df)) in
  store_total Full.games ts = 2 * n ∧
  store_total Full.wins ts = n ∧
  store_total Full.losses ts = n ∧
  store_total Full.home_games ts = n ∧
  store_total Full.away_games ts = n ∧
  store_total Full.home_wins ts + store_total Full.away_wins ts = n ∧
  (scores_in_range games_df →
   store_total Full.points_for ts = points_played games_df ∧
   store_total Full.points_against ts = points_played games_df ∧
   ∀ t s, ts !! t = Some s →
     0 ≤ Full.points_for s < 2 ^ 53 ∧ 0 ≤ Full.points_against s < 2 ^ 53).
Proof.
  pose proof (FullTotals.totals_game_loop np_tanh lk games_df Full.initial_state) as H.
  simpl in H. rewrite !store_total_empty in H. simpl.
  destruct H as (S1 & S2 & S3 & S4 & S5 & S6 & S7 & S8).
  split_and!; try lia.
  intros [Hall Hlt]. split_and!; try lia.
  intros t s Hs.
  destruct (FullPoints.within_game_loop np_tanh lk games_df Full.initial_state 0 Hall
              ltac:(lia) ltac:(intros ?? E; simpl in E; by rewrite lookup_empty in E) t s Hs)
    as [Hf Hg].
  lia.
Qed.

End Totals.

(** ** Teams that do not play *)

Section Locality.

Variable np_tanh : Qc → Qc.
Variable lk : Full.Lookups.





End Locality.

(** ** The teams of the store *)

Ltac set_eq_solver :=
  rewrite ?dom_empty_L; apply set_eq; intros ?;
  rewrite ?elem_of_union, ?elem_of_singleton, ?elem_of_empty; tauto.

Lemma dom_full_init_team t (ts : gmap Z Full.TeamStats) :
  dom (Full.init_team t ts) = {[t]} ∪ dom ts.
Proof.
  unfold Full.init_team. destruct (ts !! t) eqn:E.
  - apply elem_of_dom_2 in E. apply set_eq; intros x.
    rewrite elem_of_union, elem_of_singleton.
    split; [auto|by intros [->|]].
  - apply dom_insert_L.
Qed.

Lemma dom_full_update h a hs as_ (ts : gmap Z Full.TeamStats) :
  dom (Full.update_team_stats h a hs as_ ts) = dom ts.
Proof.
  unfold Full.update_team_stats, Full.block, Full.assign.
  case_bool_decide; simpl; by rewrite !dom_alter_L.
Qed.

Lemma dom_notebook_init_team t (ts : gmap Z Basic.TeamStats) :
  dom (Basic.init_team t ts) = {[t]} ∪ dom ts.
Proof.
  unfold Basic.init_team. destruct (ts !! t) eqn:E.
  - apply elem_of_dom_2 in E. apply set_eq; intros x.
    rewrite elem_of_union, elem_of_singleton.
    split; [auto|by intros [->|]].
  - apply dom_insert_L.
Qed.

Lemma dom_notebook_update h a hs as_ (ts : gmap Z Basic.TeamStats) :
  dom (Basic.update_team_stats h a hs as_ ts) = dom ts.
Proof.
  unfold Basic.update_team_stats, Basic.block, Basic.assign.
  case_bool_decide; simpl; by rewrite !dom_alter_L.
Qed.

Lemma dom_game_loop (np_tanh : Qc → Qc) (lk : Full.Lookups) games_df acc :
  dom (Full.team_stats (Full.game_loop np_tanh lk acc games_df))
  = dom (Full.team_stats acc) ∪ teams_seen games_df.
Proof.
  revert acc. induction games_df as [|game rest IH]; intros acc.
  - simpl. set_eq_solver.
  - simpl. rewrite IH. unfold Full.loop_body.
    destruct (home_score game), (away_score game); simpl;
      rewrite ?dom_full_update, !dom_full_init_team; set_eq_solver.
Qed.

Lemma dom_notebook_game_loop (lk : Basic.Lookups) games_df acc acc' :
  Basic.game_loop lk acc games_df = Return acc' →
  dom (Basic.team_stats acc') = dom (Basic.team_stats acc) ∪ teams_seen games_df.
Proof.
  revert acc. induction games_df as [|game rest IH]; intros acc.
  - intros [= <-]. simpl. set_eq_solver.
  - rewrite BasicFacts.game_loop_cons.
    destruct (Basic.loop_body lk acc game) as [acc1|] eqn:E; simpl; [|done].
    intros Hrest. rewrite (IH _ Hrest).
    apply BasicFacts.loop_body_Return in E. simpl in E.
    destruct (home_score game), (away_score game); rewrite E;
      rewrite ?dom_notebook_update, !dom_notebook_init_team; set_eq_solver.
Qed.

(** The store holds exactly the teams named in the rows processed so
    far, as home or away team, whether or not the row had scores. *)
Theorem store_holds_the_teams_seen (np_tanh : Qc → Qc)
    (lkF : Full.Lookups) (lkB : Basic.Lookups)
    (games_df : list Game) :
  dom (Full.team_stats (Full.game_loop np_tanh lkF Full.initial_state games_df))
    = teams_seen games_df
  ∧
  (∀ acc, Basic.game_loop lkB Basic.initial_state games_df = Return acc →
     dom (Basic.team_stats acc) = teams_seen games_df).
Proof.
  split.
  - rewrite dom_game_loop. simpl. set_eq_solver.
  - intros acc Hret. rewrite (dom_notebook_game_loop _ _ _ _ Hret). simpl. set_eq_solver.
Qed.


(** ** The player-stat and weather lookups *)

Lemma agg_stats_lookup (c : string) (stats : list string) (V : string → Qc)
    (d : gmap (string * string) Qc) (c' s' : string) :
  foldr (λ s d, <[(c, s) := V s]> d) d stats !! (c', s')
  = if decide (c = c' ∧ s' ∈ stats) then Some (V s') else d !! (c', s').
Proof.
  induction stats as [|s stats IH]; simpl.
  - destruct (decide (c = c' ∧ s' ∈ [])) as [[_ Hin]|]; [|done].
    by apply elem_of_nil in Hin.
  - destruct (decide ((c, s) = (c', s'))) as [Heq|Hne].
    + injection Heq as <- <-. rewrite lookup_insert_eq.
      rewrite decide_True; [done|]. split; [done|]. apply elem_of_cons. by left.
    + rewrite lookup_insert_ne by done. rewrite IH.
      destruct (decide (c = c' ∧ s' ∈ stats)) as [[-> Hin]|Hn].
      * rewrite decide_True; [done|]. split; [done|]. apply elem_of_cons. by right.
      * destruct (decide (c = c' ∧ s' ∈ s :: stats)) as [[-> Hin]|]; [|done].
        apply elem_of_cons in Hin as [->|Hin]; [done|]. by destruct Hn.
Qed.

Lemma agg_row_lookup (stats : list string) (cols : list string) (group : list StatRow)
    (c s : string) :
  agg_row ((λ col, (col, stats)) <$> cols) group !! (c, s)
  = if decide (c ∈ cols ∧ s ∈ stats)
    then Some (apply_stat s (stat_column c <$> group)) else None.
Proof.
  unfold agg_row. induction cols as [|col cols IH]; cbn [foldr fmap list_fmap].
  - rewrite lookup_empty. destruct (decide (c ∈ [] ∧ s ∈ stats)) as [[Hin _]|]; [|done].
    by apply elem_of_nil in Hin.
  - rewrite (agg_stats_lookup col stats (λ s, apply_stat s (stat_column col <$> group))).
    rewrite IH.
    destruct (decide (col = c ∧ s ∈ stats)) as [[-> Hs]|Hn1].
    + rewrite decide_True; [done|]. split; [|done]. apply elem_of_cons. by left.
    + destruct (decide (c ∈ cols ∧ s ∈ stats)) as [[Hc Hs]|Hn2].
      * rewrite decide_True; [done|]. split; [|done]. apply elem_of_cons. by right.
      * rewrite decide_False; [done|]. intros [Hc Hs].
        apply elem_of_cons in Hc as [->|Hc]; [by destruct Hn1|by destruct Hn2].
Qed.

Lemma points_column_listed (stats_df : DataFrame StatRow) :
  "points" ∈ filter (λ col, has_column col stats_df = true)
             ["points"; "rebounds"; "assists"; "turnovers"; "minutes"]
  ↔ has_column "points" stats_df = true.
Proof.
  rewrite list_elem_of_filter. split; [by intros [? _]|].
  intros H. split; [done|]. left.
Qed.

(** What line 117 finds for a game: nothing, or the aggregate of the
    game's rows over the columns that are present. *)
Lemma stats_by_game_lookup (stats_df : DataFrame StatRow) (gid : Z) :
  let cols := filter (λ col, has_column col stats_df = true)
                ["points"; "rebounds"; "assists"; "turnovers"; "minutes"] in
  let group := filter (λ r, st_game_id r = gid) (rows stats_df) in
  Full.build_stats_by_game stats_df !! gid
  = if has_column "game_id" stats_df then
      match cols, group with
      | _ :: _, _ :: _ => Some (agg_row ((λ col, (col, ["mean"; "sum"; "max"])) <$> cols) group)
      | _, _ => None
      end
    else None.
Proof.
  intros cols group. unfold Full.build_stats_by_game, len. fold cols.
  case_bool_decide as Hlen.
  - destruct (has_column "game_id" stats_df); [|done].
    destruct cols as [|c cols']; simpl; [done|].
    unfold agg_by_game. rewrite lookup_fmap, groupby_lookup. fold group.
    by destruct group.
  - assert (rows stats_df = []) as Hrows by (destruct (rows stats_df); [done|simpl in Hlen; lia]).
    subst group. rewrite Hrows. simpl.
    destruct (has_column "game_id" stats_df); [|done]. by destruct cols.
Qed.

Lemma last_filter_snoc {A} (P : A → Prop) `{!∀ x, Decision (P x)} (l : list A) (x : A) :
  list.last (filter P (l ++ [x])) = if decide (P x) then Some x else list.last (filter P l).
Proof.
  rewrite list.filter_app, filter_cons, filter_nil.
  destruct (decide (P x)); [apply last_snoc|by rewrite app_nil_r].
Qed.

(** What line 137 finds for a game: the dict of the last weather row
    that carries the game's id. *)
Lemma weather_by_game_lookup (weather_df : DataFrame WeatherRow) (gid : Z) :
  Full.build_weather_by_game weather_df !! gid
  = if has_column "game_id" weather_df
    then Full.weather_to_dict (columns weather_df) <$> last_weather_row weather_df gid
    else None.
Proof.
  unfold Full.build_weather_by_game, last_weather_row, len.
  case_bool_decide as Hlen.
  2: { assert (rows weather_df = []) as ->
         by (destruct (rows weather_df); [done|simpl in Hlen; lia]).
       simpl. rewrite lookup_empty. by destruct (has_column _ _). }
  clear Hlen. destruct (has_column "game_id" weather_df).
  - induction (rows weather_df) as [|w l IH] using rev_ind; [done|].
    rewrite foldl_app, last_filter_snoc. simpl.
    destruct (w_game_id w) as [g|] eqn:Eg.
    + destruct (decide (g = gid)) as [->|Hne].
      * rewrite lookup_insert_eq. by rewrite decide_True.
      * rewrite lookup_insert_ne by done. rewrite decide_False by congruence. exact IH.
    + rewrite decide_False by congruence. exact IH.
  - induction (rows weather_df) as [|w l IH] using rev_ind; [done|].
    by rewrite foldl_app.
Qed.

Lemma weather_to_dict_fields (cols : list string) (w : WeatherRow) :
  Full.weather_to_dict cols w !! "temperature"
    = (if bool_decide ("temperature" ∈ cols) then Some (w_temperature w) else None) ∧
  Full.weather_to_dict cols w !! "wind_speed"
    = (if bool_decide ("wind_speed" ∈ cols) then Some (w_wind_speed w) else None).
Proof.
  unfold Full.weather_to_dict.
  destruct (w_game_id w); repeat case_bool_decide; split;
    by rewrite ?lookup_insert_eq, ?lookup_insert_ne, ?lookup_empty by done.
Qed.

Section Lookups.

Variable np_tanh : Qc → Qc.

Lemma game_features_middle (lk : Full.Lookups) game home_stats away_stats a b :
  Full.player_stats_features lk game = [a; b] →
  let v := Full.game_features np_tanh lk game home_stats away_stats in
  let weather := default ∅ (Full.weather_by_game lk !! game_id game) in
  v !! 11%nat = Some a ∧ v !! 12%nat = Some b ∧
  v !! 15%nat = Some (default (Qc_of_Z 72) (weather !! "temperature") / Qc_of_Z 100)%Qc ∧
  v !! 16%nat = Some (default (Qc_of_Z 5) (weather !! "wind_speed") / Qc_of_Z 30)%Qc.
Proof. unfold Full.game_features. by intros ->. Qed.

Lemma player_stats_features_spec (stats_df : DataFrame StatRow)
    (injuries_df : DataFrame InjuryRow) (weather_df : DataFrame WeatherRow)
    (sentiment_df : DataFrame SentimentRow) (game : Game) :
  let lk := Full.build_lookups stats_df injuries_df weather_df sentiment_df in
  let pts := game_points stats_df (game_id game) in
  let present := has_column "game_id" stats_df && has_column "points" stats_df in
  Full.player_stats_features lk game
  = [ if present then match pts with [] => 0%Qc | _ => (mean pts / Qc_of_Z 20)%Qc end
      else 0%Qc;
      if present then match pts with [] => 0%Qc | _ => (Qc_sum pts / Qc_of_Z 200)%Qc end
      else 0%Qc ].
Proof.
  intros lk pts present. subst lk pts present.
  unfold Full.player_stats_features, game_points. simpl.
  rewrite stats_by_game_lookup.
  remember (filter (λ col, has_column col stats_df = true)
              ["points"; "rebounds"; "assists"; "turnovers"; "minutes"]) as cols eqn:Ecols.
  remember (filter (λ r, st_game_id r = game_id game) (rows stats_df)) as group eqn:Egroup.
  assert ("points" ∈ cols ↔ has_column "points" stats_df = true) as Hpoints
    by (rewrite Ecols; apply points_column_listed).
  clear Ecols Egroup.
  assert ((0 / Qc_of_Z 20)%Qc = 0%Qc) as Z20 by (by apply Qc_is_canon).
  assert ((0 / Qc_of_Z 200)%Qc = 0%Qc) as Z200 by (by apply Qc_is_canon).
  destruct (has_column "game_id" stats_df); simpl; [|done].
  destruct cols as [|c cols'].
  { simpl. destruct (has_column "points" stats_df); [|done].
    destruct Hpoints as [_ Hin]. specialize (Hin eq_refl). by apply elem_of_nil in Hin. }
  destruct group as [|r group'].
  { simpl. by destruct (has_column "points" stats_df). }
  cbn [default from_option id].
  rewrite bool_decide_eq_false_2.
  2: { intros Hempty.
       assert (agg_row ((λ col, (col, ["mean"; "sum"; "max"])) <$> (c :: cols')) (r :: group')
                 !! (c, "mean") = None) as Hnone by (by rewrite Hempty).
       rewrite agg_row_lookup in Hnone. rewrite decide_True in Hnone; [done|].
       split; apply elem_of_cons; by left. }
  rewrite !agg_row_lookup.
  destruct (has_column "points" stats_df).
  - destruct Hpoints as [_ Hin]. specialize (Hin eq_refl).
    rewrite !decide_True; [done| |].
    + split; [done|]. apply elem_of_cons. right. apply elem_of_cons. by left.
    + split; [done|]. apply elem_of_cons. by left.
  - rewrite !decide_False; [simpl; by rewrite Z20, Z200| |].
    + intros [Hin _]. apply Hpoints in Hin. congruence.
    + intros [Hin _]. apply Hpoints in Hin. congruence.
Qed.

(** Features 12 and 13 are the mean of the game's player points over 20
    and their sum over 200, taken over all rows of the player-stat table
    with the game's id; they are 0 when the table has no [game_id] or no
    [points] column or no row for the game. *)
Theorem player_point_features
    (stats_df : DataFrame StatRow) (injuries_df : DataFrame InjuryRow)
    (weather_df : DataFrame WeatherRow) (sentiment_df : DataFrame SentimentRow)
    (acc : Full.LoopState) (game : Game) (v : list Qc) (l : Z) :
  Full.emits np_tanh (Full.build_lookups stats_df injuries_df weather_df sentiment_df)
    acc game v l →
  let pts := game_points stats_df (game_id game) in
  let present := has_column "game_id" stats_df && has_column "points" stats_df in
  v !! 11%nat
    = Some (if present then match pts with [] => 0 | _ => mean pts / Qc_of_Z 20 end else 0)%Qc ∧
  v !! 12%nat
    = Some (if present then match pts with [] => 0 | _ => Qc_sum pts / Qc_of_Z 200 end else 0)%Qc.
Proof.
  intros Hem pts present.
  apply FullFacts.emits_inv in Hem as (? & ? & _ & _ & _ & _ & -> & _).
  pose proof (player_stats_features_spec stats_df injuries_df weather_df sentiment_df game)
    as Hps.
  simpl in Hps.
  destruct (game_features_middle _ game
              (Full.stats_of (Full.team_stats acc) (home_team_id game))
              (Full.stats_of (Full.team_stats acc) (away_team_id game)) _ _ Hps)
    as (H11 & H12 & _).
  split; [exact H11|exact H12].
Qed.

(** For ids that binary64 holds exactly (the game's and those of the
    weather rows, which line 47 may read back as binary64), features 16
    and 17 are the temperature over 100 and the wind speed over 30 of the
    last weather row that carries the game's id; 72/100 and 5/30 stand in
    when the table has no [game_id] column, the game has no row, or the
    column is absent. *)
Theorem weather_features
    (stats_df : DataFrame StatRow) (injuries_df : DataFrame InjuryRow)
    (weather_df : DataFrame WeatherRow) (sentiment_df : DataFrame SentimentRow)
    (acc : Full.LoopState) (game : Game) (v : list Qc) (l : Z) :
  Full.emits np_tanh (Full.build_lookups stats_df injuries_df weather_df sentiment_df)
    acc game v l →
  exact_in_float (game_id game) →
  Forall (λ w, ∀ id, w_game_id w = Some id → exact_in_float id) (rows weather_df) →
  let row := if has_column "game_id" weather_df
             then last_weather_row weather_df (game_id game) else None in
  v !! 15%nat
    = Some (match row with
            | Some w => if has_column "temperature" weather_df
                        then w_temperature w / Qc_of_Z 100 else Qc_of_Z 72 / Qc_of_Z 100
            | None => Qc_of_Z 72 / Qc_of_Z 100
            end)%Qc ∧
  v !! 16%nat
    = Some (match row with
            | Some w => if has_column "wind_speed" weather_df
                        then w_wind_speed w / Qc_of_Z 30 else Qc_of_Z 5 / Qc_of_Z 30
            | None => Qc_of_Z 5 / Qc_of_Z 30
            end)%Qc.
Proof.
  intros Hem _ _ row.
  apply FullFacts.emits_inv in Hem as (? & ? & _ & _ & _ & _ & -> & _).
  pose proof (player_stats_features_spec stats_df injuries_df weather_df sentiment_df game)
    as Hps.
  simpl in Hps.
  destruct (game_features_middle _ game
              (Full.stats_of (Full.team_stats acc) (home_team_id game))
              (Full.stats_of (Full.team_stats acc) (away_team_id game)) _ _ Hps)
    as (_ & _ & H15 & H16).
  rewrite H15, H16. simpl. rewrite weather_by_game_lookup. subst row.
  destruct (has_column "game_id" weather_df); simpl; [|by rewrite !lookup_empty].
  destruct (last_weather_row weather_df (game_id game)) as [w|]; simpl;
    [|by rewrite !lookup_empty].
  destruct (weather_to_dict_fields (columns weather_df) w) as [-> ->].
  unfold has_column. by repeat case_bool_decide.
Qed.

End Lookups.

(** ** Exceptions of the notebook pass *)

Lemma require_columns_Return {R} (cols : list string) (df : DataFrame R) :
  Basic.require_columns cols df = Return () ↔ Forall (λ c, has_column c df = true) cols.
Proof.
  unfold Basic.require_columns. induction cols as [|c cols IH].
  - rewrite filter_nil. split; [constructor|done].
  - rewrite filter_cons. destruct (decide (has_column c df = false)) as [Hc|Hc].
    + split; [done|]. intros H. inversion H; congruence.
    + rewrite IH. split.
      * intros H. constructor; [by destruct (has_column c df)|done].
      * intros H. by inversion H.
Qed.

Lemma require_columns_Raise {R} (cols : list string) (df : DataFrame R) e :
  Basic.require_columns cols df = Raise e →
  ∃ c, e = KeyError c ∧ c ∈ cols ∧ has_column c df = false.
Proof.
  unfold Basic.require_columns.
  destruct (filter _ cols) as [|c rest] eqn:E; [done|].
  intros [= <-]. exists c.
  assert (c ∈ filter (λ c, has_column c df = false) cols) as Hin
    by (rewrite E; apply elem_of_cons; by left).
  apply list_elem_of_filter in Hin as [? ?]. done.
Qed.

Lemma require_columns_unit {R} (cols : list string) (df : DataFrame R) u :
  Basic.require_columns cols df = Return u ↔ Forall (λ c, has_column c df = true) cols.
Proof. destruct u. apply require_columns_Return. Qed.

Lemma notebook_loop_body_error lk acc game e :
  Basic.loop_body lk acc game = Raise e → e = TypeError.
Proof.
  unfold Basic.loop_body.
  destruct (home_score game), (away_score game); simpl; try done.
  destruct (_ || _); [done|].
  unfold Basic.game_features, Basic.player_stats_feature.
  repeat (case_bool_decide || case_match); simpl; congruence.
Qed.

Lemma notebook_game_loop_error lk games_df acc e :
  Basic.game_loop lk acc games_df = Raise e → e = TypeError.
Proof.
  revert acc. induction games_df as [|game rest IH]; intros acc; [done|].
  rewrite BasicFacts.game_loop_cons.
  destruct (Basic.loop_body lk acc game) as [acc1|e1] eqn:E; simpl.
  - apply IH.
  - intros [= <-]. by eapply notebook_loop_body_error.
Qed.

(** How the notebook pass ends, by the columns of its tables.  The lookups
    are built in the order player statistics, injuries, weather,
    sentiment, and the first table that fails decides: a player-stat,
    injury or sentiment table without one of the columns read from it
    raises [KeyError], a weather table with any column raises
    [AttributeError].  With all four in order, and game rows as the model
    types them (scores that are integers or null, a [created_at] that is a
    timestamp), the call returns or raises [TypeError] from the loop.
    Conversely each outcome tells which tables were in order. *)
Theorem notebook_outcomes
    (games_df : list Game) (stats_df : DataFrame StatRow) (injuries_df : DataFrame InjuryRow)
    (weather_df : DataFrame WeatherRow) (sentiment_df : DataFrame SentimentRow) :
  let run := Basic.engineer_features games_df stats_df injuries_df weather_df sentiment_df in
  let stats_ok :=
    Forall (λ c, has_column c stats_df = true)
      ["game_id"; "points"; "rebounds"; "assists"; "turnovers"] in
  let injuries_ok := Forall (λ c, has_column c injuries_df = true) ["team_id"; "severity"] in
  let sentiment_ok :=
    Forall (λ c, has_column c sentiment_df = true) ["team_id"; "sentiment_score"] in
  let tables_ok := stats_ok ∧ injuries_ok ∧ columns weather_df = [] ∧ sentiment_ok in
  (¬ stats_ok → ∃ k, run = Raise (KeyError k)) ∧
  (stats_ok → ¬ injuries_ok → ∃ k, run = Raise (KeyError k)) ∧
  (stats_ok → injuries_ok → columns weather_df ≠ [] → run = Raise AttributeError) ∧
  (stats_ok → injuries_ok → columns weather_df = [] → ¬ sentiment_ok →
     ∃ k, run = Raise (KeyError k)) ∧
  (tables_ok → (∃ Xy, run = Return Xy) ∨ run = Raise TypeError) ∧
  (∀ Xy, run = Return Xy → tables_ok) ∧
  (run = Raise TypeError → tables_ok) ∧
  (run = Raise AttributeError → stats_ok ∧ injuries_ok ∧ columns weather_df ≠ []) ∧
  (∀ k, run = Raise (KeyError k) → ¬ stats_ok ∨ ¬ injuries_ok ∨ ¬ sentiment_ok).
Proof.
  intros run stats_ok injuries_ok sentiment_ok tables_ok.
  subst run stats_ok injuries_ok sentiment_ok tables_ok.
  unfold Basic.engineer_features, Basic.build_lookups, Basic.build_stats_by_game,
    Basic.build_injuries_by_team, Basic.build_weather_by_game, Basic.build_sentiment_by_team.
  destruct (Basic.require_columns _ stats_df) as [u1|e1] eqn:E1; simpl.
  2: { apply require_columns_Raise in E1 as (c1 & -> & Hin & Hc).
       match goal with
       | |- (¬ ?A → _) ∧ _ => assert (¬ A) as Hnot
       end.
       { intros H. apply Forall_forall with (x := c1) in H; [congruence|].
         by apply list_elem_of_In. }
       split_and!; solve [done | intros; eauto | intros; tauto | by intros (_ & _ & ? & _)]. }
  apply require_columns_unit in E1.
  destruct (Basic.require_columns _ injuries_df) as [u2|e2] eqn:E2; simpl.
  2: { apply require_columns_Raise in E2 as (c2 & -> & Hin & Hc).
       match goal with
       | |- _ ∧ (_ → ¬ ?B → _) ∧ _ => assert (¬ B) as Hnot
       end.
       { intros H. apply Forall_forall with (x := c2) in H; [congruence|].
         by apply list_elem_of_In. }
       split_and!; solve [done | intros; eauto | intros; tauto | by intros (_ & _ & ? & _)]. }
  apply require_columns_unit in E2.
  destruct (columns weather_df) as [|w ws] eqn:Ew; simpl.
  2: { split_and!; solve [done | intros; eauto | intros; tauto | by intros (_ & _ & ? & _)]. }
  destruct (Basic.require_columns _ sentiment_df) as [u3|e3] eqn:E3; simpl.
  2: { apply require_columns_Raise in E3 as (c3 & -> & Hin & Hc).
       match goal with
       | |- _ ∧ _ ∧ _ ∧ (_ → _ → _ → ¬ ?C → _) ∧ _ => assert (¬ C) as Hnot
       end.
       { intros H. apply Forall_forall with (x := c3) in H; [congruence|].
         by apply list_elem_of_In. }
       split_and!; solve [done | intros; eauto | intros; tauto | by intros (_ & _ & ? & _)]. }
  apply require_columns_unit in E3.
  destruct (Basic.game_loop _ Basic.initial_state games_df) as [acc|e] eqn:Eloop; simpl.
  - split_and!; solve [done | intros; eauto | intros; tauto | by intros (_ & _ & ? & _)].
  - apply notebook_game_loop_error in Eloop as ->.
    split_and!; solve [done | intros; eauto | intros; tauto | by intros (_ & _ & ? & _)].
Qed.

Lemma build_lookups_parts stats_df injuries_df weather_df sentiment_df lk :
  Basic.build_lookups stats_df injuries_df weather_df sentiment_df = Return lk →
  Basic.stats_by_game lk
    = agg_by_game [ ("points", ["mean"; "sum"; "max"]); ("rebounds", ["mean"; "sum"]);
                    ("assists", ["mean"; "sum"]); ("turnovers", ["mean"; "sum"]) ]
        (rows stats_df) ∧
  Basic.weather_by_game lk = ∅.
Proof.
  unfold Basic.build_lookups, Basic.build_stats_by_game, Basic.build_injuries_by_team,
    Basic.build_weather_by_game, Basic.build_sentiment_by_team.
  destruct (Basic.require_columns _ stats_df); simpl; [|done].
  destruct (Basic.require_columns _ injuries_df); simpl; [|done].
  destruct (columns weather_df); simpl; [|done].
  destruct (Basic.require_columns _ sentiment_df); simpl; [|done].
  by intros [= <-].
Qed.

Lemma notebook_stats_entry stats_df injuries_df weather_df sentiment_df lk gid :
  Basic.build_lookups stats_df injuries_df weather_df sentiment_df = Return lk →
  filter (λ r, st_game_id r = gid) (rows stats_df) ≠ [] →
  ∃ d x, Basic.stats_by_game lk !! gid = Some d ∧ d !! ("points", "mean") = Some x.
Proof.
  intros Hlk Hrows. apply build_lookups_parts in Hlk as [-> _].
  unfold agg_by_game. rewrite lookup_fmap, groupby_lookup.
  destruct (filter _ (rows stats_df)) as [|r group]; [done|]. simpl.
  eexists _, _. split; [done|]. unfold agg_row. cbn [foldr]. apply lookup_insert_eq.
Qed.

Lemma player_stats_feature_Return lk game stat x :
  Basic.player_stats_feature lk game stat = Return x → x = 0%Qc.
Proof.
  unfold Basic.player_stats_feature.
  repeat (case_bool_decide || case_match); simpl; congruence.
Qed.

Lemma notebook_game_features_middle lk game home_stats away_stats v :
  Basic.weather_by_game lk = ∅ →
  Basic.game_features lk game home_stats away_stats = Return v →
  v !! 11%nat = Some 0%Qc ∧ v !! 12%nat = Some 0%Qc ∧
  v !! 15%nat = Some (Q_lit 72 100) ∧ v !! 16%nat = Some (Q_lit 17 100).
Proof.
  intros Hw. unfold Basic.game_features, Basic.weather_feature. rewrite Hw.
  destruct (Basic.player_stats_feature lk game "mean") as [m|] eqn:Em; simpl; [|done].
  destruct (Basic.player_stats_feature lk game "sum") as [s|] eqn:Es; simpl; [|done].
  apply player_stats_feature_Return in Em as ->.
  apply player_stats_feature_Return in Es as ->.
  by intros [= <-].
Qed.

(** Whatever the tables hold, a vector the notebook pass returns carries
    no player statistic and no weather reading: features 12 and 13 are 0
    and features 16 and 17 are the constants 0.72 and 0.17. *)
Theorem notebook_vectors_ignore_stats_and_weather
    (games_df : list Game) (stats_df : DataFrame StatRow) (injuries_df : DataFrame InjuryRow)
    (weather_df : DataFrame WeatherRow) (sentiment_df : DataFrame SentimentRow)
    (X : list (list Qc)) (y : list Z) :
  Basic.engineer_features games_df stats_df injuries_df weather_df sentiment_df
    = Return (X, y) →
  Forall (λ v, v !! 11%nat = Some 0%Qc ∧ v !! 12%nat = Some 0%Qc ∧
               v !! 15%nat = Some (Q_lit 72 100) ∧ v !! 16%nat = Some (Q_lit 17 100)) X.
Proof.
  unfold Basic.engineer_features.
  destruct (Basic.build_lookups _ _ _ _) as [lk|] eqn:Hlk; simpl; [|done].
  destruct (Basic.game_loop lk Basic.initial_state games_df) as [acc|] eqn:E; simpl; [|done].
  intros [= <- <-].
  apply build_lookups_parts in Hlk as [_ Hw].
  destruct (BasicFacts.nb_outputs_were_emitted _ _ _ E) as (pairs & -> & _ & Hall).
  apply Forall_fmap. eapply Forall_impl; [|exact Hall].
  intros [v l] (game & pre & post & acc0 & _ & _ & Hem). simpl in *.
  apply BasicFacts.nb_emits_inv in Hem as (? & ? & _ & _ & _ & _ & Hv & _).
  by eapply notebook_game_features_middle.
Qed.

(** The notebook pass cannot get past a game between two warmed-up teams
    that has a row in the player-stat table: with the lookups built and the
    rows before the game processed without exception, the whole pass ends
    in [TypeError], whatever rows follow. *)
Theorem notebook_stops_at_player_stats
    (pre post : list Game) (game : Game) (hs as_ : Z)
    (stats_df : DataFrame StatRow) (injuries_df : DataFrame InjuryRow)
    (weather_df : DataFrame WeatherRow) (sentiment_df : DataFrame SentimentRow)
    (lk : Basic.Lookups) (acc : Basic.LoopState) :
  Basic.build_lookups stats_df injuries_df weather_df sentiment_df = Return lk →
  Basic.game_loop lk Basic.initial_state pre = Return acc →
  home_score game = Some hs → away_score game = Some as_ →
  5 ≤ Basic.games (Basic.stats_of (Basic.team_stats acc) (home_team_id game)) →
  5 ≤ Basic.games (Basic.stats_of (Basic.team_stats acc) (away_team_id game)) →
  filter (λ r, st_game_id r = game_id game) (rows stats_df) ≠ [] →
  Basic.engineer_features (pre ++ game :: post) stats_df injuries_df weather_df sentiment_df
  = Raise TypeError.
Proof.
  intros Hlk Hpre Hh Ha Hgh Hga Hrows.
  destruct (notebook_stats_entry _ _ _ _ _ _ Hlk Hrows) as (d & x & Hd & Hx).
  unfold Basic.engineer_features. rewrite Hlk. simpl.
  rewrite BasicFacts.nb_game_loop_app, Hpre. simpl.
  rewrite BasicFacts.game_loop_cons.
  rewrite (BasicFacts.nb_loop_body_scored lk acc game hs as_ Hh Ha). simpl.
  rewrite !bool_decide_eq_false_2 by lia. simpl.
  unfold Basic.game_features.
  by rewrite (BasicFacts.player_stats_feature_raises lk game "mean" d x Hd Hx).
Qed.

(** ** A team's record and its rows of the table *)

Lemma last_n_app_last_n {A} (n : nat) (l k : list A) :
  last_n n (last_n n l ++ k) = last_n n (l ++ k).
Proof.
  unfold last_n. rewrite !length_app, length_drop.
  destruct (decide (length l ≤ n)%nat) as [Hle|Hgt].
  - replace (length l - n)%nat with 0%nat by lia. simpl. f_equal. lia.
  - replace (length l - (length l - n) + length k - n)%nat with (length k) by lia.
    replace (length l + length k - n)%nat with ((length l - n) + length k)%nat by lia.
    rewrite <- drop_drop. f_equal. rewrite drop_app_le by lia. done.
Qed.

Lemma last_n_last_n {A} (n : nat) (l : list A) : last_n n (last_n n l) = last_n n l.
Proof.
  rewrite <- (app_nil_r (last_n n l)) at 1. rewrite last_n_app_last_n.
  by rewrite app_nil_r.
Qed.

Lemma last_n_all {A} (n : nat) (l : list A) : (length l ≤ n)%nat → last_n n l = l.
Proof. intros H. unfold last_n. by replace (length l - n)%nat with 0%nat by lia. Qed.

Section History.

Variable np_tanh : Qc → Qc.
Variable lk : Full.Lookups.

Lemma history_loop_body acc game t :
  let s := Full.stats_of (Full.team_stats acc) t in
  let s' := Full.stats_of (Full.team_stats (Full.loop_body np_tanh lk acc game)) t in
  let one (b : bool) : Z := if b then 1 else 0 in
  (length (Full.recent_form s) ≤ 10)%nat →
  Full.home_games s' = Full.home_games s + one (played_at_home t game) ∧
  Full.away_games s' = Full.away_games s + one (played_away t game) ∧
  Full.home_wins s' = Full.home_wins s + one (played_at_home t game && home_won game) ∧
  Full.away_wins s' = Full.away_wins s + one (played_away t game && negb (home_won game)) ∧
  Full.recent_form s' = last_n 10 (Full.recent_form s ++ outcome_entries t game).
Proof.
  intros s s' one Hlen. subst s s' one.
  unfold Full.loop_body, outcome_entries, played_at_home, played_away, scored, home_won.
  destruct (home_score game) as [hs|] eqn:Hh; [destruct (away_score game) as [as_|] eqn:Ha|];
    simpl; rewrite ?FullFacts.stats_of_unscored, ?app_nil_r;
    try (rewrite last_n_all by done; split_and!; (lia || done)).
  pose proof (FullFacts.init_both_lookup_home (home_team_id game) (away_team_id game)
                (Full.team_stats acc)) as Eh.
  pose proof (FullFacts.init_both_lookup_away (home_team_id game) (away_team_id game)
                (Full.team_stats acc)) as Ea.
  unfold Full.stats_of at 1 3 5 7 9.
  destruct (decide (home_team_id game = t)) as [Hht|Hht];
    destruct (decide (away_team_id game = t)) as [Hat|Hat].
  - rewrite Hat, Hht in *. rewrite (FullFacts.update_lookup_both _ _ _ _ _ Eh).
    rewrite !(bool_decide_eq_true_2 (t = t)) by done.
    case_bool_decide; simpl; rewrite last_n_last_n, <- app_assoc; split_and!; (lia || done).
  - rewrite Hht in *.
    rewrite (FullFacts.update_lookup_home _ _ _ _ _ _ (not_eq_sym Hat) Eh).
    rewrite (bool_decide_eq_true_2 (t = t)) by done.
    rewrite (bool_decide_eq_false_2 (away_team_id game = t)) by done.
    case_bool_decide; simpl; rewrite ?app_nil_r; split_and!; (lia || done).
  - rewrite Hat in *.
    rewrite (FullFacts.update_lookup_away _ _ _ _ _ _ Hht Ea).
    rewrite (bool_decide_eq_true_2 (t = t)) by done.
    rewrite (bool_decide_eq_false_2 (home_team_id game = t)) by done.
    case_bool_decide; simpl; split_and!; (lia || done).
  - rewrite FullFacts.update_lookup_other by done.
    rewrite FullFacts.init_both_lookup_other by done.
    rewrite (bool_decide_eq_false_2 (home_team_id game = t)) by done.
    rewrite (bool_decide_eq_false_2 (away_team_id game = t)) by done. simpl.
    rewrite app_nil_r. rewrite last_n_all by done.
    fold (Full.stats_of (Full.team_stats acc) t). split_and!; (lia || done).
Qed.

Lemma history_game_loop games_df acc t :
  let s := Full.stats_of (Full.team_stats acc) t in
  let s' := Full.stats_of (Full.team_stats (Full.game_loop np_tanh lk acc games_df)) t in
  let count (f : Game → bool) : Z := Z.of_nat (length (filter (λ g, f g = true) games_df)) in
  (length (Full.recent_form s) ≤ 10)%nat →
  Full.home_games s' = Full.home_games s + count (played_at_home t) ∧
  Full.away_games s' = Full.away_games s + count (played_away t) ∧
  Full.home_wins s' = Full.home_wins s + count (λ g, played_at_home t g && home_won g) ∧
  Full.away_wins s' = Full.away_wins s + count (λ g, played_away t g && negb (home_won g)) ∧
  Full.recent_form s' = last_n 10 (Full.recent_form s ++ team_outcomes t games_df).
Proof.
  revert acc. induction games_df as [|game rest IH]; intros acc s s' count Hlen;
    subst s s' count.
  - simpl. rewrite app_nil_r, last_n_all by done. split_and!; (lia || done).
  - destruct (history_loop_body acc game t Hlen) as (S1 & S2 & S3 & S4 & S5).
    destruct (IH (Full.loop_body np_tanh lk acc game)) as (R1 & R2 & R3 & R4 & R5).
    { rewrite S5, length_last_n. lia. }
    change (Full.game_loop np_tanh lk acc (game :: rest))
      with (Full.game_loop np_tanh lk (Full.loop_body np_tanh lk acc game) rest).
    rewrite R1, R2, R3, R4, R5, S1, S2, S3, S4, S5.
    rewrite !filter_cons. unfold team_outcomes. rewrite bind_cons.
    rewrite last_n_app_last_n, <- app_assoc.
    split_and!; [| | | |done];
      destruct (played_at_home t game), (played_away t game), (home_won game); simpl;
      repeat (case_decide; try done); simpl; lia.
Qed.

(** The record a team has after the pass, read off the table: its home
    and away games are its scored rows as home and as away side, its home
    and away wins the rows it won there (a tie goes to the away side),
    [games] and [wins] their sums, and [recent_form] the last ten of its
    outcomes in row order. *)
Theorem team_record_is_its_history (games_df : list Game) (t : Z) :
  let s := Full.stats_of
             (Full.team_stats (Full.game_loop np_tanh lk Full.initial_state games_df)) t in
  let count (f : Game → bool) : Z := Z.of_nat (length (filter (λ g, f g = true) games_df)) in
  Full.home_games s = count (played_at_home t) ∧
  Full.away_games s = count (played_away t) ∧
  Full.games s = count (played_at_home t) + count (played_away t) ∧
  Full.home_wins s = count (λ g, played_at_home t g && home_won g) ∧
  Full.away_wins s = count (λ g, played_away t g && negb (home_won g)) ∧
  Full.wins s = count (λ g, played_at_home t g && home_won g)
                + count (λ g, played_away t g && negb (home_won g)) ∧
  Full.losses s = Full.games s - Full.wins s ∧
  Full.recent_form s = last_n 10 (team_outcomes t games_df).
Proof.
  intros s count.
  assert (Full.stats_of (Full.team_stats Full.initial_state) t = Full.new_team_stats) as Hinit
    by (unfold Full.stats_of; simpl; by rewrite lookup_empty).
  pose proof (history_game_loop games_df Full.initial_state t) as Hhist.
  cbv zeta in Hhist. rewrite Hinit in Hhist.
  destruct Hhist as (H1 & H2 & H3 & H4 & H5); [simpl; lia|].
  pose proof (FullRecord.all_teams_reached np_tanh lk record_ok FullRecord.record_ok_new
                FullRecord.record_ok_update games_df t)
    as (_ & _ & Hg & Hw & _).
  pose proof (FullRecord.all_teams_reached np_tanh lk Full.team_ok FullFacts.team_ok_new
                FullFacts.store_ok_update games_df t) as [Hbal _].
  fold s in H1, H2, H3, H4, H5, Hg, Hw, Hbal. simpl in H1, H2, H3, H4, H5.
  subst count. cbv beta. split_and!; try lia. exact H5.
Qed.

End History.

(** ** Concrete runs for the further properties *)

Lemma team_one_after_season :
  Full.team_stats (Full.game_loop Samples.squash Samples.full_lookups Full.initial_state
                     Samples.season) !! 1 = Some RichSamples.team_one.
Proof. by vm_compute. Qed.

Lemma rich_sixth_emits :
  Full.emits Samples.squash
    (Full.build_lookups Samples.sixth_game_stats Samples.one_injury RichSamples.sixth_weather
       Samples.one_sentiment)
    (Full.game_loop Samples.squash
       (Full.build_lookups Samples.sixth_game_stats Samples.one_injury
          RichSamples.sixth_weather Samples.one_sentiment)
       Full.initial_state Samples.warm_up)
    Samples.sixth RichSamples.sixth_vector 1.
Proof. split; by vm_compute. Qed.

Lemma split_counters_balance_witness :
  Full.home_games RichSamples.team_one + Full.away_games RichSamples.team_one
    = Full.games RichSamples.team_one ∧
  Full.rest_days RichSamples.team_one = 0.
Proof.
  pose proof (split_counters_balance Samples.squash Samples.full_lookups Samples.season 1
                RichSamples.team_one team_one_after_season) as (H1 & _ & _ & _ & _ & H6).
  split; [exact H1|exact H6].
Defined.

Lemma streak_follows_form_witness :
  - Full.losses RichSamples.team_one ≤ Full.streak RichSamples.team_one
    ≤ Full.wins RichSamples.team_one.
Proof.
  exact (proj1 (streak_follows_form Samples.squash Samples.full_lookups Samples.season 1
                  RichSamples.team_one team_one_after_season)).
Defined.

Lemma emitted_rates_bounded_witness :
  length Samples.sixth_vector = 23%nat ∧ Samples.sixth_vector !! 22%nat = Some 1%Qc.
Proof.
  pose proof (emitted_rates_bounded Samples.squash Samples.full_lookups Samples.warm_up
                Samples.sixth Samples.sixth_vector 1 sixth_emits) as (H1 & H2 & _).
  split; [exact H1|exact H2].
Defined.

Lemma differential_features_witness :
  Samples.sixth_vector !! 9%nat = Some (Q_lit 22 5) ∧
  Samples.sixth_vector !! 10%nat = Some (Q_lit (-22) 5).
Proof.
  destruct (proj1 (differential_features Samples.squash Samples.full_lookups Samples.warmed
                     Samples.basic_lookups Samples.warmed_nb Samples.sixth
                     Samples.sixth_vector 1) sixth_emits) as (_ & H9 & H10).
  split; [rewrite H9|rewrite H10]; f_equal; by apply Qc_is_canon.
Defined.

Lemma store_totals_witness :
  scores_in_range Samples.season ∧
  store_total Full.points_for
    (Full.team_stats (Full.game_loop Samples.squash Samples.full_lookups Full.initial_state
                        Samples.season))
  = points_played Samples.season.
Proof.
  assert (scores_in_range Samples.season) as Hrange.
  { split; [|reflexivity].
    unfold Samples.season, Samples.warm_up, Samples.sixth. cbn [app].
    repeat (constructor; [simpl; intros ?? [= <-] [= <-]; lia|]).
    constructor. }
  split; [exact Hrange|].
  exact (proj1 (proj2 (proj2 (proj2 (proj2 (proj2 (proj2
           (store_totals Samples.squash Samples.full_lookups Samples.season)))))) Hrange)).
Defined.

Lemma player_point_features_witness :
  RichSamples.sixth_vector !! 11%nat = Some (Q_lit 24 20) ∧
  RichSamples.sixth_vector !! 12%nat = Some (Q_lit 24 200).
Proof.
  destruct (player_point_features Samples.squash Samples.sixth_game_stats Samples.one_injury
              RichSamples.sixth_weather Samples.one_sentiment _ Samples.sixth
              RichSamples.sixth_vector 1 rich_sixth_emits) as [H11 H12].
  split; [rewrite H11|rewrite H12]; f_equal; by apply Qc_is_canon.
Defined.

Lemma weather_features_witness :
  exact_in_float (game_id Samples.sixth) ∧
  RichSamples.sixth_vector !! 15%nat = Some (Q_lit 55 100) ∧
  RichSamples.sixth_vector !! 16%nat = Some (Q_lit 5 30).
Proof.
  assert (exact_in_float 6) as Hid by (split; apply Z.leb_le; reflexivity).
  split; [exact Hid|].
  destruct (weather_features Samples.squash Samples.sixth_game_stats Samples.one_injury
              RichSamples.sixth_weather Samples.one_sentiment _ Samples.sixth
              RichSamples.sixth_vector 1 rich_sixth_emits Hid) as [H15 H16].
  { repeat (constructor; [simpl; by intros ? [= <-]|]). constructor. }
  split; [rewrite H15|rewrite H16]; f_equal; by apply Qc_is_canon.
Defined.

Lemma notebook_vectors_ignore_stats_and_weather_witness :
  ∃ X y,
    Basic.engineer_features Samples.season Samples.stats_header Samples.one_injury
      Samples.no_table Samples.one_sentiment = Return (X, y) ∧
    length X = 1%nat ∧
    Forall (λ v, v !! 11%nat = Some 0%Qc ∧ v !! 12%nat = Some 0%Qc ∧
                 v !! 15%nat = Some (Q_lit 72 100) ∧ v !! 16%nat = Some (Q_lit 17 100)) X.
Proof.
  eexists _, _. split; [by vm_compute|]. split; [reflexivity|].
  eapply (notebook_vectors_ignore_stats_and_weather Samples.season Samples.stats_header
            Samples.one_injury Samples.no_table Samples.one_sentiment).
  by vm_compute.
Defined.

Lemma notebook_stops_at_player_stats_witness :
  Basic.engineer_features (Samples.warm_up ++ Samples.sixth :: []) Samples.sixth_game_stats
    Samples.one_injury Samples.no_table Samples.one_sentiment = Raise TypeError.
Proof.
  eapply (notebook_stops_at_player_stats Samples.warm_up [] Samples.sixth 101 99).
  - by vm_compute.
  - by vm_compute.
  - reflexivity.
  - reflexivity.
  - by vm_compute.
  - by vm_compute.
  - by vm_compute.
Defined.
